(** * Verification of the workflow orchestration core

    A shallow embedding of three Python modules of the repository:
    - [agents/base_agent.py]      (the agent execution contract),
    - [utils/json_validator.py]   (workflow schema and dependency checks),
    - [langgraph_builder.py]      (reference resolution and node execution).

    Python objects are represented by the inductive type [value]; a [dict] is
    an association list in insertion order.  Code that may raise or that
    mutates an object runs in a small state-and-exception monad [M]. *)

From Stdlib Require Import String Ascii List ZArith QArith Bool Lia DecimalString.
Import ListNotations.
Local Open Scope string_scope.
Local Open Scope list_scope.

(** ** Python strings *)

Module PyStr.

(** [needle in s] *)
Fixpoint contains (needle s : string) : bool :=
  match s with
  | EmptyString => prefix needle EmptyString
  | String _ s' => prefix needle s || contains needle s'
  end.

Fixpoint rev_onto (acc s : string) : string :=
  match acc with
  | EmptyString => s
  | String c acc' => rev_onto acc' (String c s)
  end.

(** [s.split(sep)] for a non-empty separator: pieces between the
    non-overlapping occurrences of [sep], scanned left to right.  [skip]
    counts the characters of a matched separator still to be dropped and [acc]
    holds the current piece reversed. *)
Fixpoint split_go (sep : string) (skip : nat) (acc s : string) : list string :=
  match s with
  | EmptyString => [rev_onto acc EmptyString]
  | String c s' =>
      match skip with
      | S k => split_go sep k acc s'
      | O =>
          if prefix sep s
          then rev_onto acc EmptyString :: split_go sep (String.length sep - 1) EmptyString s'
          else split_go sep 0 (String c acc) s'
      end
  end.

Definition split (sep s : string) : list string := split_go sep 0 EmptyString s.

(** [s.replace(c, '')] for a one-character [c] *)
Fixpoint remove_char (c : ascii) (s : string) : string :=
  match s with
  | EmptyString => EmptyString
  | String a s' => if Ascii.eqb a c then remove_char c s' else String a (remove_char c s')
  end.

Definition in_range (lo hi : nat) (c : ascii) : bool :=
  let n := nat_of_ascii c in (lo <=? n)%nat && (n <=? hi)%nat.

(** Character class of [str.isalnum] on the ASCII range. *)
Definition alnum_char (c : ascii) : bool :=
  in_range 48 57 c || in_range 65 90 c || in_range 97 122 c.

Fixpoint all_chars (p : ascii -> bool) (s : string) : bool :=
  match s with
  | EmptyString => true
  | String c s' => p c && all_chars p s'
  end.

(** A string stands for the UTF-8 encoding of a Python [str]: a byte below
    128 is an ASCII character, and any other character is a leading byte
    with the continuation bytes (128 to 191) that follow it. *)
Definition is_ascii (c : ascii) : bool := (nat_of_ascii c <? 128)%nat.

Definition is_continuation (c : ascii) : bool := in_range 128 191 c.

(** The characters of a string, in order. *)
Fixpoint chars (s : string) : list string :=
  match s with
  | EmptyString => []
  | String c s' =>
      let joins := match s' with
                   | String d _ => is_continuation d
                   | EmptyString => false
                   end in
      match chars s' with
      | ch :: rest =>
          if joins then String c ch :: rest
          else String c EmptyString :: ch :: rest
      | [] => [String c EmptyString]
      end
  end.

Section Unicode.
(** [c.isalnum()] for a character [c] outside ASCII: the verdict of the
    Unicode database of the interpreter. *)
Variable unicode_alnum : string -> bool.

(** [c.isalnum()] for one character. *)
Definition char_isalnum (ch : string) : bool :=
  match ch with
  | EmptyString => false
  | String c rest =>
      if is_ascii c
      then alnum_char c && match rest with
                           | EmptyString => true
                           | _ => false
                           end
      else unicode_alnum ch
  end.

(** [s.isalnum()]: every character is alphanumeric and there is at least
    one. *)
Definition isalnum (s : string) : bool :=
  match s with
  | EmptyString => false
  | _ => forallb char_isalnum (chars s)
  end.

End Unicode.

Definition hex_digit (n : nat) : ascii :=
  ascii_of_nat (if (n <? 10)%nat then 48 + n else 87 + n).

(** One byte of [repr(s)]; [q] is the code of the enclosing quote.  The
    bytes of a character outside ASCII are kept, as [repr] keeps every
    printable character. *)
Definition repr_char (q : nat) (c : ascii) : string :=
  let n := nat_of_ascii c in
  if (n =? 92)%nat then "\\"
  else if (n =? q)%nat then String (ascii_of_nat 92) (String c EmptyString)
  else if (n =? 10)%nat then "\n"
  else if (n =? 13)%nat then "\r"
  else if (n =? 9)%nat then "\t"
  else if (n <? 32)%nat || (n =? 127)%nat
       then String (ascii_of_nat 92)
              (String "x" (String (hex_digit (n / 16)) (String (hex_digit (n mod 16)) EmptyString)))
  else String c EmptyString.

Fixpoint repr_body (q : nat) (s : string) : string :=
  match s with
  | EmptyString => EmptyString
  | String c s' => repr_char q c ++ repr_body q s'
  end.

Definition squote : string := String (ascii_of_nat 39) EmptyString.
Definition dquote : string := String (ascii_of_nat 34) EmptyString.

(** [repr(s)]: double quotes are chosen only when the text holds a single
    quote and no double quote. *)
Definition repr (s : string) : string :=
  if contains squote s && negb (contains dquote s)
  then dquote ++ repr_body 34 s ++ dquote
  else squote ++ repr_body 39 s ++ squote.

(** [", ".join(l)] *)
Fixpoint join (sep : string) (l : list string) : string :=
  match l with
  | [] => EmptyString
  | [x] => x
  | x :: rest => x ++ sep ++ join sep rest
  end.

(** [repr] of a list of strings, as an f-string prints it. *)
Definition repr_list (l : list string) : string :=
  "[" ++ join ", " (map repr l) ++ "]".

End PyStr.

(** ** Python objects *)

(** The objects that flow through the workflow: JSON-like data.  Floats are
    carried as rationals; no property below depends on rounding. *)
#[warning="-register-all"]
Inductive value : Type :=
| VNone
| VBool (b : bool)
| VInt (z : Z)
| VFloat (q : Q)
| VStr (s : string)
| VList (items : list value)
| VDict (entries : list (string * value)).

Definition dict : Type := list (string * value).

(** [d.get(k)]: [None] stands for an absent key. *)
Fixpoint dict_get (d : dict) (k : string) : option value :=
  match d with
  | [] => None
  | (k', v) :: d' => if String.eqb k' k then Some v else dict_get d' k
  end.

(** [d[k] = v]: an existing key keeps its position, a new key goes last. *)
Fixpoint dict_set (d : dict) (k : string) (v : value) : dict :=
  match d with
  | [] => [(k, v)]
  | (k', v') :: d' =>
      if String.eqb k' k then (k', v) :: d' else (k', v') :: dict_set d' k v
  end.

Definition dict_keys (d : dict) : list string := map fst d.

(** [type(v).__name__] *)
Definition type_name (v : value) : string :=
  match v with
  | VNone => "NoneType"
  | VBool _ => "bool"
  | VInt _ => "int"
  | VFloat _ => "float"
  | VStr _ => "str"
  | VList _ => "list"
  | VDict _ => "dict"
  end.

(** Truth value of an object, as [not v] and [if v] read it. *)
Definition truthy (v : value) : bool :=
  match v with
  | VNone => false
  | VBool b => b
  | VInt z => negb (Z.eqb z 0)
  | VFloat q => negb (Qeq_bool q 0)
  | VStr s => negb (String.eqb s "")
  | VList l => match l with [] => false | _ => true end
  | VDict d => match d with [] => false | _ => true end
  end.

(** Induction over nested values: the hypotheses for lists and dicts speak
    about every item and every entry. *)
Section ValueInd.
Variable P : value -> Prop.
Hypothesis HNone : P VNone.
Hypothesis HBool : forall b, P (VBool b).
Hypothesis HInt : forall z, P (VInt z).
Hypothesis HFloat : forall q, P (VFloat q).
Hypothesis HStr : forall s, P (VStr s).
Hypothesis HList : forall l, Forall P l -> P (VList l).
Hypothesis HDict : forall d, Forall (fun kv => P (snd kv)) d -> P (VDict d).

Fixpoint value_nested_ind (v : value) : P v :=
  match v with
  | VNone => HNone
  | VBool b => HBool b
  | VInt z => HInt z
  | VFloat q => HFloat q
  | VStr s => HStr s
  | VList l =>
      HList l
        ((fix items (l : list value) : Forall P l :=
            match l with
            | [] => Forall_nil P
            | x :: l' => Forall_cons x (value_nested_ind x) (items l')
            end) l)
  | VDict d =>
      HDict d
        ((fix entries (d : list (string * value)) : Forall (fun kv => P (snd kv)) d :=
            match d with
            | [] => Forall_nil _
            | kv :: d' => Forall_cons kv (value_nested_ind (snd kv)) (entries d')
            end) d)
  end.
End ValueInd.

(** ** Exceptions and the state-and-exception monad *)

(** An instance of a subclass of [Exception]: [type(e).__name__] and
    [str(e)]. *)
Record exn : Type := Exn { exn_type : string; exn_msg : string }.

Inductive outcome (A : Type) : Type :=
| Returned (a : A)
| Raised (e : exn).
Arguments Returned {A} a.
Arguments Raised {A} e.

(** A computation over a mutable store [S].  What was written before an
    exception is raised stays written. *)
Definition M (S A : Type) : Type := S -> outcome A * S.

Definition ret {S A} (a : A) : M S A := fun s => (Returned a, s).

Definition bind {S A B} (m : M S A) (k : A -> M S B) : M S B :=
  fun s =>
    match m s with
    | (Returned a, s') => k a s'
    | (Raised e, s') => (Raised e, s')
    end.

Definition raise {S A} (e : exn) : M S A := fun s => (Raised e, s).

Definition get {S} : M S S := fun s => (Returned s, s).

Definition modify {S} (f : S -> S) : M S unit := fun s => (Returned tt, f s).

(** [try: body / except Exception as e: handler(e)] *)
Definition try_except {S A} (body : M S A) (handler : exn -> M S A) : M S A :=
  fun s =>
    match body s with
    | (Returned a, s') => (Returned a, s')
    | (Raised e, s') => handler e s'
    end.

(** A call of a function that has no access to the store. *)
Definition call {S A} (o : outcome A) : M S A := fun s => (o, s).

Declare Scope py_scope.
Delimit Scope py_scope with py.
Notation "x <- c ;; k" := (bind c (fun x => k))
  (at level 61, c at next level, right associativity) : py_scope.
Notation "c ;;; k" := (bind c (fun _ => k))
  (at level 61, right associativity) : py_scope.

(** [obj.get(key, default)]: only a dict has the method. *)
Definition py_get {S} (obj : value) (key : string) (default : value) : M S value :=
  match obj with
  | VDict d =>
      ret (match dict_get d key with Some v => v | None => default end)
  | _ =>
      raise (Exn "AttributeError"
               ("'" ++ type_name obj ++ "' object has no attribute 'get'"))
  end.

(** Records handed to the logger: level and message. *)
Inductive level : Type := DEBUG | INFO | WARNING | ERROR.
Definition log_record : Type := (level * string)%type.

Definition mem (x : string) (l : list string) : bool :=
  existsb (String.eqb x) l.

(** ** agents/base_agent.py *)

Module BaseAgent.
Local Open Scope py_scope.

(** The parts of an agent fixed by its class and constructor.  The two
    abstract methods are supplied by the subclass; either may raise, and
    [_validate_input] may return any object, read for its truth value. *)
Record Agent : Type := {
  agent_id : string;
  agent_name : string;
  _validate_input : dict -> outcome value;
  _execute : dict -> outcome value
}.

(** What [execute] tells the logger and which abstract method it entered. *)
Inductive event : Type :=
| AgentStarted (name : string) (input_keys : list string)
| EnteredValidate (input_data : dict)
| EnteredExecute (input_data : dict)
| AgentCompleted (name : string) (output_keys : list string) (execution_time : Q)
| AgentFailed (name : string) (message : string).

(** The mutable instance fields, with the trace of events so far. *)
Record AgentState : Type := {
  execution_count : Z;
  total_execution_time : Q;
  last_execution_time : option Q;
  trace : list event
}.

(** State set up by [__init__]. *)
Definition initial_state : AgentState :=
  {| execution_count := 0;
     total_execution_time := 0;
     last_execution_time := None;
     trace := [] |}.

(** The readings [execute] takes from the system clock: [time.time()] on
    entry, [time.time()] when the outcome is known, and
    [datetime.now().isoformat()]. *)
Record Clock : Type := {
  start_time : Q;
  end_time : Q;
  timestamp : string
}.

Definition emit (ev : event) : M AgentState unit :=
  modify (fun st =>
    {| execution_count := execution_count st;
       total_execution_time := total_execution_time st;
       last_execution_time := last_execution_time st;
       trace := trace st ++ [ev] |}).

Definition update_stats (execution_time : Q) : M AgentState unit :=
  modify (fun st =>
    {| execution_count := execution_count st + 1;
       total_execution_time := total_execution_time st + execution_time;
       last_execution_time := Some execution_time;
       trace := trace st |}).

Definition success_metadata (a : Agent) (execution_time : Q) (ts : string) : dict :=
  [ ("agent_name", VStr (agent_name a));
    ("agent_id", VStr (agent_id a));
    ("execution_time", VFloat execution_time);
    ("timestamp", VStr ts);
    ("success", VBool true) ].

Definition failure_metadata (a : Agent) (execution_time : Q) (ts : string)
    (message : string) : dict :=
  [ ("agent_name", VStr (agent_name a));
    ("agent_id", VStr (agent_id a));
    ("execution_time", VFloat execution_time);
    ("timestamp", VStr ts);
    ("success", VBool false);
    ("error_message", VStr message) ].

(** [output_data['_metadata'] = md]: item assignment with a string key
    succeeds on a dict only. *)
Definition set_metadata (output_data : value) (md : dict) : M AgentState dict :=
  match output_data with
  | VDict d => ret (dict_set d "_metadata" (VDict md))
  | VList _ =>
      raise (Exn "TypeError" "list indices must be integers or slices, not str")
  | _ =>
      raise (Exn "TypeError"
               ("'" ++ type_name output_data ++ "' object does not support item assignment"))
  end.

Definition error_output (a : Agent) (execution_time : Q) (ts : string) (e : exn) : dict :=
  [ ("error", VStr (exn_msg e));
    ("error_type", VStr (exn_type e));
    ("_metadata", VDict (failure_metadata a execution_time ts (exn_msg e))) ].

(** [BaseAgent.execute] *)
Definition execute (a : Agent) (clk : Clock) (input_data : dict) : M AgentState dict :=
  emit (AgentStarted (agent_name a) (dict_keys input_data)) ;;;
  try_except
    ( emit (EnteredValidate input_data) ;;;
      valid <- call (_validate_input a input_data) ;;
      (if negb (truthy valid)
       then raise (Exn "ValueError" ("Input validation failed for " ++ agent_name a))
       else ret tt) ;;;
      emit (EnteredExecute input_data) ;;;
      output_data <- call (_execute a input_data) ;;
      let execution_time := end_time clk - start_time clk in
      output_data <- set_metadata output_data
                       (success_metadata a execution_time (timestamp clk)) ;;
      update_stats execution_time ;;;
      emit (AgentCompleted (agent_name a) (dict_keys output_data) execution_time) ;;;
      ret output_data )
    (fun e =>
      let execution_time := end_time clk - start_time clk in
      emit (AgentFailed (agent_name a) (exn_msg e)) ;;;
      ret (error_output a execution_time (timestamp clk) e)).

(** [x / n] on a float and an int. *)
Definition py_truediv (x : Q) (n : Z) : M AgentState Q :=
  if Z.eqb n 0
  then raise (Exn "ZeroDivisionError" "float division by zero")
  else ret (x / inject_Z n).

Definition opt_float (o : option Q) : value :=
  match o with
  | Some q => VFloat q
  | None => VNone
  end.

(** [BaseAgent.get_stats] *)
Definition get_stats (a : Agent) : M AgentState dict :=
  st <- get ;;
  average <- (if Z.ltb 0 (execution_count st)
              then q <- py_truediv (total_execution_time st) (execution_count st) ;;
                   ret (VFloat q)
              else ret (VInt 0)) ;;
  ret [ ("agent_name", VStr (agent_name a));
        ("execution_count", VInt (execution_count st));
        ("total_execution_time", VFloat (total_execution_time st));
        ("average_execution_time", average);
        ("last_execution_time", opt_float (last_execution_time st)) ].

End BaseAgent.

(** ** utils/json_validator.py *)

Module JsonValidator.
Local Open Scope py_scope.

Record ToolConfig : Type := {
  name : string;
  config : dict
}.

Record WorkflowStep : Type := {
  id : string;
  agent : string;
  inputs : dict;
  instructions : string;
  tools : list ToolConfig;
  output_schema : dict
}.

Record WorkflowDefinition : Type := {
  workflow_name : string;
  description : string;
  steps : list WorkflowStep
}.

(** What the module takes from the interpreter and from the schema library,
    whose code is not part of the repository: the Unicode class of a
    character outside ASCII, the text [str(e)] of the [ValidationError]
    that the schema library raises for a document, and the text of the
    [TypeError] for a document that cannot be unpacked into keyword
    arguments. *)
Record Runtime : Type := {
  unicode_alnum : string -> bool;
  validation_error_str : value -> string;
  mapping_error_str : value -> string
}.

(** A workflow document as [json.load] returns it. *)
Definition document : Type := value.

(** What the path of a validator names on disk. *)
Inductive file_content : Type :=
| NoFile
| BadJson (message : string)
| JsonDoc (data : document).

(** [str(Path(s))] on a POSIX system: empty and [.] segments are dropped,
    a leading slash is kept, two leading slashes are kept as two, and the
    empty path is [.]. *)
Definition path_root (s : string) : string :=
  if prefix "//" s && negb (prefix "///" s) then "//"
  else if prefix "/" s then "/"
  else "".

Definition path_parts (s : string) : list string :=
  filter (fun part => negb (String.eqb part "") && negb (String.eqb part "."))
         (PyStr.split "/" s).

Definition Path (s : string) : string :=
  let body := PyStr.join "/" (path_parts s) in
  match path_root s, body with
  | EmptyString, EmptyString => "."
  | root, _ => root ++ body
  end.

(** A [WorkflowValidator] object and the records it logged.  The path is
    held in the form [Path] prints it. *)
Record WorkflowValidator : Type := {
  workflow_file : string;
  workflow_data : value;
  workflow_definition : option WorkflowDefinition;
  log : list log_record
}.

Definition new_validator (path : string) : WorkflowValidator :=
  {| workflow_file := Path path;
     workflow_data := VNone;
     workflow_definition := None;
     log := [] |}.

Definition log_records (records : list log_record) : M WorkflowValidator unit :=
  modify (fun v =>
    {| workflow_file := workflow_file v;
       workflow_data := workflow_data v;
       workflow_definition := workflow_definition v;
       log := log v ++ records |}).

Definition logger (lv : level) (msg : string) : M WorkflowValidator unit :=
  log_records [(lv, msg)].

Definition set_workflow_data (d : document) : M WorkflowValidator unit :=
  modify (fun v =>
    {| workflow_file := workflow_file v;
       workflow_data := d;
       workflow_definition := workflow_definition v;
       log := log v |}).

Definition set_workflow_definition (w : WorkflowDefinition) : M WorkflowValidator unit :=
  modify (fun v =>
    {| workflow_file := workflow_file v;
       workflow_data := workflow_data v;
       workflow_definition := Some w;
       log := log v |}).

(** A value together with the records logged while it was computed: the
    validators that the schema library calls log through the module's
    logger. *)
Definition Logged (A : Type) : Type := (A * list log_record)%type.

Definition quiet {A : Type} (a : A) : Logged A := (a, []).

Definition and_then {A B : Type} (m : Logged A) (k : A -> Logged B) : Logged B :=
  let (a, first) := m in
  let (b, second) := k a in
  (b, first ++ second).

Definition valid_agents : list string :=
  [ "ProspectSearchAgent"; "DataEnrichmentAgent"; "ScoringAgent";
    "OutreachContentAgent"; "OutreachExecutorAgent"; "ResponseTrackerAgent";
    "FeedbackTrainerAgent" ].

(** [WorkflowStep.validate_agent]: an unknown agent is only warned about. *)
Definition validate_agent (v : string) : Logged string :=
  (v, if negb (mem v valid_agents)
      then [(WARNING, (" Agent " ++ v ++ " not in predefined list: "
                         ++ PyStr.repr_list valid_agents)%string)]
      else []).

(** [step_ids.count(sid)] *)
Definition count (sid : string) (step_ids : list string) : nat :=
  List.length (filter (String.eqb sid) step_ids).

(** [len(set(step_ids))] *)
Fixpoint distinct (step_ids : list string) : nat :=
  match step_ids with
  | [] => 0
  | sid :: rest => if mem sid rest then distinct rest else S (distinct rest)
  end.

(** [WorkflowDefinition.validate_steps] *)
Definition validate_steps (v : list WorkflowStep) : outcome (list WorkflowStep) :=
  match v with
  | [] => Raised (Exn "ValueError" "Workflow must have at least one step")
  | _ =>
      let step_ids := map id v in
      if negb (Nat.eqb (List.length step_ids) (distinct step_ids))
      then
        let duplicates := filter (fun sid => Nat.ltb 1 (count sid step_ids)) step_ids in
        Raised (Exn "ValueError" ("Duplicate step IDs found: " ++ PyStr.repr_list duplicates))
      else Returned v
  end.

(** *** The schema library at work *)

(** Where in the document an error sits: field names and list indices. *)
Inductive loc_item : Type :=
| Key (field : string)
| Index (i : nat).

(** One entry of [e.errors()]: its [loc] and its [msg]. *)
Definition schema_error : Type := (list loc_item * string)%type.

Definition nat_text (n : nat) : string :=
  DecimalString.NilZero.string_of_uint (Nat.to_uint n).

Definition newline : string := String (ascii_of_nat 10) EmptyString.

Definition loc_item_text (it : loc_item) : string :=
  match it with
  | Key field => PyStr.repr field
  | Index i => nat_text i
  end.

(** The tuple [error['loc']] as an f-string prints it. *)
Definition loc_text (l : list loc_item) : string :=
  match l with
  | [it] => "(" ++ loc_item_text it ++ ",)"
  | _ => "(" ++ PyStr.join ", " (map loc_item_text l) ++ ")"
  end.

(** The schema library turns a [ValueError] of a validator into an entry
    whose message starts with this prefix. *)
Definition value_error (msg : string) : string := "Value error, " ++ msg.

(** The outcome of validating one part of the document: its errors, or the
    validated object. *)
Definition checked (A : Type) : Type := (list schema_error + A)%type.

Definition errors_of {A : Type} (r : checked A) : list schema_error :=
  match r with
  | inl errors => errors
  | inr _ => []
  end.

(** Every field is validated, and the errors of all of them are kept, in
    the order of the fields. *)
Definition ap {A B : Type} (f : checked (A -> B)) (r : checked A) : checked B :=
  match f, r with
  | inr g, inr a => inr (g a)
  | _, _ => inl (errors_of f ++ errors_of r)
  end.

(** A validator decorated with [field_validator] runs on a field that has
    its type; its [ValueError] becomes an entry at the field. *)
Definition after_validator {A : Type} (at_ : list loc_item) (r : outcome A) : checked A :=
  match r with
  | Returned a => inr a
  | Raised e => inl [(at_, value_error (exn_msg e))]
  end.

(** A required field of type [str]. *)
Definition str_field (at_ : list loc_item) (v : option value) : checked string :=
  match v with
  | None => inl [(at_, "Field required")]
  | Some (VStr s) => inr s
  | Some _ => inl [(at_, "Input should be a valid string")]
  end.

(** A required field of type [Dict[str, Any]]. *)
Definition dict_field (at_ : list loc_item) (v : option value) : checked dict :=
  match v with
  | None => inl [(at_, "Field required")]
  | Some (VDict d) => inr d
  | Some _ => inl [(at_, "Input should be a valid dictionary")]
  end.

(** An item of type [ToolConfig]. *)
Definition tool_config (at_ : list loc_item) (v : value) : checked ToolConfig :=
  match v with
  | VDict d =>
      ap (ap (inr Build_ToolConfig)
             (str_field (at_ ++ [Key "name"]) (dict_get d "name")))
         (dict_field (at_ ++ [Key "config"]) (dict_get d "config"))
  | _ => inl [(at_, "Input should be a valid dictionary or instance of ToolConfig")]
  end.

Fixpoint tool_items (at_ : list loc_item) (i : nat) (items : list value)
    : checked (list ToolConfig) :=
  match items with
  | [] => inr []
  | item :: rest =>
      ap (ap (inr cons) (tool_config (at_ ++ [Index i]) item)) (tool_items at_ (S i) rest)
  end.

(** The field [tools], a list of [ToolConfig] that is empty by default. *)
Definition tools_field (at_ : list loc_item) (v : option value) : checked (list ToolConfig) :=
  match v with
  | None => inr []
  | Some (VList items) => tool_items at_ 0 items
  | Some _ => inl [(at_, "Input should be a valid list")]
  end.

Section Schema.
Variable rt : Runtime.

(** [WorkflowStep.validate_id] *)
Definition validate_id (v : string) : outcome string :=
  if negb (PyStr.isalnum (unicode_alnum rt) (PyStr.remove_char "_" v))
  then Raised (Exn "ValueError" ("Step ID must be alphanumeric with underscores: " ++ v))
  else Returned v.

(** An item of type [WorkflowStep]: the fields in the order of their
    declaration, [id] and [agent] with their validators. *)
Definition workflow_step (at_ : list loc_item) (v : value) : Logged (checked WorkflowStep) :=
  match v with
  | VDict d =>
      let r_id :=
        match str_field (at_ ++ [Key "id"]) (dict_get d "id") with
        | inr s => after_validator (at_ ++ [Key "id"]) (validate_id s)
        | inl errors => inl errors
        end in
      and_then
        (match str_field (at_ ++ [Key "agent"]) (dict_get d "agent") with
         | inr s => and_then (validate_agent s) (fun a => quiet (inr a))
         | inl errors => quiet (inl errors)
         end)
        (fun r_agent =>
           quiet
             (ap (ap (ap (ap (ap (ap (inr Build_WorkflowStep) r_id) r_agent)
                             (dict_field (at_ ++ [Key "inputs"]) (dict_get d "inputs")))
                         (str_field (at_ ++ [Key "instructions"]) (dict_get d "instructions")))
                     (tools_field (at_ ++ [Key "tools"]) (dict_get d "tools")))
                 (dict_field (at_ ++ [Key "output_schema"]) (dict_get d "output_schema"))))
  | _ => quiet (inl [(at_, "Input should be a valid dictionary or instance of WorkflowStep")])
  end.

(** The items of the field [steps], in document order; [i] is the index of
    the first of [items]. *)
Fixpoint step_items (i : nat) (items : list value) : Logged (checked (list WorkflowStep)) :=
  match items with
  | [] => quiet (inr [])
  | item :: rest =>
      and_then (workflow_step [Key "steps"; Index i] item) (fun r =>
      and_then (step_items (S i) rest) (fun others =>
      quiet (ap (ap (inr cons) r) others)))
  end.

(** The field [steps]: [validate_steps] runs only on a list whose items
    were all validated without an error. *)
Definition steps_field (v : option value) : Logged (checked (list WorkflowStep)) :=
  match v with
  | None => quiet (inl [([Key "steps"], "Field required")])
  | Some (VList items) =>
      and_then (step_items 0 items) (fun r =>
      quiet (match r with
             | inr l => after_validator [Key "steps"] (validate_steps l)
             | inl errors => inl errors
             end))
  | Some _ => quiet (inl [([Key "steps"], "Input should be a valid list")])
  end.

Inductive construction : Type :=
| Built (w : WorkflowDefinition)
| Rejected (errors : list schema_error).

(** [WorkflowDefinition] called with the entries of the dict [data] as its
    keyword arguments: the object, or the entries of the
    [ValidationError]. *)
Definition construct (data : dict) : Logged construction :=
  and_then (steps_field (dict_get data "steps")) (fun r_steps =>
  quiet (match ap (ap (ap (inr Build_WorkflowDefinition)
                          (str_field [Key "workflow_name"] (dict_get data "workflow_name")))
                      (str_field [Key "description"] (dict_get data "description")))
                  r_steps with
         | inr w => Built w
         | inl errors => Rejected errors
         end)).

Definition error_line (e : schema_error) : string :=
  "   - " ++ loc_text (fst e) ++ ": " ++ snd e.

Fixpoint log_each (lv : level) (lines : list string) : M WorkflowValidator unit :=
  match lines with
  | [] => ret tt
  | l :: rest => logger lv l ;;; log_each lv rest
  end.

(** The file system, read by [load_workflow]. *)
Variable disk : string -> file_content.

(** [WorkflowValidator.load_workflow] *)
Definition load_workflow : M WorkflowValidator document :=
  v <- get ;;
  match disk (workflow_file v) with
  | NoFile =>
      raise (Exn "FileNotFoundError" ("Workflow file not found: " ++ workflow_file v))
  | BadJson msg =>
      logger ERROR (" Invalid JSON in workflow file: " ++ msg) ;;;
      raise (Exn "JSONDecodeError" msg)
  | JsonDoc data =>
      set_workflow_data data ;;;
      logger INFO (" Loaded workflow from " ++ workflow_file v) ;;;
      ret data
  end.

(** [WorkflowValidator.validate]: only a [ValidationError] is caught, logged
    entry by entry and raised again. *)
Definition validate : M WorkflowValidator bool :=
  v <- get ;;
  (if negb (truthy (workflow_data v))
   then load_workflow ;;; ret tt
   else ret tt) ;;;
  v <- get ;;
  match workflow_data v with
  | VDict data =>
      let (built, records) := construct data in
      log_records records ;;;
      match built with
      | Built w =>
          set_workflow_definition w ;;;
          logger INFO (" Workflow validation passed: " ++ workflow_name w) ;;;
          logger INFO ("   Total steps: " ++ nat_text (List.length (steps w))) ;;;
          ret true
      | Rejected errors =>
          logger ERROR " Workflow validation failed:" ;;;
          log_each ERROR (map error_line errors) ;;;
          raise (Exn "ValidationError" (validation_error_str rt (workflow_data v)))
      end
  | other => raise (Exn "TypeError" (mapping_error_str rt other))
  end.

(** The object in [self.workflow_definition], validating first when it is
    still unset. *)
Definition ensure_definition : M WorkflowValidator WorkflowDefinition :=
  v <- get ;;
  match workflow_definition v with
  | Some w => ret w
  | None =>
      validate ;;;
      v' <- get ;;
      match workflow_definition v' with
      | Some w => ret w
      | None => raise (Exn "AttributeError" "'NoneType' object has no attribute 'steps'")
      end
  end.

(** [WorkflowValidator.get_workflow] *)
Definition get_workflow : M WorkflowValidator WorkflowDefinition :=
  ensure_definition.

Definition is_reference (value : string) : bool :=
  PyStr.contains "{{" value && PyStr.contains "}}" value.

(** [value.split("{{")[1].split(".")[0]] *)
Definition ref_step_id (value : string) : string :=
  hd EmptyString (PyStr.split "." (nth 1 (PyStr.split "{{" value) EmptyString)).

(** The inner loop of [validate_dependencies] over [step.inputs.items()]:
    the first root that is neither [config] nor a declared step id. *)
Fixpoint check_inputs (step_ids : list string) (items : dict) : option string :=
  match items with
  | [] => None
  | (_, VStr value) :: rest =>
      if is_reference value
      then
        let r := ref_step_id value in
        if negb (String.eqb r "config") && negb (mem r step_ids)
        then Some r
        else check_inputs step_ids rest
      else check_inputs step_ids rest
  | _ :: rest => check_inputs step_ids rest
  end.

(** The outer loop over the steps: the first offending step and root. *)
Fixpoint check_steps (step_ids : list string) (l : list WorkflowStep)
    : option (string * string) :=
  match l with
  | [] => None
  | st :: rest =>
      match check_inputs step_ids (inputs st) with
      | Some r => Some (id st, r)
      | None => check_steps step_ids rest
      end
  end.

(** [WorkflowValidator.validate_dependencies] *)
Definition validate_dependencies : M WorkflowValidator bool :=
  w <- ensure_definition ;;
  let step_ids := map id (steps w) in
  match check_steps step_ids (steps w) with
  | Some (sid, r) =>
      logger ERROR ("Step " ++ sid ++ " references non-existent step: " ++ r) ;;;
      ret false
  | None =>
      logger INFO " All step dependencies validated" ;;;
      ret true
  end.

(** The loop of [get_step]: the first step with the given id. *)
Fixpoint find_step (step_id : string) (l : list WorkflowStep) : option WorkflowStep :=
  match l with
  | [] => None
  | st :: rest => if String.eqb (id st) step_id then Some st else find_step step_id rest
  end.

(** [WorkflowValidator.get_step] *)
Definition get_step (step_id : string) : M WorkflowValidator (option WorkflowStep) :=
  w <- ensure_definition ;;
  match find_step step_id (steps w) with
  | Some st => ret (Some st)
  | None =>
      logger WARNING ("  Step " ++ step_id ++ " not found in workflow") ;;;
      ret None
  end.

(** [validate_workflow_file] *)
Definition validate_workflow_file (path : string)
    : outcome WorkflowDefinition * WorkflowValidator :=
  ( validate ;;;
    validate_dependencies ;;;
    get_workflow ) (new_validator path).

End Schema.

End JsonValidator.

(** ** utils/config_loader.py (the two getters the resolver calls) and
    langgraph_builder.py *)

Module LangGraphBuilder.
Local Open Scope py_scope.

(** The run state is a dict: one slot per step id next to the run's
    metadata ([current_step], [completed_steps], [errors], ...). *)
Record World : Type := {
  state : dict;
  log : list log_record
}.

Definition logger (lv : level) (msg : string) : M World unit :=
  modify (fun w => {| state := state w; log := log w ++ [(lv, msg)] |}).

(** [state[key] = v] *)
Definition state_set (key : string) (v : value) : M World unit :=
  modify (fun w => {| state := dict_set (state w) key v; log := log w |}).

Definition read_state : M World dict :=
  w <- get ;; ret (state w).

(** [ConfigLoader]: the parsed YAML configuration, loaded once. *)
Record ConfigLoader : Type := { config : value }.

(** [value[k]] for a string [k], as far as [get_yaml_config] needs it: a
    missing key raises [KeyError] and anything but a dict raises [TypeError];
    both are the [None] here. *)
Definition subscript (v : value) (k : string) : option value :=
  match v with
  | VDict d => dict_get d k
  | _ => None
  end.

Fixpoint subscript_all (v : value) (keys : list string) : option value :=
  match keys with
  | [] => Some v
  | k :: rest =>
      match subscript v k with
      | Some v' => subscript_all v' rest
      | None => None
      end
  end.

(** [ConfigLoader.get_yaml_config] *)
Definition get_yaml_config (cfg : ConfigLoader) (key : string) (default : value)
    : M World value :=
  match subscript_all (config cfg) (PyStr.split "." key) with
  | Some v => ret v
  | None =>
      logger WARNING ("  Config key " ++ key ++ " not found, using default") ;;;
      ret default
  end.

Definition default_icp : value :=
  VDict [ ("industry", VList [VStr "SaaS"; VStr "Technology"]);
          ("location", VList [VStr "USA"]);
          ("employee_count", VDict [("min", VInt 100); ("max", VInt 1000)]);
          ("revenue", VDict [("min", VInt 20000000); ("max", VInt 200000000)]) ].

Definition default_scoring : value :=
  VDict [ ("weights",
           VDict [ ("industry_match", VFloat (3 # 10));
                   ("company_size", VFloat (2 # 10));
                   ("revenue_range", VFloat (2 # 10));
                   ("growth_signals", VFloat (3 # 10)) ]);
          ("min_score_threshold", VFloat (6 # 10)) ].

(** [ConfigLoader.get_icp_config] *)
Definition get_icp_config (cfg : ConfigLoader) : M World value :=
  get_yaml_config cfg "icp" default_icp.

(** [ConfigLoader.get_scoring_config] *)
Definition get_scoring_config (cfg : ConfigLoader) : M World value :=
  get_yaml_config cfg "scoring" default_scoring.

(** *** The pattern [\{\{(.+?)\}\}] *)

Definition is_newline (c : ascii) : bool := Nat.eqb (nat_of_ascii c) 10.

(** The lazy group, once its first character is taken: extend up to the
    first closing marker; a newline ends the attempt. *)
Fixpoint lazy_group (acc s : string) : option string :=
  match s with
  | EmptyString => None
  | String c s' =>
      if prefix "}}" s then Some (PyStr.rev_onto acc EmptyString)
      else if is_newline c then None
      else lazy_group (String c acc) s'
  end.

(** The group of a match whose opening marker has just been read. *)
Definition group_after_open (s : string) : option string :=
  match s with
  | EmptyString => None
  | String c s' => if is_newline c then None else lazy_group (String c EmptyString) s'
  end.

(** [re.search(pattern, value)], giving [match.group(1)] of the leftmost
    match. *)
Fixpoint re_search (value : string) : option string :=
  match value with
  | EmptyString => None
  | String _ rest =>
      let here :=
        if prefix "{{" value
        then match rest with
             | String _ after => group_after_open after
             | EmptyString => None
             end
        else None in
      match here with
      | Some g => Some g
      | None => re_search rest
      end
  end.

Section Builder.
(** [self.config] *)
Variable cfg : ConfigLoader.

(** The loop of [_get_nested_value] over the remaining [parts]. *)
Fixpoint navigate (path : string) (parts : list string) (v : value) : M World value :=
  match parts with
  | [] => ret v
  | part :: rest =>
      match v with
      | VDict d =>
          if String.eqb part "output" then navigate path rest v
          else
            match dict_get d part with
            | Some VNone | None =>
                logger WARNING (" Could not resolve path: " ++ path
                                  ++ " (stopped at " ++ part ++ ")") ;;;
                ret VNone
            | Some v' => navigate path rest v'
            end
      | _ =>
          logger WARNING (" Path resolution failed at " ++ part ++ " in " ++ path) ;;;
          ret VNone
      end
  end.

(** [LangGraphWorkflowBuilder._get_nested_value] *)
Definition _get_nested_value (path : string) : M World value :=
  let parts := PyStr.split "." path in
  if String.eqb (hd EmptyString parts) "config"
  then
    match nth_error parts 1 with
    | None => raise (Exn "IndexError" "list index out of range")
    | Some second =>
        if String.eqb second "scoring" then get_scoring_config cfg
        else if String.eqb second "icp" then get_icp_config cfg
        else ret VNone
    end
  else
    st <- read_state ;;
    navigate path parts (VDict st).

Section Entries.
Variable resolve : string -> value -> M World value.

(** The loop over [inputs.items()], filling [resolved]. *)
Fixpoint resolve_entries (items resolved : dict) : M World dict :=
  match items with
  | [] => ret resolved
  | (key, v) :: rest =>
      v' <- resolve key v ;;
      resolve_entries rest (dict_set resolved key v')
  end.

(** The list comprehension over the items of a list value. *)
Fixpoint resolve_items (items : list value) : M World (list value) :=
  match items with
  | [] => ret []
  | item :: rest =>
      item' <- match item with
               | VDict _ => resolve EmptyString item
               | _ => ret item
               end ;;
      rest' <- resolve_items rest ;;
      ret (item' :: rest')
  end.
End Entries.

(** One entry of [inputs]: the branches of the loop body.  On a dict the
    function calls itself on the entries, as [_resolve_input_references]
    does. *)
Fixpoint resolve_value (key : string) (v : value) {struct v} : M World value :=
  match v with
  | VStr s =>
      if PyStr.contains "{{" s && PyStr.contains "}}" s
      then
        match re_search s with
        | Some ref_path =>
            resolved_value <- _get_nested_value ref_path ;;
            logger DEBUG ("   Resolved: " ++ key ++ " = {{ref_path}} -> <class '"
                            ++ type_name resolved_value ++ "'>") ;;;
            ret resolved_value
        | None => ret v
        end
      else ret v
  | VDict d =>
      r <- resolve_entries resolve_value d [] ;;
      ret (VDict r)
  | VList l =>
      r <- resolve_items resolve_value l ;;
      ret (VList r)
  | _ => ret v
  end.

(** [LangGraphWorkflowBuilder._resolve_input_references] *)
Definition _resolve_input_references (inputs : dict) : M World dict :=
  resolve_entries resolve_value inputs [].

(** An agent as the node sees it: the bound method [agent.execute]. *)
Definition agent_callable : Type := dict -> outcome value.

(** [self.agents], by class name. *)
Variable agents : list (string * agent_callable).

Fixpoint agents_get (l : list (string * agent_callable)) (agent_name : string)
    : option agent_callable :=
  match l with
  | [] => None
  | (n, a) :: rest => if String.eqb n agent_name then Some a else agents_get rest agent_name
  end.

Definition error_record (step_id : string) (error_msg : value) (now : string) : value :=
  VDict [ ("step", VStr step_id); ("error", error_msg); ("timestamp", VStr now) ].

(** [state["errors"].append(record)] *)
Definition append_error (record : value) : M World unit :=
  st <- read_state ;;
  match dict_get st "errors" with
  | None => raise (Exn "KeyError" "'errors'")
  | Some (VList l) => state_set "errors" (VList (l ++ [record]))
  | Some other =>
      raise (Exn "AttributeError"
               ("'" ++ type_name other ++ "' object has no attribute 'append'"))
  end.

Definition rule : string :=
  "============================================================".

(** The closure [node_function] made by [_create_node_function] for a
    step; [now] is the reading of [datetime.now().isoformat()].  The logged
    texts are those of the source without their pictographs and without the
    objects some of them print. *)
Definition node_function (step_id agent_name : string) (step : JsonValidator.WorkflowStep)
    (now : string) : M World dict :=
  logger INFO (JsonValidator.newline ++ rule) ;;;
  logger INFO ("Executing Step: " ++ step_id ++ " (" ++ agent_name ++ ")") ;;;
  logger INFO rule ;;;
  match agents_get agents agent_name with
  | None =>
      let error_msg := ("Agent " ++ agent_name ++ " not found")%string in
      logger ERROR (" " ++ error_msg) ;;;
      append_error (error_record step_id (VStr error_msg) now) ;;;
      read_state
  | Some agent =>
      agent_input <- _resolve_input_references (JsonValidator.inputs step) ;;
      logger INFO (" Input keys: " ++ PyStr.repr_list (dict_keys agent_input)) ;;;
      try_except
        ( output <- call (agent agent_input) ;;
          metadata <- py_get output "_metadata" (VDict []) ;;
          success <- py_get metadata "success" (VBool true) ;;
          (if negb (truthy success)
           then
             error_msg <- py_get output "error" (VStr "Unknown error") ;;
             logger ERROR " Agent execution failed" ;;;
             append_error (error_record step_id error_msg now)
           else
             logger INFO "Step completed successfully" ;;;
             logger INFO (" Output keys: "
                            ++ PyStr.repr_list (match output with
                                                | VDict d => dict_keys d
                                                | _ => []
                                                end))) ;;;
          state_set step_id output ;;;
          state_set "current_step" (VStr step_id) ;;;
          state_set "completed_steps" (VList [VStr step_id]) )
        (fun e =>
          let error_msg := ("Exception during execution: " ++ exn_msg e)%string in
          logger ERROR (" " ++ error_msg) ;;;
          append_error (error_record step_id (VStr error_msg) now)) ;;;
      read_state
  end.

(** *** [build_graph] *)

(** Where an edge leads: a node, or the [END] of the graph. *)
Inductive target : Type :=
| Node (node_id : string)
| END.

(** The [StateGraph] as the calls of [build_graph] leave it: the nodes added
    with their functions, the entry point set and the edges added, each in
    call order.  A node function takes the reading of the clock and runs on
    the run state.  Of the checks the graph library makes on these calls,
    the one that the node names of validated step ids can fail is modelled:
    a node name is added once. *)
Record StateGraph : Type := {
  nodes : list (string * (string -> M World dict));
  entry_point : option string;
  edges : list (string * target)
}.

(** The graph under construction and the module's log. *)
Record Build : Type := {
  workflow : StateGraph;
  build_log : list log_record
}.

Definition build_logger (lv : level) (msg : string) : M Build unit :=
  modify (fun b => {| workflow := workflow b; build_log := build_log b ++ [(lv, msg)] |}).

Definition on_workflow (f : StateGraph -> StateGraph) : M Build unit :=
  modify (fun b => {| workflow := f (workflow b); build_log := build_log b |}).

(** [workflow = StateGraph(WorkflowState)] *)
Definition new_graph : M Build unit :=
  on_workflow (fun _ => {| nodes := []; entry_point := None; edges := [] |}).

(** [workflow.add_node(node_id, node_func)]: the library refuses a name it
    already holds. *)
Definition add_node (node_id : string) (node_func : string -> M World dict) : M Build unit :=
  b <- get ;;
  if mem node_id (map fst (nodes (workflow b)))
  then raise (Exn "ValueError" ("Node `" ++ node_id ++ "` already present."))
  else on_workflow (fun g => {| nodes := nodes g ++ [(node_id, node_func)];
                                entry_point := entry_point g;
                                edges := edges g |}).

Definition set_entry_point (node_id : string) : M Build unit :=
  on_workflow (fun g => {| nodes := nodes g;
                           entry_point := Some node_id;
                           edges := edges g |}).

Definition add_edge (start_key : string) (end_key : target) : M Build unit :=
  on_workflow (fun g => {| nodes := nodes g;
                           entry_point := entry_point g;
                           edges := edges g ++ [(start_key, end_key)] |}).

(** [node_map], from step ids to node ids. *)
Fixpoint node_map_get (node_map : list (string * string)) (k : string) : option string :=
  match node_map with
  | [] => None
  | (k', v) :: rest => if String.eqb k' k then Some v else node_map_get rest k
  end.

Fixpoint node_map_set (node_map : list (string * string)) (k v : string)
    : list (string * string) :=
  match node_map with
  | [] => [(k, v)]
  | (k', v') :: rest =>
      if String.eqb k' k then (k', v) :: rest else (k', v') :: node_map_set rest k v
  end.

(** [node_map[k]] *)
Definition node_map_item (node_map : list (string * string)) (k : string) : M Build string :=
  match node_map_get node_map k with
  | Some v => ret v
  | None => raise (Exn "KeyError" (PyStr.repr k))
  end.

(** [steps[i]] for [i >= 0] *)
Definition steps_item (steps : list string) (i : nat) : M Build string :=
  match nth_error steps i with
  | Some s => ret s
  | None => raise (Exn "IndexError" "list index out of range")
  end.

(** [steps[-1]] *)
Definition steps_last (steps : list string) : M Build string :=
  match steps with
  | [] => raise (Exn "IndexError" "list index out of range")
  | s :: rest => ret (last rest s)
  end.

(** The loop that adds one node per step. *)
Fixpoint add_nodes (l : list JsonValidator.WorkflowStep) (node_map : list (string * string))
    : M Build (list (string * string)) :=
  match l with
  | [] => ret node_map
  | step :: rest =>
      let step_id := JsonValidator.id step in
      let agent_name := JsonValidator.agent step in
      let node_id := (step_id ++ "_node")%string in
      let node_map := node_map_set node_map step_id node_id in
      build_logger INFO ("   Adding node: " ++ node_id ++ " (" ++ agent_name ++ ")") ;;;
      add_node node_id (node_function step_id agent_name step) ;;;
      add_nodes rest node_map
  end.

(** The loop [for i in range(len(steps) - 1)], from [i] with [n] rounds to
    go. *)
Fixpoint add_edges (steps : list string) (node_map : list (string * string)) (i n : nat)
    : M Build unit :=
  match n with
  | O => ret tt
  | S n' =>
      here <- steps_item steps i ;;
      start_key <- node_map_item node_map here ;;
      next <- steps_item steps (i + 1) ;;
      end_key <- node_map_item node_map next ;;
      add_edge start_key (Node end_key) ;;;
      add_edges steps node_map (S i) n'
  end.

(** [LangGraphWorkflowBuilder.build_graph], up to the call of [compile]: it
    returns the graph it has put together.  The first record is logged
    without its pictograph. *)
Definition build_graph (workflow_def : JsonValidator.WorkflowDefinition) : M Build StateGraph :=
  build_logger INFO "  Building LangGraph from workflow definition..." ;;;
  new_graph ;;;
  let steps := map JsonValidator.id (JsonValidator.steps workflow_def) in
  node_map <- add_nodes (JsonValidator.steps workflow_def) [] ;;
  first <- steps_item steps 0 ;;
  first_node <- node_map_item node_map first ;;
  set_entry_point first_node ;;;
  add_edges steps node_map 0 (List.length steps - 1) ;;;
  final <- steps_last steps ;;
  final_node <- node_map_item node_map final ;;
  add_edge final_node END ;;;
  build_logger INFO ("Graph built with " ++ JsonValidator.nat_text (List.length steps)
                       ++ " nodes") ;;;
  b <- get ;;
  ret (workflow b).

End Builder.

End LangGraphBuilder.


(** ** agents/*.py: the input checks of the seven agents *)

Module Agents.
Local Open Scope py_scope.

(** Each agent writes to a logger of its own; the records are the state of
    its input check. *)
Definition Log : Type := list log_record.

Definition logger (lv : level) (msg : string) : M Log unit :=
  modify (fun l => l ++ [(lv, msg)]).

(** [key in d] *)
Definition has_key (d : dict) (key : string) : bool :=
  match dict_get d key with
  | Some _ => true
  | None => false
  end.

(** [d[key]] *)
Definition item (d : dict) (key : string) : M Log value :=
  match dict_get d key with
  | Some v => ret v
  | None => raise (Exn "KeyError" (PyStr.repr key))
  end.

(** [isinstance(v, list)] and [isinstance(v, dict)] *)
Definition is_list (v : value) : bool :=
  match v with
  | VList _ => true
  | _ => false
  end.

Definition is_dict (v : value) : bool :=
  match v with
  | VDict _ => true
  | _ => false
  end.

(** [len(v)]: the sized objects are strings (counted in characters of the
    model), lists and dicts. *)
Definition len (v : value) : M Log nat :=
  match v with
  | VStr s => ret (String.length s)
  | VList l => ret (List.length l)
  | VDict d => ret (List.length d)
  | _ => raise (Exn "TypeError" ("object of type '" ++ type_name v ++ "' has no len()"))
  end.

Definition int_text (z : Z) : string := NilZero.string_of_int (Z.to_int z).

(** *** [DataEnrichmentAgent] *)

Module DataEnrichmentAgent.

Definition _validate_input (input_data : dict) : M Log value :=
  if negb (has_key input_data "leads")
  then logger ERROR " Missing required input key: leads" ;;; ret (VBool false)
  else
    leads <- item input_data "leads" ;;
    if negb (is_list leads)
    then logger ERROR " Leads must be a list" ;;; ret (VBool false)
    else
      n <- len leads ;;
      if Nat.eqb n 0
      then logger WARNING "  Empty leads list provided" ;;; ret (VBool true)
      else
        logger INFO (" Input validation passed: " ++ JsonValidator.nat_text n
                       ++ " leads to enrich") ;;;
        ret (VBool true).

End DataEnrichmentAgent.

(** *** [ScoringAgent] *)

Module ScoringAgent.

Definition _validate_input (input_data : dict) : M Log value :=
  if negb (has_key input_data "enriched_leads")
  then logger ERROR " Missing required input key: enriched_leads" ;;; ret (VBool false)
  else
    enriched_leads <- item input_data "enriched_leads" ;;
    if negb (is_list enriched_leads)
    then logger ERROR " enriched_leads must be a list" ;;; ret (VBool false)
    else
      n <- len enriched_leads ;;
      logger INFO (" Input validation passed: " ++ JsonValidator.nat_text n
                     ++ " leads to score") ;;;
      ret (VBool true).

End ScoringAgent.

(** *** [OutreachContentAgent] *)

Module OutreachContentAgent.

Definition _validate_input (input_data : dict) : M Log value :=
  if negb (has_key input_data "ranked_leads")
  then logger ERROR " Missing required input key: ranked_leads" ;;; ret (VBool false)
  else
    ranked_leads <- item input_data "ranked_leads" ;;
    if negb (is_list ranked_leads)
    then logger ERROR "ranked_leads must be a list" ;;; ret (VBool false)
    else
      n <- len ranked_leads ;;
      logger INFO (" Input validation passed: " ++ JsonValidator.nat_text n
                     ++ " leads for content generation") ;;;
      ret (VBool true).

End OutreachContentAgent.

(** *** [ProspectSearchAgent] *)

Module ProspectSearchAgent.

Definition required_keys : list string := ["icp"].

(** The loop over [required_keys]: [Some false] is the early [return False]. *)
Fixpoint check_required (keys : list string) (input_data : dict) : M Log (option value) :=
  match keys with
  | [] => ret None
  | key :: rest =>
      if negb (has_key input_data key)
      then logger ERROR (" Missing required input key: " ++ key) ;;;
           ret (Some (VBool false))
      else check_required rest input_data
  end.

Definition _validate_input (input_data : dict) : M Log value :=
  early <- check_required required_keys input_data ;;
  match early with
  | Some r => ret r
  | None =>
      icp <- item input_data "icp" ;;
      if negb (is_dict icp)
      then logger ERROR " ICP must be a dictionary" ;;; ret (VBool false)
      else logger INFO " Input validation passed" ;;; ret (VBool true)
  end.

End ProspectSearchAgent.

(** *** [ResponseTrackerAgent] *)

Module ResponseTrackerAgent.

(** The closing record prints the campaign id, which is left out of the
    text here. *)
Definition _validate_input (input_data : dict) : M Log value :=
  if negb (has_key input_data "campaign_id")
  then logger ERROR " Missing required input key: campaign_id" ;;; ret (VBool false)
  else
    campaign_id <- item input_data "campaign_id" ;;
    logger INFO " Input validation passed: Campaign " ;;;
    ret (VBool true).

End ResponseTrackerAgent.

(** *** [OutreachExecutorAgent] *)

Module OutreachExecutorAgent.

(** The loop over the messages: [Some false] is the early [return False].
    The records print the message, which is left out of the text here. *)
Fixpoint check_messages (messages : list value) : M Log (option value) :=
  match messages with
  | [] => ret None
  | msg :: rest =>
      lead_email <- py_get msg "lead_email" VNone ;;
      if negb (truthy lead_email)
      then logger ERROR "Message missing lead_email: " ;;; ret (Some (VBool false))
      else
        subject_line <- py_get msg "subject_line" VNone ;;
        if negb (truthy subject_line)
        then logger ERROR "Message missing subject_line: " ;;; ret (Some (VBool false))
        else
          email_body <- py_get msg "email_body" VNone ;;
          if negb (truthy email_body)
          then logger ERROR "Message missing email_body: " ;;; ret (Some (VBool false))
          else check_messages rest
  end.

Definition _validate_input (input_data : dict) : M Log value :=
  if negb (has_key input_data "messages")
  then logger ERROR "Missing required input key: messages" ;;; ret (VBool false)
  else
    messages <- item input_data "messages" ;;
    match messages with
    | VList l =>
        early <- check_messages l ;;
        match early with
        | Some r => ret r
        | None =>
            n <- len messages ;;
            logger INFO ("Input validation passed: " ++ JsonValidator.nat_text n
                           ++ " messages to send") ;;;
            ret (VBool true)
        end
    | _ => logger ERROR "messages must be a list" ;;; ret (VBool false)
    end.

End OutreachExecutorAgent.

(** *** [FeedbackTrainerAgent] *)

Module FeedbackTrainerAgent.

Section Instance.
(** [self.min_sample_size], an integer as its default of 20. *)
Variable min_sample_size : Z.

Definition _validate_input (input_data : dict) : M Log value :=
  if negb (has_key input_data "responses")
  then logger ERROR " Missing required input key: responses" ;;; ret (VBool false)
  else if negb (has_key input_data "campaign_metrics")
  then logger ERROR " Missing required input key: campaign_metrics" ;;; ret (VBool false)
  else
    responses <- item input_data "responses" ;;
    n <- len responses ;;
    (if Z.ltb (Z.of_nat n) min_sample_size
     then logger WARNING (" Sample size (" ++ JsonValidator.nat_text n
                            ++ ") below minimum (" ++ int_text min_sample_size
                            ++ "). Results may not be statistically significant.")
     else ret tt) ;;;
    logger INFO (" Input validation passed: " ++ JsonValidator.nat_text n
                   ++ " responses to analyze") ;;;
    ret (VBool true).

End Instance.

End FeedbackTrainerAgent.

(** *** The seven classes as one family *)

Inductive agent_class : Type :=
| ProspectSearch
| DataEnrichment
| Scoring
| OutreachContent
| OutreachExecutor
| ResponseTracker
| FeedbackTrainer (min_sample_size : Z).

(** [self.__class__.__name__] *)
Definition class_name (c : agent_class) : string :=
  match c with
  | ProspectSearch => "ProspectSearchAgent"
  | DataEnrichment => "DataEnrichmentAgent"
  | Scoring => "ScoringAgent"
  | OutreachContent => "OutreachContentAgent"
  | OutreachExecutor => "OutreachExecutorAgent"
  | ResponseTracker => "ResponseTrackerAgent"
  | FeedbackTrainer _ => "FeedbackTrainerAgent"
  end.

(** The [_validate_input] that the class defines. *)
Definition validate_input (c : agent_class) : dict -> M Log value :=
  match c with
  | ProspectSearch => ProspectSearchAgent._validate_input
  | DataEnrichment => DataEnrichmentAgent._validate_input
  | Scoring => ScoringAgent._validate_input
  | OutreachContent => OutreachContentAgent._validate_input
  | OutreachExecutor => OutreachExecutorAgent._validate_input
  | ResponseTracker => ResponseTrackerAgent._validate_input
  | FeedbackTrainer min_sample_size => FeedbackTrainerAgent._validate_input min_sample_size
  end.

(** An instance of a subclass, as [BaseAgent.execute] sees it: the input
    check run on the agent's logger, of which [execute] reads the outcome
    only. *)
Definition instance (agent_id agent_name : string)
    (_validate_input : dict -> M Log value) (_execute : dict -> outcome value)
    : BaseAgent.Agent :=
  {| BaseAgent.agent_id := agent_id;
     BaseAgent.agent_name := agent_name;
     BaseAgent._validate_input := fun input_data => fst (_validate_input input_data []);
     BaseAgent._execute := _execute |}.

(** An instance of the class [c] with the core logic [_execute]. *)
Definition new (c : agent_class) (agent_id : string) (_execute : dict -> outcome value)
    : BaseAgent.Agent :=
  instance agent_id (class_name c) (validate_input c) _execute.

End Agents.
(** * Vocabulary of the properties *)

(** ** The agent contract *)

Module AgentSpec.
Import BaseAgent.

(** The duration [execute] reports. *)
Definition elapsed (clk : Clock) : Q := end_time clk - start_time clk.

(** The message of the [TypeError] raised when the payload of [_execute]
    does not take a string key. *)
Definition assignment_error (output_data : value) : exn :=
  match output_data with
  | VList _ => Exn "TypeError" "list indices must be integers or slices, not str"
  | _ => Exn "TypeError"
           ("'" ++ type_name output_data ++ "' object does not support item assignment")
  end.

(** The faults that can arise in the body of the [try] block, by origin. *)
Inductive Faults (a : Agent) (input_data : dict) : exn -> Prop :=
| validation_raised e :
    _validate_input a input_data = Raised e ->
    Faults a input_data e
| validation_failed v :
    _validate_input a input_data = Returned v ->
    truthy v = false ->
    Faults a input_data (Exn "ValueError" ("Input validation failed for " ++ agent_name a))
| core_raised v e :
    _validate_input a input_data = Returned v ->
    truthy v = true ->
    _execute a input_data = Raised e ->
    Faults a input_data e
| payload_not_dict v o :
    _validate_input a input_data = Returned v ->
    truthy v = true ->
    _execute a input_data = Returned o ->
    (forall d, o <> VDict d) ->
    Faults a input_data (assignment_error o).

(** The body runs to its end: validation passes and the core logic returns a
    dict. *)
Definition Completes (a : Agent) (input_data : dict) (d : dict) : Prop :=
  exists v, _validate_input a input_data = Returned v /\ truthy v = true /\
            _execute a input_data = Returned (VDict d).

(** Whether [_execute] was entered after the trace [before]. *)
Definition entered_execute (before after : list event) : Prop :=
  exists input_data evs1 evs2, after = before ++ evs1 ++ EnteredExecute input_data :: evs2.

Definition same_stats (st st' : AgentState) : Prop :=
  execution_count st' = execution_count st /\
  total_execution_time st' = total_execution_time st /\
  last_execution_time st' = last_execution_time st.

Definition failed_result (out : dict) : Prop :=
  exists md, dict_get out "_metadata" = Some (VDict md) /\
             dict_get md "success" = Some (VBool false).

Ltac run := unfold execute, get_stats, py_truediv, emit, update_stats, set_metadata,
                   bind, try_except, call, modify, get, ret, raise; cbn.

(** The three events of a call whose validation is refused. *)
Definition refused_events (a : Agent) (input_data : dict) : list event :=
  [ AgentStarted (agent_name a) (dict_keys input_data);
    EnteredValidate input_data;
    AgentFailed (agent_name a) ("Input validation failed for " ++ agent_name a) ].

(** The [success] flag of a result's metadata. *)
Definition is_success (out : dict) : bool :=
  match dict_get out "_metadata" with
  | Some (VDict md) =>
      match dict_get md "success" with
      | Some (VBool true) => true
      | _ => false
      end
  | _ => false
  end.

(** A run of calls on one agent instance, in order. *)
Fixpoint execute_all (a : Agent) (calls : list (Clock * dict)) (st : AgentState)
    : list (outcome dict) * AgentState :=
  match calls with
  | [] => ([], st)
  | (clk, input_data) :: rest =>
      let (r, st1) := execute a clk input_data st in
      let (rs, st2) := execute_all a rest st1 in
      (r :: rs, st2)
  end.

Definition succeeded (r : outcome dict) : bool :=
  match r with
  | Returned out => is_success out
  | Raised _ => false
  end.

(** The dict [get_stats] builds from the instance fields. *)
Definition stats_dict (a : Agent) (st : AgentState) (average : value) : dict :=
  [ ("agent_name", VStr (agent_name a));
    ("execution_count", VInt (execution_count st));
    ("total_execution_time", VFloat (total_execution_time st));
    ("average_execution_time", average);
    ("last_execution_time", opt_float (last_execution_time st)) ].

(** The durations of the successful calls of a run, in call order. *)
Definition successful_durations (calls : list (Clock * dict))
    (results : list (outcome dict)) : list Q :=
  map (fun cr => elapsed (fst (fst cr)))
      (filter (fun cr => succeeded (snd cr)) (combine calls results)).

End AgentSpec.

(** ** The workflow validator *)

Module ValidatorSpec.
Import JsonValidator.

(** A step id that [validate_id] accepts. *)
Definition well_formed_id (rt : Runtime) (v : string) : Prop := validate_id rt v = Returned v.

(** [s.isalnum()] for a text of ASCII characters. *)
Definition ascii_isalnum (s : string) : bool :=
  match s with
  | EmptyString => false
  | _ => PyStr.all_chars PyStr.alnum_char s
  end.

(** The entries of the [id] validators over typed steps, in document
    order; [i] is the index of the first step. *)
Fixpoint id_errors (rt : Runtime) (i : nat) (l : list WorkflowStep) : list schema_error :=
  match l with
  | [] => []
  | st :: rest =>
      match validate_id rt (id st) with
      | Returned _ => []
      | Raised e => [([Key "steps"; Index i; Key "id"], value_error (exn_msg e))]
      end ++ id_errors rt (S i) rest
  end.

(** The verdict of [construct], without the records it logs. *)
Definition verdict (rt : Runtime) (data : dict) : construction := fst (construct rt data).

(** The JSON of a definition that has all its fields. *)
Definition json_of_tool (t : ToolConfig) : value :=
  VDict [ ("name", VStr (name t)); ("config", VDict (config t)) ].

Definition json_of_step (st : WorkflowStep) : value :=
  VDict [ ("id", VStr (id st));
          ("agent", VStr (agent st));
          ("inputs", VDict (inputs st));
          ("instructions", VStr (instructions st));
          ("tools", VList (map json_of_tool (tools st)));
          ("output_schema", VDict (output_schema st)) ].

Definition entries_of (w : WorkflowDefinition) : dict :=
  [ ("workflow_name", VStr (workflow_name w));
    ("description", VStr (description w));
    ("steps", VList (map json_of_step (steps w))) ].

Definition json_of (w : WorkflowDefinition) : document := VDict (entries_of w).

(** The records [validate] leaves when it rejects a document: the one of
    the load, those of the agent validators, the headline and one line per
    entry of the error. *)
Definition rejection_log (path : string) (warnings : list log_record)
    (errors : list schema_error) : list log_record :=
  [(INFO, (" Loaded workflow from " ++ Path path)%string)] ++ warnings
    ++ [(ERROR, " Workflow validation failed:")]
    ++ map (fun e => (ERROR, error_line e)) errors.

(** The entry of a rejected duplicate check. *)
Definition duplicates_entry (duplicates : list string) : schema_error :=
  ([Key "steps"], value_error ("Duplicate step IDs found: " ++ PyStr.repr_list duplicates)).

(** The entry of an ill-formed id at index [k]. *)
Definition id_entry (k : nat) (v : string) : schema_error :=
  ([Key "steps"; Index k; Key "id"],
   value_error ("Step ID must be alphanumeric with underscores: " ++ v)).

(** The errors of the two text fields at the top of the document. *)
Definition top_errors (data : dict) : list schema_error :=
  errors_of (str_field [Key "workflow_name"] (dict_get data "workflow_name"))
  ++ errors_of (str_field [Key "description"] (dict_get data "description")).

(** An error that sits at or below a place of the document. *)
Definition under (at_ : list loc_item) (e : schema_error) : Prop :=
  exists suffix, fst e = at_ ++ suffix.

(** A validator after it logged [records]. *)
Definition with_log (v : WorkflowValidator) (records : list log_record) : WorkflowValidator :=
  {| workflow_file := workflow_file v;
     workflow_data := workflow_data v;
     workflow_definition := workflow_definition v;
     log := log v ++ records |}.






(** ASCII characters of a well-formed step id. *)
Definition id_char (c : ascii) : bool := PyStr.alnum_char c || Ascii.eqb c "_".

(** Bytes of a well-formed step id: those characters, and the bytes of
    characters outside ASCII. *)
Definition id_byte (c : ascii) : bool := id_char c || negb (PyStr.is_ascii c).

Definition alnum_byte (c : ascii) : bool := PyStr.alnum_char c || negb (PyStr.is_ascii c).

Definition dependency_error (sid r : string) : log_record :=
  (ERROR, ("Step " ++ sid ++ " references non-existent step: " ++ r)%string).

Definition dependencies_ok : log_record :=
  (INFO, " All step dependencies validated").

(** Some character of the text satisfies [p]. *)
Fixpoint any_char (p : ascii -> bool) (s : string) : bool :=
  match s with
  | EmptyString => false
  | String c s' => p c || any_char p s'
  end.

End ValidatorSpec.

(** ** The graph builder *)

Module BuilderSpec.
Import LangGraphBuilder.

(** A world after [records] were logged. *)
Definition add_log (w : World) (records : list log_record) : World :=
  {| state := state w; log := log w ++ records |}.

(** A computation that only reads the run state: its outcome and the records
    it logs are determined by the state, which it leaves as it was. *)
Definition ReadOnly {A : Type} (m : M World A) : Prop :=
  forall st, exists (r : outcome A) (records : list log_record),
    forall lg, m {| state := st; log := lg |} = (r, {| state := st; log := lg ++ records |}).

(** A read-only computation that always returns. *)
Definition Returns {A : Type} (m : M World A) : Prop :=
  forall st, exists (a : A) (records : list log_record),
    forall lg, m {| state := st; log := lg |}
               = (Returned a, {| state := st; log := lg ++ records |}).

(** From the run state [st] the computation ends with outcome [r] and run
    state [st'], whatever was and is logged. *)
Definition Runs {A : Type} (m : M World A) (st : dict) (r : outcome A) (st' : dict) : Prop :=
  forall lg, exists lg', m {| state := st; log := lg |} = (r, {| state := st'; log := lg' |}).

(** The faults that can arise inside the [try] block of a node, for the
    resolved input [agent_input]. *)
Inductive TryFault (agent : agent_callable) (agent_input : dict) : exn -> Prop :=
| agent_raised e :
    agent agent_input = Raised e ->
    TryFault agent agent_input e
| output_not_dict o :
    agent agent_input = Returned o ->
    (forall d, o <> VDict d) ->
    TryFault agent agent_input
      (Exn "AttributeError" ("'" ++ type_name o ++ "' object has no attribute 'get'"))
| metadata_not_dict d md :
    agent agent_input = Returned (VDict d) ->
    dict_get d "_metadata" = Some md ->
    (forall m, md <> VDict m) ->
    TryFault agent agent_input
      (Exn "AttributeError" ("'" ++ type_name md ++ "' object has no attribute 'get'")).

(** The [success] flag the node reads off an agent's output, with the
    defaults of the two [get] calls. *)
Definition reported_success (output : dict) : option value :=
  match dict_get output "_metadata" with
  | None => Some (VBool true)
  | Some (VDict md) =>
      match dict_get md "success" with
      | None => Some (VBool true)
      | Some flag => Some flag
      end
  | Some _ => None
  end.

(** The [error] entry the node reports, with its default. *)
Definition reported_error (output : dict) : value :=
  match dict_get output "error" with
  | Some msg => msg
  | None => VStr "Unknown error"
  end.

(** The run state has a list in its [errors] slot. *)
Definition errors_are (st : dict) (errs : list value) : Prop :=
  dict_get st "errors" = Some (VList errs).

(** The three writes that close the [try] block. *)
Definition store_output (st : dict) (step_id : string) (output : value) : dict :=
  dict_set (dict_set (dict_set st step_id output) "current_step" (VStr step_id))
    "completed_steps" (VList [VStr step_id]).

Definition exception_message (e : exn) : value :=
  VStr ("Exception during execution: " ++ exn_msg e).

(** Characters a reference path may hold between its markers: anything but
    a closing brace and a newline. *)
Definition group_char (c : ascii) : bool :=
  negb (Ascii.eqb c "}") && negb (is_newline c).

Definition no_open_brace (c : ascii) : bool := negb (Ascii.eqb c "{").

Definition no_dot (c : ascii) : bool := negb (Ascii.eqb c ".").

Definition is_dict (v : value) : bool :=
  match v with
  | VDict _ => true
  | _ => false
  end.

(** No key occurs twice, as in every Python dict. *)
Fixpoint unique_keys (d : dict) : bool :=
  match d with
  | [] => true
  | (k, _) :: rest => negb (mem k (dict_keys rest)) && unique_keys rest
  end.

(** A string the resolver reads as a reference. *)
Definition has_markers (s : string) : bool :=
  PyStr.contains "{{" s && PyStr.contains "}}" s.

(** An object in which the resolver finds nothing to substitute: no string
    value of a dict, at any depth the resolver descends to, has both
    markers.  The resolver descends into dict values and into the dict
    items of lists. *)
Fixpoint reference_free (v : value) : bool :=
  match v with
  | VStr s => negb (has_markers s)
  | VList l =>
      forallb (fun item => match item with
                           | VDict _ => reference_free item
                           | _ => true
                           end) l
  | VDict d => unique_keys d && forallb (fun kv => reference_free (snd kv)) d
  | _ => true
  end.

Definition config_warning (key : string) : log_record :=
  (WARNING, ("  Config key " ++ key ++ " not found, using default")%string).

(** What [get_yaml_config] gives for a one-segment key. *)
Definition yaml_or_default (cfg : ConfigLoader) (key : string) (default : value)
    (w : World) : outcome value * World :=
  match subscript (config cfg) key with
  | Some v => (Returned v, w)
  | None => (Returned default, add_log w [config_warning key])
  end.

(** A key of the run state that the node of [step_id] has no business
    with. *)
Definition foreign_key (step_id key : string) : Prop :=
  key <> step_id /\ key <> "current_step" /\ key <> "completed_steps" /\ key <> "errors".

Definition not_found_message (agent_name : string) : value :=
  VStr ("Agent " ++ agent_name ++ " not found").

(** Characters of a path segment: no dot, no closing brace, no newline. *)
Definition segment_char (c : ascii) : bool := no_dot c && group_char c.

(** The error list a node leaves behind after it read [flag] off a
    result. *)
Definition errors_after (errs : list value) (step_id : string) (output : dict)
    (flag : value) (now : string) : list value :=
  if truthy flag then errs
  else errs ++ [error_record step_id (reported_error output) now].

(** ** The graph *)

(** The node id [build_graph] gives to a step. *)
Definition node_name (step_id : string) : string := step_id ++ "_node".

(** The edges of a chain through [names], ending in [END]. *)
Fixpoint chain (names : list string) : list (string * target) :=
  match names with
  | [] => []
  | a :: rest =>
      (a, match rest with
          | [] => END
          | b :: _ => Node b
          end) :: chain rest
  end.

(** The first edge that leaves a node. *)
Fixpoint successor (es : list (string * target)) (n : string) : option target :=
  match es with
  | [] => None
  | (a, t) :: rest => if String.eqb a n then Some t else successor rest n
  end.

(** The nodes met when the edges are followed from [n] for at most [fuel]
    steps, and whether [END] was reached. *)
Fixpoint route (es : list (string * target)) (fuel : nat) (n : string)
    : list string * bool :=
  match fuel with
  | O => ([], false)
  | S fuel' =>
      match successor es n with
      | Some END => ([n], true)
      | Some (Node m) => let (path, ended) := route es fuel' m in (n :: path, ended)
      | None => ([n], false)
      end
  end.

(** The edges between consecutive names. *)
Fixpoint links (names : list string) : list (string * target) :=
  match names with
  | [] => []
  | a :: rest =>
      match rest with
      | [] => []
      | b :: _ => (a, Node b) :: links rest
      end
  end.

(** The node map once the loop over [l] has run from [m]. *)
Definition node_map_after (l : list JsonValidator.WorkflowStep) (m : list (string * string))
    : list (string * string) :=
  fold_left (fun m s => node_map_set m (JsonValidator.id s) (node_name (JsonValidator.id s))) l m.

(** A graph from its three parts. *)
Definition graph_of (ns : list (string * (string -> M World dict))) (e : option string)
    (es : list (string * target)) : StateGraph :=
  {| nodes := ns; entry_point := e; edges := es |}.

(** The node [build_graph] adds for a step. *)
Definition node_entry (cfg : ConfigLoader) (agents : list (string * agent_callable))
    (s : JsonValidator.WorkflowStep) : string * (string -> M World dict) :=
  (node_name (JsonValidator.id s),
   node_function cfg agents (JsonValidator.id s) (JsonValidator.agent s) s).

End BuilderSpec.

(** ** Sample inputs *)

Module Samples.
Import JsonValidator.

Definition step (i a : string) (inp : dict) : WorkflowStep :=
  {| id := i; agent := a; inputs := inp; instructions := "";
     tools := []; output_schema := [] |}.

Definition workflow (l : list WorkflowStep) : WorkflowDefinition :=
  {| workflow_name := "lead_pipeline"; description := "sample"; steps := l |}.

(** A disk on which every path names the JSON of the definition [d]. *)
Definition disk_with (d : WorkflowDefinition) : string -> file_content :=
  fun _ => JsonDoc (ValidatorSpec.json_of d).

(** Two characters outside ASCII, in UTF-8: the letter e with an acute
    accent (U+00E9) and the superscript two (U+00B2).  [str.isalnum] holds
    of both. *)
Definition e_acute : string :=
  String (ascii_of_nat 195) (String (ascii_of_nat 169) EmptyString).

Definition superscript_two : string :=
  String (ascii_of_nat 194) (String (ascii_of_nat 178) EmptyString).

(** An interpreter for which these two are the alphanumeric characters
    outside ASCII, with placeholders for the texts of the two library
    errors. *)
Definition runtime : Runtime :=
  {| unicode_alnum := fun ch => String.eqb ch e_acute || String.eqb ch superscript_two;
     validation_error_str := fun _ => "validation error";
     mapping_error_str := fun _ => "argument after ** must be a mapping" |}.

(** One step whose input refers to a step that is not declared. *)
Definition dangling : WorkflowDefinition :=
  workflow [ step "scoring" "ScoringAgent"
               [("enriched_leads", VStr "{{enrichment.output.leads}}")] ].


(** Two steps share the id [s1]; a third id is ill-formed. *)
Definition duplicate_and_malformed : WorkflowDefinition :=
  workflow [ step "s1" "ScoringAgent" []; step "s1" "ScoringAgent" [];
             step "b!" "ScoringAgent" [] ].

Definition duplicate_only : WorkflowDefinition :=
  workflow [ step "s1" "ScoringAgent" []; step "s1" "ScoringAgent" [] ].

Definition two_steps : WorkflowDefinition :=
  workflow [ step "search" "ProspectSearchAgent" [("icp", VStr "{{config.icp}}")];
             step "score" "ScoringAgent" [("enriched_leads", VStr "{{search.output.leads}}")] ].

(** A validator that already holds the validated definition [w]. *)
Definition validated (w : WorkflowDefinition) : WorkflowValidator :=
  {| workflow_file := "workflow.json";
     workflow_data := ValidatorSpec.json_of w;
     workflow_definition := Some w;
     log := [] |}.

(** The run state [execute] starts from. *)
Definition initial_run_state : dict :=
  [ ("workflow_name", VStr "lead_pipeline");
    ("execution_id", VStr "exec_20250101_000000");
    ("current_step", VStr "");
    ("completed_steps", VList []);
    ("errors", VList []);
    ("start_time", VStr "2025-01-01T00:00:00");
    ("end_time", VStr "");
    ("prospect_search", VDict []);
    ("enrichment", VDict []);
    ("scoring", VDict []);
    ("outreach_content", VDict []);
    ("send", VDict []);
    ("response_tracking", VDict []);
    ("feedback_trainer", VDict []) ].

(** The state of the repository's reference-resolution test. *)
Definition test_state : dict :=
  [ ("prospect_search",
     VDict [("leads", VList [ VDict [("name", VStr "Test Lead 1")];
                              VDict [("name", VStr "Test Lead 2")] ])]);
    ("scoring",
     VDict [("ranked_leads", VList [ VDict [("score", VFloat (9 # 10))] ])]) ].

Definition world_of (st : dict) : LangGraphBuilder.World :=
  {| LangGraphBuilder.state := st; LangGraphBuilder.log := [] |}.

(** A configuration without YAML file. *)
Definition no_yaml : LangGraphBuilder.ConfigLoader :=
  {| LangGraphBuilder.config := VDict [] |}.

(** An agent whose [execute] reports a validation failure, as
    [BaseAgent.execute] builds it. *)
Definition failure_output : dict :=
  [ ("error", VStr "Input validation failed for ScoringAgent");
    ("error_type", VStr "ValueError");
    ("_metadata",
     VDict [ ("agent_name", VStr "ScoringAgent");
             ("agent_id", VStr "graph_scoring");
             ("execution_time", VFloat 0);
             ("timestamp", VStr "2025-01-01T00:00:01");
             ("success", VBool false);
             ("error_message", VStr "Input validation failed for ScoringAgent") ]) ].

Definition failing_agent : LangGraphBuilder.agent_callable :=
  fun _ => Returned (VDict failure_output).

Definition raising_agent : LangGraphBuilder.agent_callable :=
  fun _ => Raised (Exn "RuntimeError" "boom").

Definition registry : list (string * LangGraphBuilder.agent_callable) :=
  [ ("ScoringAgent", failing_agent); ("ProspectSearchAgent", raising_agent) ].

(** A step whose input names the reserved root without a second segment. *)
Definition bare_config_step : WorkflowStep :=
  step "scoring" "ScoringAgent" [("scoring_criteria", VStr "{{config}}")].

Definition plain_step : WorkflowStep :=
  step "scoring" "ScoringAgent" [("enriched_leads", VStr "{{enrichment.output.leads}}")].

Definition search_step : WorkflowStep :=
  step "prospect_search" "ProspectSearchAgent" [("max_leads", VInt 5)].

(** A subclass whose validation refuses every input. *)
Definition refusing : BaseAgent.Agent :=
  {| BaseAgent.agent_id := "graph_scoring";
     BaseAgent.agent_name := "ScoringAgent";
     BaseAgent._validate_input := fun _ => Returned (VBool false);
     BaseAgent._execute := fun _ => Returned (VDict []) |}.

(** A subclass whose payload already carries a [_metadata] key. *)
Definition echoing : BaseAgent.Agent :=
  {| BaseAgent.agent_id := "graph_enrichment";
     BaseAgent.agent_name := "DataEnrichmentAgent";
     BaseAgent._validate_input := fun _ => Returned (VBool true);
     BaseAgent._execute :=
       fun input_data => Returned (VDict (("_metadata", VStr "mine") :: input_data)) |}.

(** A subclass whose core logic forgets to return. *)
Definition returning_none : BaseAgent.Agent :=
  {| BaseAgent.agent_id := "graph_content";
     BaseAgent.agent_name := "OutreachContentAgent";
     BaseAgent._validate_input := fun _ => Returned (VBool true);
     BaseAgent._execute := fun _ => Returned VNone |}.

(** A subclass whose validation raises. *)
Definition crashing : BaseAgent.Agent :=
  {| BaseAgent.agent_id := "graph_feedback";
     BaseAgent.agent_name := "FeedbackTrainerAgent";
     BaseAgent._validate_input :=
       fun _ => Raised (Exn "TypeError" "object of type 'NoneType' has no len()");
     BaseAgent._execute := fun _ => Returned (VDict []) |}.

Definition clock : BaseAgent.Clock :=
  {| BaseAgent.start_time := 10; BaseAgent.end_time := 12;
     BaseAgent.timestamp := "2025-01-01T00:00:01" |}.

End Samples.


(** ** The input checks of the agents *)

Module ChecksSpec.
Import Agents.

(** A field of a message that is present and true. *)
Definition field_set (msg : dict) (key : string) : bool :=
  match dict_get msg key with
  | Some v => truthy v
  | None => false
  end.

(** A message the executor can send: a dict with an address, a subject and
    a body. *)
Definition complete_message (msg : value) : bool :=
  match msg with
  | VDict m => field_set m "lead_email" && field_set m "subject_line" && field_set m "email_body"
  | _ => false
  end.

(** The objects that have a length. *)
Definition sized (v : value) : bool :=
  match v with
  | VStr _ | VList _ | VDict _ => true
  | _ => false
  end.

(** The key under which a class looks for its work. *)
Definition required_key (c : agent_class) : string :=
  match c with
  | ProspectSearch => "icp"
  | DataEnrichment => "leads"
  | Scoring => "enriched_leads"
  | OutreachContent => "ranked_leads"
  | OutreachExecutor => "messages"
  | ResponseTracker => "campaign_id"
  | FeedbackTrainer _ => "responses"
  end.

(** What a class asks of the object under its key. *)
Definition admits (c : agent_class) (v : value) : bool :=
  match c with
  | ProspectSearch => is_dict v
  | DataEnrichment | Scoring | OutreachContent => is_list v
  | OutreachExecutor =>
      match v with
      | VList l => forallb complete_message l
      | _ => false
      end
  | ResponseTracker => true
  | FeedbackTrainer _ => sized v
  end.

(** What a class asks of its input. *)
Definition meets (c : agent_class) (input_data : dict) : bool :=
  match dict_get input_data (required_key c) with
  | Some v =>
      admits c v &&
      match c with
      | FeedbackTrainer _ => has_key input_data "campaign_metrics"
      | _ => true
      end
  | None => false
  end.


Definition no_get (v : value) : exn :=
  Exn "AttributeError" ("'" ++ type_name v ++ "' object has no attribute 'get'").




(** The result of a call whose input check returned a false object. *)
Definition refused_output (a : BaseAgent.Agent) (clk : BaseAgent.Clock) : dict :=
  BaseAgent.error_output a (AgentSpec.elapsed clk) (BaseAgent.timestamp clk)
    (Exn "ValueError" ("Input validation failed for " ++ BaseAgent.agent_name a)).

Ltac check := unfold has_key, item, logger, len, bind, ret, raise, modify; cbn.

(** The bound method [agent.execute] of an instance in state [st], read by
    the clock [clk], as a node of the graph calls it. *)
Definition bound_execute (a : BaseAgent.Agent) (clk : BaseAgent.Clock)
    (st : BaseAgent.AgentState) : LangGraphBuilder.agent_callable :=
  fun input_data =>
    match fst (BaseAgent.execute a clk input_data st) with
    | Returned out => Returned (VDict out)
    | Raised e => Raised e
    end.

End ChecksSpec.
(** * Properties *)

(** ** Dicts *)

Lemma dict_get_set_same (d : dict) (k : string) (v : value) :
  dict_get (dict_set d k v) k = Some v.
Proof.
  induction d as [|[k' v'] d IH]; cbn.
  - now rewrite String.eqb_refl.
  - destruct (String.eqb k' k) eqn:E; cbn; rewrite E; auto.
Qed.

Lemma dict_get_set_other (d : dict) (k k' : string) (v : value) :
  k <> k' -> dict_get (dict_set d k v) k' = dict_get d k'.
Proof.
  intros Hne. induction d as [|[k0 v0] d IH]; cbn.
  - destruct (String.eqb k k') eqn:E; auto.
    apply String.eqb_eq in E. contradiction.
  - destruct (String.eqb k0 k) eqn:E; cbn.
    + apply String.eqb_eq in E. subst k0.
      destruct (String.eqb k k') eqn:E'; auto.
      apply String.eqb_eq in E'. contradiction.
    + destruct (String.eqb k0 k'); auto.
Qed.

(** ** Strings *)

Module PyStrFacts.
Import PyStr.

Lemma append_assoc (a b c : string) : ((a ++ b) ++ c = a ++ (b ++ c))%string.
Proof. induction a as [|x a IH]; cbn; [ reflexivity | now rewrite IH ]. Qed.

Lemma append_empty_r (a : string) : (a ++ "" = a)%string.
Proof. induction a as [|x a IH]; cbn; [ reflexivity | now rewrite IH ]. Qed.

Lemma prefix_empty (t : string) : prefix "" t = true.
Proof. destruct t; reflexivity. Qed.

Lemma prefix_head_differs (c0 c : ascii) (r s : string) :
  c0 <> c -> prefix (String c0 r) (String c s) = false.
Proof.
  intros N. cbn [prefix]. destruct (ascii_dec c0 c); [ contradiction | reflexivity ].
Qed.

Lemma prefix_head_same (c : ascii) (r s : string) :
  prefix (String c r) (String c s) = prefix r s.
Proof.
  cbn [prefix]. destruct (ascii_dec c c) as [_|N]; [ reflexivity | now destruct N ].
Qed.

Lemma prefix_append (x t : string) : prefix x (x ++ t) = true.
Proof.
  induction x as [|c x IH]; cbn; [ apply prefix_empty | ].
  destruct (ascii_dec c c) as [_|N]; [ exact IH | now destruct N ].
Qed.

Lemma prefix_extend (x s t : string) : prefix x s = true -> prefix x (s ++ t) = true.
Proof.
  revert s. induction x as [|c x IH]; intros s H; [ apply prefix_empty | ].
  destruct s as [|d s]; cbn in *; [ discriminate | ].
  destruct (ascii_dec c d); [ now apply IH | discriminate ].
Qed.

Lemma contains_append_r (x s t : string) :
  contains x t = true -> contains x (s ++ t) = true.
Proof.
  intros H. induction s as [|c s IH]; cbn; [ exact H | ].
  rewrite IH. apply orb_true_r.
Qed.

Lemma contains_append_l (x s t : string) :
  contains x s = true -> contains x (s ++ t) = true.
Proof.
  induction s as [|c s IH]; cbn; intros H.
  - destruct x; [ destruct t; reflexivity | discriminate ].
  - apply orb_true_iff in H. apply orb_true_iff. destruct H as [H|H].
    + left. destruct x as [|d x]; [ reflexivity | ].
      cbn in *. destruct (ascii_dec d c); [ now apply prefix_extend | discriminate ].
    + right. now apply IH.
Qed.

Lemma contains_self (x : string) : contains x x = true.
Proof.
  destruct x as [|c x]; cbn; [ reflexivity | ].
  apply orb_true_iff. left.
  destruct (ascii_dec c c) as [_|N]; [ | now destruct N ].
  rewrite <- (append_empty_r x) at 2. apply prefix_append.
Qed.

Lemma contains_middle (x a b : string) : contains x (a ++ x ++ b) = true.
Proof. apply contains_append_r, contains_append_l, contains_self. Qed.

Lemma contains_join_part (x y sep : string) (l : list string) :
  In y l -> contains x y = true -> contains x (join sep l) = true.
Proof.
  intros Hin Hxy. induction l as [|z l IH]; [ destruct Hin | ].
  destruct Hin as [->|Hin].
  - destruct l; cbn [join]; [ exact Hxy | now apply contains_append_l ].
  - destruct l as [|z' l]; [ destruct Hin | ].
    cbn [join]. apply contains_append_r, contains_append_r. now apply IH.
Qed.

Lemma all_chars_impl (p q : ascii -> bool) (s : string) :
  (forall c, p c = true -> q c = true) ->
  all_chars p s = true -> all_chars q s = true.
Proof.
  intros Hpq. induction s as [|c s IH]; cbn; [ reflexivity | ].
  intros H. apply andb_true_iff in H. destruct H as [Hc H].
  rewrite (Hpq c Hc). cbn. now apply IH.
Qed.

Lemma rev_onto_rev_onto (a b c : string) :
  rev_onto (rev_onto a b) c = rev_onto b (a ++ c).
Proof.
  revert b. induction a as [|x a IH]; intros b; cbn; [ reflexivity | ].
  now rewrite IH.
Qed.

Lemma rev_onto_append (acc s : string) :
  (rev_onto acc s = rev_onto acc "" ++ s)%string.
Proof.
  revert s. induction acc as [|x acc IH]; intros s; cbn; [ reflexivity | ].
  rewrite (IH (String x s)), (IH (String x "")), append_assoc. reflexivity.
Qed.

(** Characters that are not the first character of the separator are
    taken into the current piece. *)
Lemma split_go_skip_plain (sep : string) (c0 : ascii) (rest pre acc t : string) :
  sep = String c0 rest ->
  all_chars (fun c => negb (Ascii.eqb c c0)) pre = true ->
  split_go sep 0 acc (pre ++ t) = split_go sep 0 (rev_onto pre acc) t.
Proof.
  intros ->. revert acc. induction pre as [|c pre IH]; intros acc H; cbn in *; [ reflexivity | ].
  apply andb_true_iff in H. destruct H as [Hc H].
  destruct (ascii_dec c0 c) as [->|_].
  - rewrite Ascii.eqb_refl in Hc. discriminate.
  - now apply IH.
Qed.


End PyStrFacts.

(** ** The agent contract *)

Module AgentContract.
Import BaseAgent AgentSpec.

Lemma Faults_Completes_exclusive (a : Agent) (input_data : dict) (e : exn) (d : dict) :
  Faults a input_data e -> Completes a input_data d -> False.
Proof.
  intros HF (v & Hv & Ht & He).
  destruct HF as [e0 H | v0 H H0 | v0 e0 H H0 H1 | v0 o H H0 H1 H2]; try congruence.
  all: rewrite He in H1; injection H1 as <-; now apply (H2 d).
Qed.

(** Every call of [execute] takes exactly one of two courses. *)
Lemma execute_cases (a : Agent) (clk : Clock) (input_data : dict) (st : AgentState) :
  (exists d,
      Completes a input_data d /\
      execute a clk input_data st =
        (Returned (dict_set d "_metadata"
                     (VDict (success_metadata a (elapsed clk) (timestamp clk)))),
         {| execution_count := execution_count st + 1;
            total_execution_time := total_execution_time st + elapsed clk;
            last_execution_time := Some (elapsed clk);
            trace := trace st ++
                     [ AgentStarted (agent_name a) (dict_keys input_data);
                       EnteredValidate input_data;
                       EnteredExecute input_data;
                       AgentCompleted (agent_name a)
                         (dict_keys (dict_set d "_metadata"
                            (VDict (success_metadata a (elapsed clk) (timestamp clk)))))
                         (elapsed clk) ] |}))
  \/
  (exists e evs,
      Faults a input_data e /\
      execute a clk input_data st =
        (Returned (error_output a (elapsed clk) (timestamp clk) e),
         {| execution_count := execution_count st;
            total_execution_time := total_execution_time st;
            last_execution_time := last_execution_time st;
            trace := trace st ++ evs |}) /\
      (In (EnteredExecute input_data) evs ->
         exists v, _validate_input a input_data = Returned v /\ truthy v = true)).
Proof.
  unfold elapsed. run.
  destruct (_validate_input a input_data) as [v|e] eqn:Hv; cbn.
  - destruct (truthy v) eqn:Ht; cbn.
    + destruct (_execute a input_data) as [o|e] eqn:He; cbn.
      * destruct o; cbn;
          try (right; eexists; eexists; split;
               [ eapply payload_not_dict; eauto; intros d; discriminate
               | split; [ cbn; repeat rewrite <- app_assoc; reflexivity | eauto ] ]).
        left. exists entries. split; [ exists v; auto | ].
        repeat rewrite <- app_assoc. reflexivity.
      * right. eexists; eexists; split; [ eapply core_raised; eauto | ].
        split; [ repeat rewrite <- app_assoc; reflexivity | eauto ].
    + right. eexists; eexists; split; [ eapply validation_failed; eauto | ].
      split; [ repeat rewrite <- app_assoc; reflexivity | ].
      cbn. intros [H|[H|[H|[]]]]; discriminate.
  - right. eexists; eexists; split; [ eapply validation_raised; eauto | ].
    split; [ repeat rewrite <- app_assoc; reflexivity | ].
    cbn. intros [H|[H|[H|[]]]]; discriminate.
Qed.

Lemma Faults_unique (a : Agent) (input_data : dict) (e e' : exn) :
  Faults a input_data e -> Faults a input_data e' -> e = e'.
Proof.
  intros H H'.
  destruct H as [e0 H | v0 H H0 | v0 e0 H H0 H1 | v0 o H H0 H1 H2];
    destruct H' as [e1 K | v1 K K0 | v1 e1 K K0 K1 | v1 o1 K K0 K1 K2];
    try congruence.
  all: rewrite K1 in H1; injection H1 as <-; reflexivity.
Qed.

Lemma execute_counts (a : Agent) (clk : Clock) (input_data : dict) (st : AgentState) :
  execution_count (snd (execute a clk input_data st)) =
  (execution_count st + (if succeeded (fst (execute a clk input_data st)) then 1 else 0))%Z.
Proof.
  destruct (execute_cases a clk input_data st) as [(d & _ & E) | (e & evs & _ & E & _)];
    rewrite E; cbn.
  - unfold is_success. rewrite dict_get_set_same. reflexivity.
  - lia.
Qed.

Lemma execute_all_counts (a : Agent) (calls : list (Clock * dict)) (st : AgentState) :
  execution_count (snd (execute_all a calls st)) =
  (execution_count st
   + Z.of_nat (List.length (filter succeeded (fst (execute_all a calls st)))))%Z.
Proof.
  revert st. induction calls as [|[clk input_data] rest IH]; intros st.
  - cbn. lia.
  - cbn [execute_all]. pose proof (execute_counts a clk input_data st) as H1.
    destruct (execute a clk input_data st) as [r st1]. cbn in H1.
    specialize (IH st1).
    destruct (execute_all a rest st1) as [rs st2].
    cbn [fst snd] in *. cbn [filter].
    destruct (succeeded r); cbn [List.length]; rewrite ?Nat2Z.inj_succ; lia.
Qed.

Lemma not_entered (before evs : list event) :
  (forall input_data, ~ In (EnteredExecute input_data) evs) ->
  ~ entered_execute before (before ++ evs).
Proof.
  intros Hno (input_data & evs1 & evs2 & E).
  apply app_inv_head in E.
  apply (Hno input_data). rewrite E. apply in_or_app. right. now left.
Qed.

(** C1: [BaseAgent.execute] always returns a dict and never raises.  A fault
    of the [try] body, in particular one raised by [_execute], becomes a
    result whose [error] and [error_type] are the fault's message and class
    name.  The result always has a [_metadata] dict with a boolean
    [success], which is [False] exactly when the body faulted. *)
Theorem execute_never_raises (a : Agent) (clk : Clock) (input_data : dict)
    (st : AgentState) :
  exists out st',
    execute a clk input_data st = (Returned out, st') /\
    (forall e, Faults a input_data e ->
       out = error_output a (elapsed clk) (timestamp clk) e /\
       dict_get out "error" = Some (VStr (exn_msg e)) /\
       dict_get out "error_type" = Some (VStr (exn_type e))) /\
    (forall v e,
       _validate_input a input_data = Returned v -> truthy v = true ->
       _execute a input_data = Raised e ->
       Faults a input_data e) /\
    exists md b,
      dict_get out "_metadata" = Some (VDict md) /\
      dict_get md "success" = Some (VBool b) /\
      (b = false <-> exists e, Faults a input_data e).
Proof.
  destruct (execute_cases a clk input_data st) as [(d & HC & E) | (e & evs & HF & E & _)].
  - eexists; eexists; split; [ exact E | ].
    split; [ intros e HF; destruct (Faults_Completes_exclusive _ _ _ _ HF HC) | ].
    split; [ intros v e Hv Ht He; eapply core_raised; eauto | ].
    exists (success_metadata a (elapsed clk) (timestamp clk)), true.
    rewrite dict_get_set_same. split; [ reflexivity | ]. split; [ reflexivity | ].
    split; [ discriminate | ].
    intros [e HF]. destruct (Faults_Completes_exclusive _ _ _ _ HF HC).
  - eexists; eexists; split; [ exact E | ].
    split.
    { intros e' HF'. rewrite (Faults_unique _ _ _ _ HF' HF). repeat split. }
    split; [ intros v e' Hv Ht He; eapply core_raised; eauto | ].
    exists (failure_metadata a (elapsed clk) (timestamp clk) (exn_msg e)), false.
    repeat split. intros _. now exists e.
Qed.

(** C6: when [_validate_input] returns a false value, [execute] returns the
    failure result whose message is "Input validation failed for" followed
    by the agent's name, with [success] false in its metadata, and the trace
    shows that [_execute] was not entered. *)
Theorem validation_failure_skips_core (a : Agent) (clk : Clock) (input_data : dict)
    (st : AgentState) (v : value) :
  _validate_input a input_data = Returned v ->
  truthy v = false ->
  exists out st',
    execute a clk input_data st = (Returned out, st') /\
    dict_get out "error"
      = Some (VStr ("Input validation failed for " ++ agent_name a)) /\
    failed_result out /\
    trace st' = trace st ++ refused_events a input_data /\
    ~ entered_execute (trace st) (trace st').
Proof.
  intros Hv Ht. unfold elapsed. run. rewrite Hv. cbn. rewrite Ht. cbn.
  eexists; eexists; split; [ reflexivity | ].
  split; [ reflexivity | ].
  split; [ eexists; split; reflexivity | ].
  cbn. repeat rewrite <- app_assoc. cbn.
  split; [ reflexivity | ].
  apply not_entered. intros i. cbn. intros [H|[H|[H|[]]]]; discriminate.
Qed.

(** C10: a call of [execute] that ends in a failure result leaves
    [execution_count], [total_execution_time] and [last_execution_time] as
    they were; over any run of calls the count grows by the number of
    successful results; and [get_stats] never raises, reporting the average
    as the integer 0 when nothing was counted. *)
Theorem stats_only_on_success (a : Agent) (clk : Clock) (input_data : dict)
    (st st' : AgentState) (out : dict) :
  execute a clk input_data st = (Returned out, st') ->
  failed_result out ->
  same_stats st st' /\
  (forall calls,
     execution_count (snd (execute_all a calls st')) =
     (execution_count st'
      + Z.of_nat (List.length (filter succeeded (fst (execute_all a calls st')))))%Z) /\
  (forall s,
     exists average,
       get_stats a s = (Returned (stats_dict a s average), s) /\
       (execution_count s = 0%Z -> average = VInt 0) /\
       ((0 < execution_count s)%Z ->
          average = VFloat (total_execution_time s / inject_Z (execution_count s)))).
Proof.
  intros E (md & Hmd & Hs).
  split; [ | split ].
  - destruct (execute_cases a clk input_data st) as [(d & _ & E') | (e & evs & _ & E' & _)];
      rewrite E' in E; injection E as <- <-.
    + rewrite dict_get_set_same in Hmd. injection Hmd as <-. discriminate.
    + repeat split.
  - intros calls. apply execute_all_counts.
  - intros s. run. unfold stats_dict.
    destruct (Z.ltb 0 (execution_count s)) eqn:Hpos; cbn.
    + apply Z.ltb_lt in Hpos.
      destruct (Z.eqb (execution_count s) 0) eqn:Hz; cbn.
      * apply Z.eqb_eq in Hz. lia.
      * eexists; split; [ reflexivity | ]. split; [ lia | reflexivity ].
    + apply Z.ltb_ge in Hpos.
      eexists; split; [ reflexivity | ]. split; [ reflexivity | lia ].
Qed.

(** The agent [Samples.refusing] refuses the empty input. *)
Lemma validation_failure_skips_core_witness :
  exists out st',
    execute Samples.refusing Samples.clock [] initial_state = (Returned out, st') /\
    dict_get out "error"
      = Some (VStr ("Input validation failed for " ++ agent_name Samples.refusing)) /\
    failed_result out /\
    trace st' = trace initial_state ++ refused_events Samples.refusing [] /\
    ~ entered_execute (trace initial_state) (trace st').
Proof.
  apply (validation_failure_skips_core Samples.refusing Samples.clock [] initial_state
           (VBool false)); reflexivity.
Defined.

(** The refused call of [Samples.refusing] leaves the statistics alone. *)
Lemma stats_only_on_success_witness :
  same_stats initial_state
    (snd (execute Samples.refusing Samples.clock [] initial_state)).
Proof.
  refine (proj1 (stats_only_on_success Samples.refusing Samples.clock [] initial_state
                   _ _ _ _)).
  - cbv. reflexivity.
  - eexists. split; reflexivity.
Defined.

End AgentContract.
(** ** The workflow validator *)

Module WorkflowValidation.
Import JsonValidator ValidatorSpec PyStrFacts.

Lemma with_log_nil (v : WorkflowValidator) : with_log v [] = v.
Proof. destruct v; unfold with_log; cbn. now rewrite app_nil_r. Qed.

Lemma with_log_app (v : WorkflowValidator) (r1 r2 : list log_record) :
  with_log (with_log v r1) r2 = with_log v (r1 ++ r2).
Proof. unfold with_log; cbn. now rewrite app_assoc. Qed.

Lemma logger_run (lv : level) (msg : string) (v : WorkflowValidator) :
  logger lv msg v = (Returned tt, with_log v [(lv, msg)]).
Proof. reflexivity. Qed.

Lemma log_each_run (lv : level) (lines : list string) (v : WorkflowValidator) :
  log_each lv lines v = (Returned tt, with_log v (map (pair lv) lines)).
Proof.
  revert v. induction lines as [|l rest IH]; intros v; cbn [log_each map].
  - unfold ret. now rewrite with_log_nil.
  - unfold bind. rewrite logger_run, IH, with_log_app. reflexivity.
Qed.

(** *** The schema library *)

Lemma errors_ap {A B : Type} (f : checked (A -> B)) (r : checked A) :
  errors_of (ap f r) = errors_of f ++ errors_of r.
Proof. destruct f, r; cbn; rewrite ?app_nil_r; reflexivity. Qed.

Lemma ap_built {A B : Type} (f : checked (A -> B)) (r : checked A) (b : B) :
  ap f r = inr b -> exists g a, f = inr g /\ r = inr a /\ b = g a.
Proof.
  destruct f as [e1|g], r as [e2|a]; cbn; try discriminate.
  intros [= <-]. now exists g, a.
Qed.

Lemma ap_failed {A B : Type} (f : checked (A -> B)) (errors : list schema_error) :
  ap f (inl errors) = inl (errors_of f ++ errors).
Proof. destruct f; reflexivity. Qed.

Lemma fst_and_then {A B : Type} (m : Logged A) (k : A -> Logged B) :
  fst (and_then m k) = fst (k (fst m)).
Proof. unfold and_then. destruct m as [a l1]. cbn. now destruct (k a). Qed.

(** [validate] on a fresh validator whose file holds a JSON object that is
    rejected. *)
Lemma validate_rejected (rt : Runtime) (disk : string -> file_content) (path : string)
    (data : dict) (errors : list schema_error) :
  disk (Path path) = JsonDoc (VDict data) ->
  verdict rt data = Rejected errors ->
  exists v',
    validate rt disk (new_validator path)
      = (Raised (Exn "ValidationError" (validation_error_str rt (VDict data))), v') /\
    workflow_definition v' = None /\
    log v' = rejection_log path (snd (construct rt data)) errors.
Proof.
  intros Hd Hv. unfold validate, new_validator. remember (Path path) as p eqn:Hp.
  unfold load_workflow, bind, get. cbn [workflow_data workflow_file truthy negb].
  rewrite Hd. cbn.
  unfold verdict in Hv. destruct (construct rt data) as [built records].
  cbn [fst snd] in Hv |- *. subst built. cbn.
  rewrite log_each_run. cbn.
  eexists. split; [ reflexivity | ]. split; [ reflexivity | ].
  unfold rejection_log, with_log. rewrite <- Hp, map_map. cbn.
  rewrite <- ?app_assoc. reflexivity.
Qed.

(** [validate] on a fresh validator whose file holds a JSON object that is
    accepted. *)
Lemma validate_built (rt : Runtime) (disk : string -> file_content) (path : string)
    (data : dict) (w : WorkflowDefinition) :
  disk (Path path) = JsonDoc (VDict data) ->
  verdict rt data = Built w ->
  exists records,
    validate rt disk (new_validator path) =
      (Returned true,
       {| workflow_file := Path path; workflow_data := VDict data;
          workflow_definition := Some w; log := records |}).
Proof.
  intros Hd Hv. unfold validate, new_validator. remember (Path path) as p eqn:Hp.
  unfold load_workflow, bind, get. cbn [workflow_data workflow_file truthy negb].
  rewrite Hd. cbn.
  unfold verdict in Hv. destruct (construct rt data) as [built records].
  cbn [fst] in Hv. subst built. cbn.
  eexists. reflexivity.
Qed.

(** *** Step ids *)

Lemma continuation_not_ascii (c : ascii) :
  PyStr.is_continuation c = true -> PyStr.is_ascii c = false.
Proof.
  destruct c as [[] [] [] [] [] [] [] []]; cbn; intros H; try discriminate H; reflexivity.
Qed.

Lemma head_alnum (ua : string -> bool) (c : ascii) (rest : string) :
  PyStr.char_isalnum ua (String c rest) = true -> alnum_byte c = true.
Proof.
  unfold PyStr.char_isalnum, alnum_byte. destruct (PyStr.is_ascii c); cbn.
  - intros H. apply andb_true_iff in H as [H _]. now rewrite H.
  - intros _. apply orb_true_r.
Qed.

Lemma continuation_alnum_byte (c : ascii) :
  PyStr.is_continuation c = true -> alnum_byte c = true.
Proof.
  intros H. unfold alnum_byte. rewrite (continuation_not_ascii c H). apply orb_true_r.
Qed.

Lemma chars_nil (t : string) : PyStr.chars t = [] -> t = EmptyString.
Proof.
  destruct t as [|c t]; [ reflexivity | ]. cbn [PyStr.chars].
  destruct (PyStr.chars t); [ discriminate | ].
  destruct (match t with String d _ => PyStr.is_continuation d | EmptyString => false end);
    discriminate.
Qed.

(** When every character of a text is alphanumeric, every byte of it is an
    ASCII letter or digit or belongs to a character outside ASCII.  The
    second part is for a text that starts inside a character. *)
Lemma alnum_chars_bytes (ua : string -> bool) (t : string) :
  (forallb (PyStr.char_isalnum ua) (PyStr.chars t) = true ->
   PyStr.all_chars alnum_byte t = true) /\
  (match t with
   | String d _ => PyStr.is_continuation d = true
   | EmptyString => True
   end ->
   forallb (PyStr.char_isalnum ua) (tl (PyStr.chars t)) = true ->
   PyStr.all_chars alnum_byte t = true).
Proof.
  induction t as [|c t [IH1 IH2]]; [ split; reflexivity | ].
  cbn [PyStr.chars PyStr.all_chars].
  destruct (PyStr.chars t) as [|ch rest] eqn:E.
  - apply chars_nil in E. subst t. cbn [forallb tl PyStr.all_chars]. split.
    + intros H. rewrite andb_true_r in H |- *. exact (head_alnum ua c _ H).
    + intros Hc _. rewrite andb_true_r. now apply continuation_alnum_byte.
  - destruct t as [|d t]; [ discriminate E | ].
    destruct (PyStr.is_continuation d) eqn:Hd.
    + cbn [forallb tl]. split.
      * intros H. apply andb_true_iff in H as [Hh Hr].
        rewrite (head_alnum ua c _ Hh). cbn [andb]. apply IH2; [ reflexivity | exact Hr ].
      * intros Hc Hr. rewrite (continuation_alnum_byte c Hc). cbn [andb].
        apply IH2; [ reflexivity | exact Hr ].
    + cbn [forallb tl]. split.
      * intros H. apply andb_true_iff in H as [Hh Hr].
        rewrite (head_alnum ua c _ Hh). cbn [andb]. apply IH1. exact Hr.
      * intros Hc Hr. rewrite (continuation_alnum_byte c Hc). cbn [andb].
        apply IH1. exact Hr.
Qed.

Lemma id_byte_plain (c : ascii) :
  id_byte c = true -> PyStr.repr_char 39 c = String c EmptyString /\ c <> "'"%char.
Proof.
  destruct c as [[] [] [] [] [] [] [] []]; cbn; intros H;
    try discriminate H; split; (reflexivity || discriminate).
Qed.

Lemma well_formed_id_bytes (rt : Runtime) (v : string) :
  well_formed_id rt v -> PyStr.all_chars id_byte v = true.
Proof.
  unfold well_formed_id, validate_id.
  destruct (PyStr.isalnum (unicode_alnum rt) (PyStr.remove_char "_" v)) eqn:E; cbn;
    [ intros _ | discriminate ].
  assert (H : PyStr.all_chars alnum_byte (PyStr.remove_char "_" v) = true).
  { unfold PyStr.isalnum in E. destruct (PyStr.remove_char "_" v) eqn:R; [ discriminate | ].
    exact (proj1 (alnum_chars_bytes (unicode_alnum rt) _) E). }
  clear E. induction v as [|c v IH]; cbn in *; [ reflexivity | ].
  unfold id_byte at 1, id_char.
  destruct (Ascii.eqb c "_") eqn:Ec.
  - rewrite orb_true_r. cbn. now apply IH.
  - cbn in H. apply andb_true_iff in H. destruct H as [Hc H].
    unfold alnum_byte in Hc. rewrite orb_false_r. rewrite Hc. cbn. now apply IH.
Qed.

Lemma repr_body_plain (v : string) :
  PyStr.all_chars id_byte v = true -> PyStr.repr_body 39 v = v.
Proof.
  induction v as [|c v IH]; cbn; intros H; [ reflexivity | ].
  apply andb_true_iff in H. destruct H as [Hc H].
  destruct (id_byte_plain c Hc) as [-> _]. cbn. now rewrite IH.
Qed.

Lemma no_quote_plain (v : string) :
  PyStr.all_chars id_byte v = true -> PyStr.contains PyStr.squote v = false.
Proof.
  change PyStr.squote with "'"%string.
  induction v as [|c v IH]; intros H; [ reflexivity | ].
  cbn [PyStr.all_chars] in H. apply andb_true_iff in H. destruct H as [Hc H].
  destruct (id_byte_plain c Hc) as [_ Hq].
  cbn [PyStr.contains]. rewrite prefix_head_differs by congruence.
  cbn. now apply IH.
Qed.

(** The [repr] of a well-formed id is the id between single quotes. *)
Lemma repr_well_formed (rt : Runtime) (v : string) :
  well_formed_id rt v -> PyStr.repr v = (PyStr.squote ++ v ++ PyStr.squote)%string.
Proof.
  intros H. apply well_formed_id_bytes in H. unfold PyStr.repr.
  rewrite (no_quote_plain v H), (repr_body_plain v H). reflexivity.
Qed.

(** *** Duplicate step ids *)

Lemma mem_In (x : string) (l : list string) : mem x l = true <-> In x l.
Proof.
  unfold mem. rewrite existsb_exists. split.
  - intros (y & Hy & E). apply String.eqb_eq in E. now subst.
  - intros H. exists x. split; [ exact H | apply String.eqb_refl ].
Qed.

Lemma distinct_le (l : list string) : (distinct l <= List.length l)%nat.
Proof.
  induction l as [|x l IH]; cbn; [ lia | ].
  destruct (mem x l); lia.
Qed.

(** A list with a repeated element has fewer distinct elements than
    positions. *)
Lemma distinct_repeated (l : list string) (i j : nat) (x : string) :
  (i < j)%nat -> nth_error l i = Some x -> nth_error l j = Some x ->
  (distinct l < List.length l)%nat.
Proof.
  revert i j. induction l as [|y l IH]; intros i j Hij Hi Hj.
  - destruct i; discriminate.
  - destruct j as [|j]; [ lia | ]. cbn in Hj. cbn [distinct List.length].
    destruct i as [|i]; cbn in Hi.
    + injection Hi as ->.
      assert (Hin : mem x l = true) by (apply mem_In; eapply nth_error_In; eauto).
      rewrite Hin. pose proof (distinct_le l). lia.
    + assert (distinct l < List.length l)%nat by (apply (IH i j); auto; lia).
      destruct (mem y l); lia.
Qed.

Lemma count_repeated (l : list string) (i j : nat) (x : string) :
  (i < j)%nat -> nth_error l i = Some x -> nth_error l j = Some x ->
  (1 < count x l)%nat.
Proof.
  unfold count. revert i j. induction l as [|y l IH]; intros i j Hij Hi Hj.
  - destruct i; discriminate.
  - destruct j as [|j]; [ lia | ]. cbn in Hj. cbn [filter].
    destruct i as [|i]; cbn in Hi.
    + injection Hi as ->. rewrite String.eqb_refl. cbn [List.length].
      assert (Hin : In x (filter (String.eqb x) l)).
      { apply filter_In. split; [ eapply nth_error_In; eauto | apply String.eqb_refl ]. }
      destruct (filter (String.eqb x) l); [ destruct Hin | cbn; lia ].
    + assert (1 < List.length (filter (String.eqb x) l))%nat by (apply (IH i j); auto; lia).
      destruct (String.eqb x y); cbn [List.length]; lia.
Qed.

(** [validate_steps] on a list in which positions [i < j] carry one id. *)
Lemma validate_steps_repeated (v : list WorkflowStep) (i j : nat) (x : string) :
  (i < j)%nat ->
  nth_error (map id v) i = Some x -> nth_error (map id v) j = Some x ->
  exists duplicates,
    validate_steps v
      = Raised (Exn "ValueError" ("Duplicate step IDs found: " ++ PyStr.repr_list duplicates)) /\
    In x duplicates.
Proof.
  intros Hij Hi Hj. unfold validate_steps.
  destruct v as [|st v]; [ destruct i; discriminate | ].
  set (ids := map id (st :: v)) in *.
  pose proof (distinct_repeated ids i j x Hij Hi Hj) as Hd.
  destruct (Nat.eqb (List.length ids) (distinct ids)) eqn:E.
  - apply Nat.eqb_eq in E. lia.
  - cbn [negb]. eexists. split; [ reflexivity | ].
    apply filter_In. split; [ exact (nth_error_In ids i Hi) | ].
    apply Nat.ltb_lt. exact (count_repeated ids i j x Hij Hi Hj).
Qed.

Lemma validate_id_returns (rt : Runtime) (x y : string) :
  validate_id rt x = Returned y -> y = x /\ well_formed_id rt x.
Proof.
  unfold well_formed_id, validate_id.
  destruct (negb (PyStr.isalnum (unicode_alnum rt) (PyStr.remove_char "_" x)));
    [ discriminate | ].
  intros [= <-]. auto.
Qed.

(** The id of a validated step is the one the document gives, and it is
    well-formed. *)
Lemma workflow_step_id (rt : Runtime) (at_ : list loc_item) (s : dict) (st : WorkflowStep)
    (x : string) :
  fst (workflow_step rt at_ (VDict s)) = inr st ->
  dict_get s "id" = Some (VStr x) ->
  id st = x /\ well_formed_id rt x.
Proof.
  unfold workflow_step. intros H Hx. rewrite Hx in H. cbn [str_field] in H.
  rewrite fst_and_then in H. cbn [quiet fst] in H.
  apply ap_built in H as (g5 & o & H & _ & ->).
  apply ap_built in H as (g4 & t & H & _ & ->).
  apply ap_built in H as (g3 & ins & H & _ & ->).
  apply ap_built in H as (g2 & inp & H & _ & ->).
  apply ap_built in H as (g1 & a & H & _ & ->).
  apply ap_built in H as (g0 & i & H & Hid & ->).
  injection H as <-. cbn [id].
  destruct (validate_id rt x) as [y|e] eqn:E; [ | discriminate Hid ].
  cbn in Hid. injection Hid as <-. now apply validate_id_returns.
Qed.

(** When every item of the step list is validated without error, the ids
    of the validated steps are those of the items, position by position. *)
Lemma step_items_ids (rt : Runtime) (items : list value) (k : nat) (l : list WorkflowStep) :
  fst (step_items rt k items) = inr l ->
  forall n s x,
    nth_error items n = Some (VDict s) ->
    dict_get s "id" = Some (VStr x) ->
    nth_error (map id l) n = Some x /\ well_formed_id rt x.
Proof.
  revert k l. induction items as [|item rest IH]; intros k l H n s x Hn Hx.
  - destruct n; discriminate.
  - cbn [step_items] in H. rewrite !fst_and_then in H. cbn [quiet fst] in H.
    apply ap_built in H as (g & l' & H & Hrest & ->).
    apply ap_built in H as (g0 & st & H & Hst & ->).
    injection H as <-.
    destruct n as [|n]; cbn [nth_error map] in *.
    + injection Hn as ->. destruct (workflow_step_id rt _ s st x Hst Hx) as [<- Hw].
      now split.
    + exact (IH (S k) l' Hrest n s x Hn Hx).
Qed.

(** *** Where the errors of the items sit *)

Lemma under_here (at_ : list loc_item) (msg : string) : under at_ (at_, msg).
Proof. exists []. cbn. now rewrite app_nil_r. Qed.

Lemma under_extend (at_ more : list loc_item) (e : schema_error) :
  under (at_ ++ more) e -> under at_ e.
Proof. intros [suffix E]. exists (more ++ suffix). now rewrite app_assoc. Qed.

Lemma str_field_under (at_ : list loc_item) (v : option value) :
  Forall (under at_) (errors_of (str_field at_ v)).
Proof.
  destruct v as [[]|]; cbn; repeat constructor; apply under_here.
Qed.

Lemma dict_field_under (at_ : list loc_item) (v : option value) :
  Forall (under at_) (errors_of (dict_field at_ v)).
Proof.
  destruct v as [[]|]; cbn; repeat constructor; apply under_here.
Qed.

Lemma Forall_under_extend (at_ more : list loc_item) (l : list schema_error) :
  Forall (under (at_ ++ more)) l -> Forall (under at_) l.
Proof. apply Forall_impl. intros e. apply under_extend. Qed.

Lemma tool_config_under (at_ : list loc_item) (v : value) :
  Forall (under at_) (errors_of (tool_config at_ v)).
Proof.
  destruct v; cbn [tool_config errors_of]; try (repeat constructor; apply under_here).
  rewrite !errors_ap. cbn [errors_of app].
  apply Forall_app. split.
  - apply (Forall_under_extend at_ [Key "name"]), str_field_under.
  - apply (Forall_under_extend at_ [Key "config"]), dict_field_under.
Qed.

Lemma tool_items_under (at_ : list loc_item) (items : list value) (i : nat) :
  Forall (under at_) (errors_of (tool_items at_ i items)).
Proof.
  revert i. induction items as [|item rest IH]; intros i; cbn [tool_items errors_of].
  - constructor.
  - rewrite !errors_ap. cbn [errors_of app]. apply Forall_app. split.
    + apply (Forall_under_extend at_ [Index i]), tool_config_under.
    + apply IH.
Qed.

Lemma tools_field_under (at_ : list loc_item) (v : option value) :
  Forall (under at_) (errors_of (tools_field at_ v)).
Proof.
  destruct v as [[]|]; cbn [tools_field errors_of];
    try (repeat constructor; apply under_here).
  apply tool_items_under.
Qed.

(** Every error of an item sits at the item or below it. *)
Lemma workflow_step_under (rt : Runtime) (at_ : list loc_item) (v : value) :
  Forall (under at_) (errors_of (fst (workflow_step rt at_ v))).
Proof.
  destruct v; cbn [workflow_step quiet fst errors_of];
    try (repeat constructor; apply under_here).
  rewrite fst_and_then. cbn [quiet fst]. rewrite !errors_ap. cbn [errors_of app].
  repeat (apply Forall_app; split).
  - apply (Forall_under_extend at_ [Key "id"]).
    pose proof (str_field_under (at_ ++ [Key "id"]) (dict_get entries "id")) as H.
    destruct (str_field (at_ ++ [Key "id"]) (dict_get entries "id")) as [errors|s];
      [ exact H | ].
    destruct (validate_id rt s); cbn; repeat constructor. apply under_here.
  - apply (Forall_under_extend at_ [Key "agent"]).
    pose proof (str_field_under (at_ ++ [Key "agent"]) (dict_get entries "agent")) as H.
    destruct (str_field (at_ ++ [Key "agent"]) (dict_get entries "agent")) as [errors|s];
      [ exact H | ].
    rewrite fst_and_then. cbn. constructor.
  - apply (Forall_under_extend at_ [Key "inputs"]), dict_field_under.
  - apply (Forall_under_extend at_ [Key "instructions"]), str_field_under.
  - apply (Forall_under_extend at_ [Key "tools"]), tools_field_under.
  - apply (Forall_under_extend at_ [Key "output_schema"]), dict_field_under.
Qed.

(** No error of the items sits at the field [steps] itself, where the
    error of [validate_steps] would sit. *)
Lemma step_items_below (rt : Runtime) (items : list value) (k : nat) :
  Forall (fun e => fst e <> [Key "steps"]) (errors_of (fst (step_items rt k items))).
Proof.
  revert k. induction items as [|item rest IH]; intros k; cbn [step_items].
  - constructor.
  - rewrite !fst_and_then. cbn [quiet fst]. rewrite !errors_ap. cbn [errors_of app].
    apply Forall_app. split; [ | apply IH ].
    eapply Forall_impl; [ | apply workflow_step_under ].
    intros e [suffix E]. rewrite E. discriminate.
Qed.

(** The verdict on a JSON object whose [steps] entry is a list. *)
Lemma verdict_of_steps (rt : Runtime) (data : dict) (items : list value) :
  dict_get data "steps" = Some (VList items) ->
  verdict rt data =
    match ap (ap (ap (inr Build_WorkflowDefinition)
                     (str_field [Key "workflow_name"] (dict_get data "workflow_name")))
                 (str_field [Key "description"] (dict_get data "description")))
             (match fst (step_items rt 0 items) with
              | inr l => after_validator [Key "steps"] (validate_steps l)
              | inl errors => inl errors
              end) with
    | inr w => Built w
    | inl errors => Rejected errors
    end.
Proof.
  intros Hs. unfold verdict, construct. rewrite fst_and_then. cbn [quiet fst].
  rewrite Hs. cbn [steps_field]. rewrite fst_and_then. reflexivity.
Qed.

Lemma contains_duplicate (rt : Runtime) (x : string) (duplicates : list string) :
  well_formed_id rt x -> In x duplicates ->
  PyStr.contains x (error_line (duplicates_entry duplicates)) = true.
Proof.
  intros Hx Hin. unfold error_line, duplicates_entry, value_error, PyStr.repr_list.
  cbn [fst snd].
  apply contains_append_r. apply contains_append_r. apply contains_append_r.
  apply contains_append_r. apply contains_append_r. apply contains_append_r.
  apply contains_append_l.
  apply (contains_join_part x (PyStr.repr x)).
  - now apply in_map.
  - rewrite (repr_well_formed rt x Hx). apply contains_middle.
Qed.

(** C8 (amended): a document in which two steps carry the same id is
    rejected by schema validation: [validate] raises the [ValidationError]
    of the schema library, no [WorkflowDefinition] is stored and
    [validate_workflow_file] raises the same error; every entry of the
    error is logged on a line of its own.  When every step of the document
    passes its own field checks, the error has the entry of
    [validate_steps], which holds the shared id.  When some step fails
    them, the error holds the entries of those failures and none at the
    field [steps]: the duplicate check is not reached. *)
Theorem duplicate_ids_rejected (rt : Runtime) (disk : string -> file_content) (path : string)
    (data : dict) (items : list value) (i j : nat) (s1 s2 : dict) (x : string) :
  disk (Path path) = JsonDoc (VDict data) ->
  dict_get data "steps" = Some (VList items) ->
  i <> j ->
  nth_error items i = Some (VDict s1) ->
  nth_error items j = Some (VDict s2) ->
  dict_get s1 "id" = Some (VStr x) ->
  dict_get s2 "id" = Some (VStr x) ->
  exists v' errors,
    validate rt disk (new_validator path)
      = (Raised (Exn "ValidationError" (validation_error_str rt (VDict data))), v') /\
    workflow_definition v' = None /\
    fst (validate_workflow_file rt disk path)
      = Raised (Exn "ValidationError" (validation_error_str rt (VDict data))) /\
    verdict rt data = Rejected errors /\
    log v' = rejection_log path (snd (construct rt data)) errors /\
    (forall l, fst (step_items rt 0 items) = inr l ->
       exists duplicates,
         In x duplicates /\
         errors = top_errors data ++ [duplicates_entry duplicates] /\
         PyStr.contains x (error_line (duplicates_entry duplicates)) = true) /\
    (forall item_errors, fst (step_items rt 0 items) = inl item_errors ->
       errors = top_errors data ++ item_errors /\
       Forall (fun e => fst e <> [Key "steps"]) item_errors).
Proof.
  intros Hd Hs Hne H1 H2 Hx1 Hx2.
  assert (Htop : forall r : checked (list WorkflowStep),
            errors_of (ap (ap (ap (inr Build_WorkflowDefinition)
                                  (str_field [Key "workflow_name"]
                                     (dict_get data "workflow_name")))
                              (str_field [Key "description"] (dict_get data "description")))
                          r)
            = top_errors data ++ errors_of r).
  { intros r. rewrite !errors_ap. reflexivity. }
  assert (Hv : exists errors,
            verdict rt data = Rejected errors /\
            (forall l, fst (step_items rt 0 items) = inr l ->
               exists duplicates,
                 In x duplicates /\
                 errors = top_errors data ++ [duplicates_entry duplicates] /\
                 PyStr.contains x (error_line (duplicates_entry duplicates)) = true) /\
            (forall item_errors, fst (step_items rt 0 items) = inl item_errors ->
               errors = top_errors data ++ item_errors /\
               Forall (fun e => fst e <> [Key "steps"]) item_errors)).
  { rewrite (verdict_of_steps rt data items Hs).
    pose proof (step_items_below rt items 0) as Hbelow.
    destruct (fst (step_items rt 0 items)) as [item_errors|l] eqn:Es.
    - rewrite ap_failed. eexists. split; [ reflexivity | ]. split.
      + intros l [=].
      + intros ? [= <-]. split; [ | exact Hbelow ].
        f_equal. rewrite !errors_ap. reflexivity.
    - destruct (step_items_ids rt items 0 l Es i s1 x H1 Hx1) as [K1 Hw].
      destruct (step_items_ids rt items 0 l Es j s2 x H2 Hx2) as [K2 _].
      assert (Hdup : exists duplicates,
                validate_steps l
                  = Raised (Exn "ValueError"
                              ("Duplicate step IDs found: " ++ PyStr.repr_list duplicates)) /\
                In x duplicates).
      { destruct (Nat.lt_total i j) as [L|[L|L]]; [ | contradiction | ].
        - exact (validate_steps_repeated l i j x L K1 K2).
        - exact (validate_steps_repeated l j i x L K2 K1). }
      destruct Hdup as (duplicates & -> & Hin).
      cbn [after_validator exn_msg]. rewrite ap_failed.
      eexists. split; [ reflexivity | ]. split.
      + intros ? [= <-]. exists duplicates. split; [ exact Hin | ].
        split; [ | now apply (contains_duplicate rt) ].
        f_equal. rewrite !errors_ap. reflexivity.
      + intros ? [=]. }
  destruct Hv as (errors & Hv & Hpass & Hfail).
  destruct (validate_rejected rt disk path data errors Hd Hv) as (v' & Ev & Hn & Hl).
  exists v', errors.
  split; [ exact Ev | ]. split; [ exact Hn | ].
  split; [ unfold validate_workflow_file; unfold bind at 1; rewrite Ev; reflexivity | ].
  split; [ exact Hv | ]. split; [ exact Hl | ]. split; [ exact Hpass | exact Hfail ].
Qed.

(** The two steps of [Samples.duplicate_only] carry the id [s1]. *)
Lemma duplicate_ids_rejected_witness :
  exists v' errors,
    validate Samples.runtime (Samples.disk_with Samples.duplicate_only)
        (new_validator "workflow.json")
      = (Raised (Exn "ValidationError"
                   (validation_error_str Samples.runtime
                      (VDict (entries_of Samples.duplicate_only)))), v') /\
    workflow_definition v' = None /\
    fst (validate_workflow_file Samples.runtime (Samples.disk_with Samples.duplicate_only)
           "workflow.json")
      = Raised (Exn "ValidationError"
                  (validation_error_str Samples.runtime
                     (VDict (entries_of Samples.duplicate_only)))) /\
    verdict Samples.runtime (entries_of Samples.duplicate_only) = Rejected errors /\
    log v' = rejection_log "workflow.json"
               (snd (construct Samples.runtime (entries_of Samples.duplicate_only))) errors /\
    (forall l,
       fst (step_items Samples.runtime 0 (map json_of_step (steps Samples.duplicate_only)))
         = inr l ->
       exists duplicates,
         In "s1" duplicates /\
         errors = top_errors (entries_of Samples.duplicate_only)
                    ++ [duplicates_entry duplicates] /\
         PyStr.contains "s1" (error_line (duplicates_entry duplicates)) = true) /\
    (forall item_errors,
       fst (step_items Samples.runtime 0 (map json_of_step (steps Samples.duplicate_only)))
         = inl item_errors ->
       errors = top_errors (entries_of Samples.duplicate_only) ++ item_errors /\
       Forall (fun e => fst e <> [Key "steps"]) item_errors).
Proof.
  apply (duplicate_ids_rejected Samples.runtime (Samples.disk_with Samples.duplicate_only)
           "workflow.json" (entries_of Samples.duplicate_only)
           (map json_of_step (steps Samples.duplicate_only)) 0 1
           [ ("id", VStr "s1"); ("agent", VStr "ScoringAgent"); ("inputs", VDict []);
             ("instructions", VStr ""); ("tools", VList []); ("output_schema", VDict []) ]
           [ ("id", VStr "s1"); ("agent", VStr "ScoringAgent"); ("inputs", VDict []);
             ("instructions", VStr ""); ("tools", VList []); ("output_schema", VDict []) ]
           "s1");
    [ reflexivity | reflexivity | discriminate | reflexivity | reflexivity
    | reflexivity | reflexivity ].
Defined.

(** Two steps carry the id [s1] and a third id is ill-formed: validation
    fails, and the one entry of the error, the only one logged, is about
    the ill-formed id; the shared id is not in it. *)
Lemma duplicate_id_not_reported :
  map id (steps Samples.duplicate_and_malformed) = ["s1"; "s1"; "b!"] /\
  (forall rt,
     verdict rt (entries_of Samples.duplicate_and_malformed) = Rejected [id_entry 2 "b!"]) /\
  (forall rt,
     exists v',
       validate rt (Samples.disk_with Samples.duplicate_and_malformed)
           (new_validator "workflow.json")
         = (Raised (Exn "ValidationError"
                      (validation_error_str rt (json_of Samples.duplicate_and_malformed))),
            v') /\
       log v' = [ (INFO, " Loaded workflow from workflow.json");
                  (ERROR, " Workflow validation failed:");
                  (ERROR, error_line (id_entry 2 "b!")) ]) /\
  error_line (id_entry 2 "b!")
    = "   - ('steps', 2, 'id'): Value error, Step ID must be alphanumeric with underscores: b!" /\
  PyStr.contains "s1" (error_line (id_entry 2 "b!")) = false.
Proof.
  split; [ reflexivity | ]. split; [ intros rt; reflexivity | ].
  split; [ intros rt; eexists; split; reflexivity | ].
  split; reflexivity.
Qed.

(** *** The convenience function *)

(** Once the definition is stored, [validate_dependencies] returns a
    boolean and logs one record. *)
Lemma validate_dependencies_run (rt : Runtime) (disk : string -> file_content)
    (v : WorkflowValidator) (w : WorkflowDefinition) :
  workflow_definition v = Some w ->
  validate_dependencies rt disk v =
    match check_steps (map id (steps w)) (steps w) with
    | Some (sid, r) => (Returned false, with_log v [dependency_error sid r])
    | None => (Returned true, with_log v [dependencies_ok])
    end.
Proof.
  intros H. unfold validate_dependencies, ensure_definition, bind, get. rewrite H. cbn.
  destruct (check_steps (map id (steps w)) (steps w)) as [[sid r]|]; reflexivity.
Qed.

(** Whatever [validate_dependencies] finds, an accepted document is
    returned. *)
Lemma validate_workflow_file_built (rt : Runtime) (disk : string -> file_content)
    (path : string) (data : dict) (w : WorkflowDefinition) :
  disk (Path path) = JsonDoc (VDict data) ->
  verdict rt data = Built w ->
  fst (validate_workflow_file rt disk path) = Returned w.
Proof.
  intros Hd Hv.
  destruct (validate_built rt disk path data w Hd Hv) as (records & E).
  unfold validate_workflow_file. unfold bind at 1. rewrite E.
  unfold bind at 1.
  match goal with |- context [validate_dependencies rt disk ?v] =>
    rewrite (validate_dependencies_run rt disk v w (eq_refl (Some w))) end.
  destruct (check_steps (map id (steps w)) (steps w)) as [[sid r]|]; reflexivity.
Qed.

(** C4: on the document [Samples.dangling], whose only step refers to the
    undeclared step [enrichment], [validate_dependencies] returns [False]
    and logs the dependency error, yet [validate_workflow_file] returns the
    workflow definition. *)
Theorem dangling_reference_accepted (rt : Runtime) :
  fst (validate_dependencies rt (Samples.disk_with Samples.dangling)
         (Samples.validated Samples.dangling)) = Returned false /\
  fst (validate_workflow_file rt (Samples.disk_with Samples.dangling) "workflow.json")
    = Returned Samples.dangling /\
  In (dependency_error "scoring" "enrichment")
     (log (snd (validate_workflow_file rt (Samples.disk_with Samples.dangling)
                  "workflow.json"))).
Proof.
  split; [ reflexivity | ]. split; [ reflexivity | ].
  cbn. right. right. right. left. reflexivity.
Qed.

(** *** Dependencies *)












End WorkflowValidation.

(** ** Reference resolution and node execution *)

Module GraphBuilder.
Import LangGraphBuilder BuilderSpec PyStrFacts.
Local Open Scope py_scope.

(** *** Read-only computations *)

Lemma Returns_ReadOnly {A : Type} (m : M World A) : Returns m -> ReadOnly m.
Proof.
  intros H st. destruct (H st) as (a & records & E).
  exists (Returned a), records. exact E.
Qed.

Lemma Returns_ret {A : Type} (a : A) : Returns (ret a).
Proof.
  intros st. exists a, []. intros lg. unfold ret. now rewrite app_nil_r.
Qed.

Lemma ReadOnly_raise {A : Type} (e : exn) : ReadOnly (@raise World A e).
Proof.
  intros st. exists (Raised e), []. intros lg. unfold raise. now rewrite app_nil_r.
Qed.

Lemma Returns_logger (lv : level) (msg : string) : Returns (logger lv msg).
Proof.
  intros st. exists tt, [(lv, msg)]. intros lg. reflexivity.
Qed.

Lemma Returns_read_state : Returns read_state.
Proof.
  intros st. exists st, []. intros lg. unfold read_state, bind, get, ret. cbn.
  now rewrite app_nil_r.
Qed.

Lemma ReadOnly_bind {A B : Type} (m : M World A) (k : A -> M World B) :
  ReadOnly m -> (forall a, ReadOnly (k a)) -> ReadOnly (bind m k).
Proof.
  intros Hm Hk st. destruct (Hm st) as (r & r1 & E1).
  destruct r as [a|e].
  - destruct (Hk a st) as (r' & r2 & E2).
    exists r', (r1 ++ r2). intros lg. unfold bind. rewrite E1, E2.
    now rewrite app_assoc.
  - exists (Raised e), r1. intros lg. unfold bind. now rewrite E1.
Qed.

Lemma Returns_bind {A B : Type} (m : M World A) (k : A -> M World B) :
  Returns m -> (forall a, Returns (k a)) -> Returns (bind m k).
Proof.
  intros Hm Hk st. destruct (Hm st) as (a & r1 & E1).
  destruct (Hk a st) as (b & r2 & E2).
  exists b, (r1 ++ r2). intros lg. unfold bind. rewrite E1, E2.
  now rewrite app_assoc.
Qed.

Lemma Returns_get_yaml_config (cfg : ConfigLoader) (key : string) (default : value) :
  Returns (get_yaml_config cfg key default).
Proof.
  unfold get_yaml_config.
  destruct (subscript_all (config cfg) (PyStr.split "." key)).
  - apply Returns_ret.
  - apply Returns_bind; [ apply Returns_logger | intros _; apply Returns_ret ].
Qed.

Lemma Returns_navigate (path : string) (parts : list string) (v : value) :
  Returns (navigate path parts v).
Proof.
  revert v. induction parts as [|part rest IH]; intros v; cbn [navigate].
  - apply Returns_ret.
  - assert (Stop1 : Returns
      (logger WARNING (" Could not resolve path: " ++ path ++ " (stopped at " ++ part ++ ")") ;;;
       ret VNone)).
    { apply Returns_bind; [ apply Returns_logger | intros _; apply Returns_ret ]. }
    assert (Stop2 : Returns
      (logger WARNING (" Path resolution failed at " ++ part ++ " in " ++ path) ;;;
       ret VNone)).
    { apply Returns_bind; [ apply Returns_logger | intros _; apply Returns_ret ]. }
    destruct v; try exact Stop2.
    destruct (String.eqb part "output"); [ apply IH | ].
    destruct (dict_get entries part) as [v'|]; [ | exact Stop1 ].
    destruct v'; try apply IH. exact Stop1.
Qed.

Lemma ReadOnly_get_nested_value (cfg : ConfigLoader) (path : string) :
  ReadOnly (_get_nested_value cfg path).
Proof.
  unfold _get_nested_value.
  destruct (String.eqb (hd EmptyString (PyStr.split "." path)) "config").
  - destruct (nth_error (PyStr.split "." path) 1) as [second|]; [ | apply ReadOnly_raise ].
    apply Returns_ReadOnly.
    destruct (String.eqb second "scoring"); [ apply Returns_get_yaml_config | ].
    destruct (String.eqb second "icp"); [ apply Returns_get_yaml_config | apply Returns_ret ].
  - apply Returns_ReadOnly, Returns_bind; [ apply Returns_read_state | ].
    intros st. apply Returns_navigate.
Qed.

Lemma ReadOnly_resolve_entries (resolve : string -> value -> M World value) (items : dict) :
  Forall (fun kv => forall key, ReadOnly (resolve key (snd kv))) items ->
  forall resolved, ReadOnly (resolve_entries resolve items resolved).
Proof.
  induction 1 as [|[k v] items Hv _ IH]; intros resolved; cbn [resolve_entries].
  - apply Returns_ReadOnly, Returns_ret.
  - apply ReadOnly_bind; [ apply Hv | intros v'; apply IH ].
Qed.

Lemma ReadOnly_resolve_items (resolve : string -> value -> M World value) (items : list value) :
  Forall (fun v => forall key, ReadOnly (resolve key v)) items ->
  ReadOnly (resolve_items resolve items).
Proof.
  induction 1 as [|item items Hv _ IH]; cbn [resolve_items].
  - apply Returns_ReadOnly, Returns_ret.
  - apply ReadOnly_bind.
    + destruct item; try (apply Returns_ReadOnly, Returns_ret). apply Hv.
    + intros item'. apply ReadOnly_bind; [ exact IH | ].
      intros rest'. apply Returns_ReadOnly, Returns_ret.
Qed.

Lemma ReadOnly_resolve_value (cfg : ConfigLoader) (v : value) :
  forall key, ReadOnly (resolve_value cfg key v).
Proof.
  induction v as [ | b | z | q | s | l IH | d IH ] using value_nested_ind;
    intros key; cbn [resolve_value];
    try (apply Returns_ReadOnly, Returns_ret).
  - destruct (PyStr.contains "{{" s && PyStr.contains "}}" s);
      [ | apply Returns_ReadOnly, Returns_ret ].
    destruct (re_search s) as [ref_path|]; [ | apply Returns_ReadOnly, Returns_ret ].
    apply ReadOnly_bind; [ apply ReadOnly_get_nested_value | ].
    intros resolved_value. apply Returns_ReadOnly, Returns_bind;
      [ apply Returns_logger | intros _; apply Returns_ret ].
  - apply ReadOnly_bind; [ now apply ReadOnly_resolve_items | ].
    intros r. apply Returns_ReadOnly, Returns_ret.
  - apply ReadOnly_bind; [ now apply ReadOnly_resolve_entries | ].
    intros r. apply Returns_ReadOnly, Returns_ret.
Qed.

Lemma ReadOnly_resolve_input_references (cfg : ConfigLoader) (inputs : dict) :
  ReadOnly (_resolve_input_references cfg inputs).
Proof.
  unfold _resolve_input_references. apply ReadOnly_resolve_entries.
  apply Forall_forall. intros kv _ key. apply ReadOnly_resolve_value.
Qed.

Lemma world_eta (w : World) : w = {| state := state w; log := log w |}.
Proof. now destruct w. Qed.

(** A read-only computation, run in any world. *)
Lemma ReadOnly_run {A : Type} (m : M World A) (w : World) :
  ReadOnly m ->
  exists r records,
    m w = (r, add_log w records) /\
    forall w', state w' = state w -> m w' = (r, add_log w' records).
Proof.
  intros H. destruct (H (state w)) as (r & records & E).
  exists r, records. split.
  - rewrite (world_eta w) at 1. apply E.
  - intros w' Hs. rewrite (world_eta w') at 1. rewrite Hs. rewrite E.
    unfold add_log. now rewrite Hs.
Qed.

(** C9: resolving an input mapping leaves the run state as it was, and its
    outcome is a function of the mapping and the run state alone: a second
    resolution, and a resolution in any world with the same run state, gives
    the same outcome.  The same holds for a single path. *)
Theorem resolution_is_pure (cfg : ConfigLoader) (inputs : dict) (path : string)
    (w : World) :
  state (snd (_resolve_input_references cfg inputs w)) = state w /\
  fst (_resolve_input_references cfg inputs (snd (_resolve_input_references cfg inputs w)))
    = fst (_resolve_input_references cfg inputs w) /\
  state (snd (_resolve_input_references cfg inputs
                (snd (_resolve_input_references cfg inputs w)))) = state w /\
  (forall w', state w' = state w ->
     fst (_resolve_input_references cfg inputs w')
       = fst (_resolve_input_references cfg inputs w)) /\
  state (snd (_get_nested_value cfg path w)) = state w /\
  fst (_get_nested_value cfg path (snd (_get_nested_value cfg path w)))
    = fst (_get_nested_value cfg path w).
Proof.
  destruct (ReadOnly_run _ w (ReadOnly_resolve_input_references cfg inputs))
    as (r & records & E & Eany).
  destruct (ReadOnly_run _ w (ReadOnly_get_nested_value cfg path))
    as (r' & records' & E' & Eany').
  rewrite E, E'. cbn [fst snd].
  rewrite (Eany (add_log w records) eq_refl), (Eany' (add_log w records') eq_refl).
  cbn [fst snd]. repeat split.
  intros w' Hs. now rewrite (Eany w' Hs).
Qed.

(** *** Paths *)

Lemma navigate_none (path : string) (parts : list string) (w : World) :
  fst (navigate path parts VNone w) = Returned VNone.
Proof. destruct parts; reflexivity. Qed.

(** Walking [pre ++ rest] is walking [pre] and, unless that ended in [None],
    walking [rest] from the value reached. *)
Lemma navigate_prefix (path : string) (pre rest : list string) (v0 : value) (w : World) :
  fst (navigate path (pre ++ rest) v0 w) =
  match fst (navigate path pre v0 w) with
  | Returned VNone => Returned VNone
  | Returned v => fst (navigate path rest v w)
  | Raised e => Raised e
  end.
Proof.
  revert v0. induction pre as [|part pre IH]; intros v0.
  - cbn. destruct v0; try reflexivity. apply navigate_none.
  - cbn [app navigate]. destruct v0; try reflexivity.
    destruct (String.eqb part "output"); [ apply IH | ].
    destruct (dict_get entries part) as [v'|]; [ | reflexivity ].
    destruct v'; try apply IH. reflexivity.
Qed.

Lemma navigate_transparent (path : string) (k : nat) (d : dict) (w : World) :
  navigate path (repeat "output" k) (VDict d) w = (Returned (VDict d), w).
Proof.
  induction k as [|k IH]; [ reflexivity | ].
  cbn [repeat navigate]. rewrite String.eqb_refl. exact IH.
Qed.

Lemma get_nested_value_navigates (cfg : ConfigLoader) (path : string) (w : World) :
  hd EmptyString (PyStr.split "." path) <> "config" ->
  _get_nested_value cfg path w = navigate path (PyStr.split "." path) (VDict (state w)) w.
Proof.
  intros H. unfold _get_nested_value.
  apply String.eqb_neq in H. rewrite H.
  unfold bind, read_state, get, ret. cbn. reflexivity.
Qed.

(** For a path whose root is not [config], resolution always returns and
    leaves the run state alone.  It returns [None] when the first segment
    other than the transparent [output] is absent from the run state, and
    more generally when, after the segments [pre], the value reached is not
    a dict or is a dict that lacks the next segment, that segment not being
    [output].  For a path [config.second...] whose second segment is neither
    [scoring] nor [icp] it returns [None] and logs nothing. *)
Lemma missing_reference_yields_none (cfg : ConfigLoader) (path : string) (w : World) :
  (hd EmptyString (PyStr.split "." path) <> "config" ->
   exists v records, _get_nested_value cfg path w = (Returned v, add_log w records)) /\
  (forall k seg rest,
     hd EmptyString (PyStr.split "." path) <> "config" ->
     PyStr.split "." path = repeat "output" k ++ seg :: rest ->
     seg <> "output" ->
     dict_get (state w) seg = None ->
     fst (_get_nested_value cfg path w) = Returned VNone) /\
  (forall pre seg post v,
     hd EmptyString (PyStr.split "." path) <> "config" ->
     PyStr.split "." path = pre ++ seg :: post ->
     fst (navigate path pre (VDict (state w)) w) = Returned v ->
     match v with
     | VDict d => seg <> "output" /\ dict_get d seg = None
     | _ => True
     end ->
     fst (_get_nested_value cfg path w) = Returned VNone) /\
  (forall second rest,
     PyStr.split "." path = "config" :: second :: rest ->
     second <> "scoring" -> second <> "icp" ->
     _get_nested_value cfg path w = (Returned VNone, w)).
Proof.
  assert (Step : forall pre seg post v,
     hd EmptyString (PyStr.split "." path) <> "config" ->
     PyStr.split "." path = pre ++ seg :: post ->
     fst (navigate path pre (VDict (state w)) w) = Returned v ->
     match v with
     | VDict d => seg <> "output" /\ dict_get d seg = None
     | _ => True
     end ->
     fst (_get_nested_value cfg path w) = Returned VNone).
  { intros pre seg post v Hroot Hsplit Hpre Hv.
    rewrite (get_nested_value_navigates cfg path w Hroot), Hsplit.
    rewrite navigate_prefix, Hpre.
    destruct v; try reflexivity.
    destruct Hv as [Hseg Hget]. cbn [navigate].
    apply String.eqb_neq in Hseg. rewrite Hseg, Hget. reflexivity. }
  split; [ | split; [ | split ] ].
  - intros Hroot. rewrite (get_nested_value_navigates cfg path w Hroot).
    clear Step. destruct w as [st lg]. cbn [state].
    destruct (Returns_navigate path (PyStr.split "." path) (VDict st) st)
      as (v & records & E).
    exists v, records. apply E.
  - intros k seg rest Hroot Hsplit Hseg Hget.
    apply (Step (repeat "output" k) seg rest (VDict (state w)) Hroot Hsplit).
    + now rewrite navigate_transparent.
    + now split.
  - exact Step.
  - intros second rest Hsplit Hs Hi. unfold _get_nested_value. rewrite Hsplit.
    cbn [hd nth_error]. rewrite String.eqb_refl.
    apply String.eqb_neq in Hs, Hi. now rewrite Hs, Hi.
Qed.

(** The paths of the repository's resolution test: the segment [output] is
    skipped wherever it stands, so both paths resolve to the leads. *)
Example transparent_segment_resolves :
  fst (_get_nested_value Samples.no_yaml "prospect_search.output.leads"
         (Samples.world_of Samples.test_state))
    = Returned (VList [ VDict [("name", VStr "Test Lead 1")];
                        VDict [("name", VStr "Test Lead 2")] ]) /\
  fst (_get_nested_value Samples.no_yaml "output.scoring.ranked_leads"
         (Samples.world_of Samples.test_state))
    = Returned (VList [ VDict [("score", VFloat (9 # 10))] ]).
Proof. repeat split. Qed.

(** C7: resolution yields [None] without raising for every path but one.
    For a path whose root is not [config] it always returns, and it returns
    [None] when the first segment other than the transparent [output] is
    absent from the run state, or when a later segment other than [output]
    is missing from the dict reached so far, or that value is not a dict.
    For a path [config.second...] whose second segment is neither [scoring]
    nor [icp] it returns [None].  The path [config] alone, which the
    reference [{{config}}] names and whose root is absent from the run
    state a run starts from, raises [IndexError] in every configuration and
    every run state: the branch for the reserved root reads the second
    segment without looking at the number of segments. *)
Theorem bare_config_path_raises (cfg : ConfigLoader) (w : World) :
  (forall path,
     hd EmptyString (PyStr.split "." path) <> "config" ->
     exists v records, _get_nested_value cfg path w = (Returned v, add_log w records)) /\
  (forall path k seg rest,
     hd EmptyString (PyStr.split "." path) <> "config" ->
     PyStr.split "." path = repeat "output" k ++ seg :: rest ->
     seg <> "output" ->
     dict_get (state w) seg = None ->
     fst (_get_nested_value cfg path w) = Returned VNone) /\
  (forall path pre seg post v,
     hd EmptyString (PyStr.split "." path) <> "config" ->
     PyStr.split "." path = pre ++ seg :: post ->
     fst (navigate path pre (VDict (state w)) w) = Returned v ->
     match v with
     | VDict d => seg <> "output" /\ dict_get d seg = None
     | _ => True
     end ->
     fst (_get_nested_value cfg path w) = Returned VNone) /\
  (forall path second rest,
     PyStr.split "." path = "config" :: second :: rest ->
     second <> "scoring" -> second <> "icp" ->
     _get_nested_value cfg path w = (Returned VNone, w)) /\
  re_search "{{config}}" = Some "config" /\
  PyStr.split "." "config" = ["config"] /\
  dict_get Samples.initial_run_state "config" = None /\
  _get_nested_value cfg "config" w
    = (Raised (Exn "IndexError" "list index out of range"), w) /\
  _get_nested_value cfg "config.unknown" w = (Returned VNone, w).
Proof.
  split; [ intros path; apply (missing_reference_yields_none cfg path w) | ].
  split; [ intros path; apply (missing_reference_yields_none cfg path w) | ].
  split; [ intros path; apply (missing_reference_yields_none cfg path w) | ].
  split; [ intros path; apply (missing_reference_yields_none cfg path w) | ].
  repeat split.
Qed.

(** *** Node execution *)

Lemma Runs_ret {A : Type} (a : A) (st : dict) : Runs (ret a) st (Returned a) st.
Proof. intros lg. now exists lg. Qed.

Lemma Runs_raise {A : Type} (e : exn) (st : dict) : Runs (@raise World A e) st (Raised e) st.
Proof. intros lg. now exists lg. Qed.

Lemma Runs_call {A : Type} (o : outcome A) (st : dict) : Runs (call o) st o st.
Proof. intros lg. now exists lg. Qed.

Lemma Runs_logger (lv : level) (msg : string) (st : dict) :
  Runs (logger lv msg) st (Returned tt) st.
Proof. intros lg. eexists. reflexivity. Qed.

Lemma Runs_state_set (key : string) (v : value) (st : dict) :
  Runs (state_set key v) st (Returned tt) (dict_set st key v).
Proof. intros lg. eexists. reflexivity. Qed.

Lemma Runs_read_state (st : dict) : Runs read_state st (Returned st) st.
Proof. intros lg. eexists. reflexivity. Qed.

Lemma Runs_bind {A B : Type} (m : M World A) (k : A -> M World B)
    (st st1 st2 : dict) (a : A) (r : outcome B) :
  Runs m st (Returned a) st1 -> Runs (k a) st1 r st2 -> Runs (bind m k) st r st2.
Proof.
  intros Hm Hk lg. destruct (Hm lg) as (lg1 & E1). destruct (Hk lg1) as (lg2 & E2).
  exists lg2. unfold bind. now rewrite E1.
Qed.

Lemma Runs_bind_raised {A B : Type} (m : M World A) (k : A -> M World B)
    (st st1 : dict) (e : exn) :
  Runs m st (Raised e) st1 -> Runs (bind m k) st (Raised e) st1.
Proof.
  intros Hm lg. destruct (Hm lg) as (lg1 & E1).
  exists lg1. unfold bind. now rewrite E1.
Qed.

Lemma Runs_try_returned {A : Type} (body : M World A) (handler : exn -> M World A)
    (st st1 : dict) (a : A) :
  Runs body st (Returned a) st1 -> Runs (try_except body handler) st (Returned a) st1.
Proof.
  intros Hm lg. destruct (Hm lg) as (lg1 & E1).
  exists lg1. unfold try_except. now rewrite E1.
Qed.

Lemma Runs_try_caught {A : Type} (body : M World A) (handler : exn -> M World A)
    (st st1 st2 : dict) (e : exn) (r : outcome A) :
  Runs body st (Raised e) st1 -> Runs (handler e) st1 r st2 ->
  Runs (try_except body handler) st r st2.
Proof.
  intros Hm Hh lg. destruct (Hm lg) as (lg1 & E1). destruct (Hh lg1) as (lg2 & E2).
  exists lg2. unfold try_except. now rewrite E1.
Qed.

Lemma Runs_append_error (record : value) (st : dict) (errs : list value) :
  errors_are st errs ->
  Runs (append_error record) st (Returned tt) (dict_set st "errors" (VList (errs ++ [record]))).
Proof.
  intros H lg. unfold append_error, bind, read_state, get, ret. cbn.
  unfold errors_are in H. rewrite H. eexists. reflexivity.
Qed.

Lemma Runs_py_get (d : dict) (key : string) (default : value) (st : dict) :
  Runs (py_get (VDict d) key default) st
    (Returned (match dict_get d key with Some v => v | None => default end)) st.
Proof. apply Runs_ret. Qed.

Lemma Runs_py_get_raised (o : value) (key : string) (default : value) (st : dict) :
  (forall d, o <> VDict d) ->
  Runs (py_get o key default) st
    (Raised (Exn "AttributeError" ("'" ++ type_name o ++ "' object has no attribute 'get'"))) st.
Proof.
  intros H. destruct o; try apply Runs_raise. now destruct (H entries).
Qed.

Lemma ReadOnly_Runs {A : Type} (m : M World A) (w : World) :
  ReadOnly m -> forall st, state w = st -> Runs m st (fst (m w)) st.
Proof.
  intros H st <-. destruct w as [st lg0]. cbn [state].
  destruct (H st) as (r & records & E).
  rewrite E. cbn [fst]. intros lg. eexists. apply E.
Qed.

Lemma Runs_world {A : Type} (m : M World A) (w : World) (r : outcome A) (st' : dict) :
  Runs m (state w) r st' -> exists w', m w = (r, w') /\ state w' = st'.
Proof.
  intros H. destruct (H (log w)) as (lg' & E).
  rewrite <- world_eta in E. eexists. split; [ exact E | reflexivity ].
Qed.

Lemma Runs_logged {B : Type} (lv : level) (msg : string) (k : unit -> M World B)
    (st st' : dict) (r : outcome B) :
  Runs (k tt) st r st' -> Runs (bind (logger lv msg) k) st r st'.
Proof. intros H. eapply Runs_bind; [ apply Runs_logger | exact H ]. Qed.

Lemma Runs_resolve (cfg : ConfigLoader) (inputs : dict) (w : World) (agent_input : dict) :
  fst (_resolve_input_references cfg inputs w) = Returned agent_input ->
  Runs (_resolve_input_references cfg inputs) (state w) (Returned agent_input) (state w).
Proof.
  intros H.
  pose proof (ReadOnly_Runs _ w (ReadOnly_resolve_input_references cfg inputs)
                (state w) eq_refl) as R.
  now rewrite H in R.
Qed.

(** A fault of the resolution leaves the node as it is. *)
Lemma node_function_resolution_raised (cfg : ConfigLoader)
    (agents : list (string * agent_callable)) (step_id agent_name : string)
    (step : JsonValidator.WorkflowStep) (now : string) (w : World)
    (agent : agent_callable) (e : exn) :
  agents_get agents agent_name = Some agent ->
  fst (_resolve_input_references cfg (JsonValidator.inputs step) w) = Raised e ->
  Runs (node_function cfg agents step_id agent_name step now) (state w) (Raised e) (state w).
Proof.
  intros Ha He. unfold node_function. rewrite Ha.
  do 3 apply Runs_logged.
  apply Runs_bind_raised.
  pose proof (ReadOnly_Runs _ w (ReadOnly_resolve_input_references cfg
                                   (JsonValidator.inputs step))
                (state w) eq_refl) as R.
  now rewrite He in R.
Qed.

(** C3: a fault raised while the input mapping is resolved is not caught
    at the node boundary.  Whenever the agent of a step is registered and
    the resolution of the step's input mapping raises, the node raises that
    fault and no error record is appended: the input mapping is resolved
    before the [try] block is entered.  The workflow file whose step
    [Samples.bare_config_step] has the input [{{config}}] is accepted by
    [validate_workflow_file]; its agent is registered and the run state is
    the one a run starts from; the node of that step raises [IndexError]
    instead of returning the run state with an error record.  A fault of
    the agent's call, inside the block, is recorded and the node
    returns. *)
Theorem resolution_fault_escapes_node :
  (forall cfg agents step_id agent_name step now w agent e,
     agents_get agents agent_name = Some agent ->
     fst (_resolve_input_references cfg (JsonValidator.inputs step) w) = Raised e ->
     fst (node_function cfg agents step_id agent_name step now w) = Raised e /\
     state (snd (node_function cfg agents step_id agent_name step now w)) = state w) /\
  (forall rt,
     fst (JsonValidator.validate_workflow_file rt
            (Samples.disk_with (Samples.workflow [Samples.bare_config_step])) "workflow.json")
     = Returned (Samples.workflow [Samples.bare_config_step])) /\
  agents_get Samples.registry "ScoringAgent" = Some Samples.failing_agent /\
  errors_are Samples.initial_run_state [] /\
  fst (node_function Samples.no_yaml Samples.registry "scoring" "ScoringAgent"
         Samples.bare_config_step "2025-01-01T00:00:02"
         (Samples.world_of Samples.initial_run_state))
    = Raised (Exn "IndexError" "list index out of range") /\
  fst (node_function Samples.no_yaml Samples.registry "prospect_search" "ProspectSearchAgent"
         Samples.search_step "2025-01-01T00:00:02"
         (Samples.world_of Samples.initial_run_state))
    = Returned (dict_set Samples.initial_run_state "errors"
                  (VList [error_record "prospect_search"
                            (exception_message (Exn "RuntimeError" "boom"))
                            "2025-01-01T00:00:02"])).
Proof.
  split; [ | repeat split ].
  intros cfg agents step_id agent_name step now w agent e Ha He.
  destruct (Runs_world _ w _ _
              (node_function_resolution_raised cfg agents step_id agent_name step now w
                 agent e Ha He)) as (w' & E & Hs).
  rewrite E. cbn [fst snd]. now split.
Qed.

(** What a node does with a result it can read: the result is stored under
    the step id and the step id is written to [completed_steps] in either
    case; an error record is appended first when the flag is false. *)
Lemma node_function_returned (cfg : ConfigLoader)
    (agents : list (string * agent_callable)) (step_id agent_name : string)
    (step : JsonValidator.WorkflowStep) (now : string) (w : World)
    (agent : agent_callable) (agent_input output : dict) (errs : list value)
    (flag : value) :
  agents_get agents agent_name = Some agent ->
  fst (_resolve_input_references cfg (JsonValidator.inputs step) w) = Returned agent_input ->
  errors_are (state w) errs ->
  agent agent_input = Returned (VDict output) ->
  reported_success output = Some flag ->
  exists w',
    node_function cfg agents step_id agent_name step now w = (Returned (state w'), w') /\
    state w' =
      store_output
        (if truthy flag then state w
         else dict_set (state w) "errors"
                (VList (errs ++ [error_record step_id (reported_error output) now])))
        step_id (VDict output).
Proof.
  intros Ha Hr He Hc Hflag.
  match goal with |- exists w', _ /\ state w' = ?X =>
    assert (R : Runs (node_function cfg agents step_id agent_name step now) (state w)
                  (Returned X) X) end.
  { unfold node_function. do 3 (apply Runs_logged; cbn beta). rewrite Ha.
    eapply Runs_bind; [ apply (Runs_resolve _ _ _ _ Hr) | cbn beta ].
    apply Runs_logged; cbn beta.
    eapply Runs_bind; [ | apply Runs_read_state ].
    eapply Runs_try_returned.
    eapply Runs_bind; [ rewrite Hc; apply Runs_call | cbn beta ].
    eapply Runs_bind; [ apply Runs_py_get | cbn beta ].
    assert (Hsucc : exists md,
              match dict_get output "_metadata" with Some v => v | None => VDict [] end
                = VDict md /\
              match dict_get md "success" with Some v => v | None => VBool true end = flag).
    { unfold reported_success in Hflag.
      destruct (dict_get output "_metadata") as [md|].
      - destruct md; try discriminate. exists entries. split; [ reflexivity | ].
        destruct (dict_get entries "success"); now injection Hflag.
      - exists []. split; [ reflexivity | ]. now injection Hflag. }
    destruct Hsucc as (md & -> & Hsucc).
    eapply Runs_bind; [ apply Runs_py_get | cbn beta ]. rewrite Hsucc.
    unfold store_output.
    destruct (truthy flag); cbn [negb].
    - eapply Runs_bind; [ apply Runs_logged; cbn beta; apply Runs_logger | cbn beta ].
      eapply Runs_bind; [ apply Runs_state_set | cbn beta ].
      eapply Runs_bind; [ apply Runs_state_set | cbn beta ].
      apply Runs_state_set.
    - eapply Runs_bind.
      + eapply Runs_bind; [ apply Runs_py_get | cbn beta ].
        apply Runs_logged; cbn beta. apply Runs_append_error. exact He.
      + cbn beta.
        eapply Runs_bind; [ apply Runs_state_set | cbn beta ].
        eapply Runs_bind; [ apply Runs_state_set | cbn beta ].
        apply Runs_state_set. }
  destruct (Runs_world _ w _ _ R) as (w' & E & Hs).
  exists w'. rewrite Hs. split; [ exact E | reflexivity ].
Qed.

(** C2: the agent of [Samples.plain_step] returns the failure result
    [Samples.failure_output].  The node stores the result under the step id
    and appends the error record with the reported message, and it also
    writes the step id to [completed_steps]. *)
Theorem failed_step_marked_completed :
  exists st',
    fst (node_function Samples.no_yaml Samples.registry "scoring" "ScoringAgent"
           Samples.plain_step "2025-01-01T00:00:02"
           (Samples.world_of Samples.initial_run_state)) = Returned st' /\
    BuilderSpec.reported_success Samples.failure_output = Some (VBool false) /\
    dict_get st' "scoring" = Some (VDict Samples.failure_output) /\
    dict_get st' "errors"
      = Some (VList [error_record "scoring"
                       (VStr "Input validation failed for ScoringAgent")
                       "2025-01-01T00:00:02"]) /\
    dict_get st' "completed_steps" = Some (VList [VStr "scoring"]).
Proof. eexists. repeat split. Qed.

(** *** The repository's resolution test, and two paths on the reserved root *)

Example simple_reference_resolves :
  fst (_resolve_input_references Samples.no_yaml
         [("leads", VStr "{{prospect_search.output.leads}}")]
         (Samples.world_of Samples.test_state))
  = Returned [("leads", VList [ VDict [("name", VStr "Test Lead 1")];
                                VDict [("name", VStr "Test Lead 2")] ])].
Proof. reflexivity. Qed.

Example unknown_namespace_is_none :
  fst (_get_nested_value Samples.no_yaml "config.unknown"
         (Samples.world_of Samples.test_state)) = Returned VNone.
Proof. reflexivity. Qed.

Example scoring_namespace_is_default :
  fst (_get_nested_value Samples.no_yaml "config.scoring"
         (Samples.world_of Samples.test_state)) = Returned default_scoring.
Proof. reflexivity. Qed.

End GraphBuilder.

(** ** More on the agent contract *)

Module AgentContractMore.
Import BaseAgent AgentSpec AgentContract.

(** X1: when validation passes and [_execute] returns a dict, [execute]
    returns that dict with [_metadata] set to the success envelope: every
    other key keeps its value, a [_metadata] key of the payload is
    overwritten, and the three statistics are advanced by this call. *)
Theorem successful_call_wraps_payload (a : Agent) (clk : Clock) (input_data : dict)
    (st : AgentState) (v : value) (d : dict) :
  _validate_input a input_data = Returned v ->
  truthy v = true ->
  _execute a input_data = Returned (VDict d) ->
  exists out st',
    execute a clk input_data st = (Returned out, st') /\
    dict_get out "_metadata"
      = Some (VDict (success_metadata a (elapsed clk) (timestamp clk))) /\
    (forall k, k <> "_metadata" -> dict_get out k = dict_get d k) /\
    execution_count st' = (execution_count st + 1)%Z /\
    total_execution_time st' = total_execution_time st + elapsed clk /\
    last_execution_time st' = Some (elapsed clk).
Proof.
  intros Hv Ht He.
  assert (HC : Completes a input_data d) by (exists v; auto).
  destruct (execute_cases a clk input_data st) as [(d' & HC' & E) | (e & evs & HF & _)].
  - destruct HC' as (v' & Hv' & _ & He'). rewrite He in He'. injection He' as <-.
    eexists; eexists; split; [ exact E | ].
    split; [ apply dict_get_set_same | ].
    split; [ intros k Hk; apply dict_get_set_other; congruence | ].
    repeat split.
  - destruct (Faults_Completes_exclusive _ _ _ _ HF HC).
Qed.

(** The payload of [Samples.echoing] already has a [_metadata] key. *)
Lemma successful_call_wraps_payload_witness :
  exists out st',
    execute Samples.echoing Samples.clock [("leads", VList [])] initial_state
      = (Returned out, st') /\
    dict_get out "_metadata"
      = Some (VDict (success_metadata Samples.echoing (elapsed Samples.clock)
                       (timestamp Samples.clock))) /\
    (forall k, k <> "_metadata" ->
       dict_get out k
       = dict_get [("_metadata", VStr "mine"); ("leads", VList [])] k) /\
    execution_count st' = (execution_count initial_state + 1)%Z /\
    total_execution_time st' = total_execution_time initial_state + elapsed Samples.clock /\
    last_execution_time st' = Some (elapsed Samples.clock).
Proof.
  apply (successful_call_wraps_payload Samples.echoing Samples.clock
           [("leads", VList [])] initial_state (VBool true)
           [("_metadata", VStr "mine"); ("leads", VList [])]); reflexivity.
Defined.

(** X2: when [_execute] returns an object that is not a dict, the item
    assignment of the metadata raises inside the [try] block: [execute]
    returns a failure result of kind [TypeError] and the statistics stay as
    they were. *)
Theorem payload_must_be_dict (a : Agent) (clk : Clock) (input_data : dict)
    (st : AgentState) (v o : value) :
  _validate_input a input_data = Returned v ->
  truthy v = true ->
  _execute a input_data = Returned o ->
  (forall d, o <> VDict d) ->
  exists st',
    execute a clk input_data st
      = (Returned (error_output a (elapsed clk) (timestamp clk) (assignment_error o)), st') /\
    exn_type (assignment_error o) = "TypeError" /\
    same_stats st st'.
Proof.
  intros Hv Ht He Hno.
  assert (HF : Faults a input_data (assignment_error o))
    by (eapply payload_not_dict; eauto).
  destruct (execute_cases a clk input_data st) as [(d & HC & _) | (e & evs & HF' & E & _)].
  - destruct (Faults_Completes_exclusive _ _ _ _ HF HC).
  - rewrite (Faults_unique _ _ _ _ HF HF').
    eexists. split; [ exact E | ]. split; [ | repeat split ].
    rewrite <- (Faults_unique _ _ _ _ HF HF'). destruct o; reflexivity.
Qed.

(** The core logic of [Samples.returning_none] returns [None]. *)
Lemma payload_must_be_dict_witness :
  exists st',
    execute Samples.returning_none Samples.clock [] initial_state
      = (Returned (error_output Samples.returning_none (elapsed Samples.clock)
                     (timestamp Samples.clock) (assignment_error VNone)), st') /\
    exn_type (assignment_error VNone) = "TypeError" /\
    same_stats initial_state st'.
Proof.
  apply (payload_must_be_dict Samples.returning_none Samples.clock [] initial_state
           (VBool true) VNone); [ reflexivity | reflexivity | reflexivity | discriminate ].
Defined.

(** X3: a fault raised by [_validate_input] itself is reported under its
    own message and class name, not as a validation failure; [_execute] is
    not entered and the statistics stay as they were. *)
Theorem validation_fault_is_reported (a : Agent) (clk : Clock) (input_data : dict)
    (st : AgentState) (e : exn) :
  _validate_input a input_data = Raised e ->
  exists st',
    execute a clk input_data st
      = (Returned (error_output a (elapsed clk) (timestamp clk) e), st') /\
    same_stats st st' /\
    ~ entered_execute (trace st) (trace st').
Proof.
  intros Hv. unfold elapsed. run. rewrite Hv. cbn.
  eexists. split; [ reflexivity | ]. split; [ repeat split | ].
  cbn. repeat rewrite <- app_assoc. cbn.
  apply not_entered. intros i. cbn. intros [H|[H|[H|[]]]]; discriminate.
Qed.

(** The validation of [Samples.crashing] raises a [TypeError]. *)
Lemma validation_fault_is_reported_witness :
  exists st',
    execute Samples.crashing Samples.clock [] initial_state
      = (Returned (error_output Samples.crashing (elapsed Samples.clock)
                     (timestamp Samples.clock)
                     (Exn "TypeError" "object of type 'NoneType' has no len()")), st') /\
    same_stats initial_state st' /\
    ~ entered_execute (trace initial_state) (trace st').
Proof.
  apply (validation_fault_is_reported Samples.crashing Samples.clock [] initial_state
           (Exn "TypeError" "object of type 'NoneType' has no len()")).
  reflexivity.
Defined.

Lemma last_after_head {A : Type} (l : list A) (x d : A) : last (x :: l) d = last l x.
Proof.
  revert x d. induction l as [|y l IH]; intros x d; [ reflexivity | ].
  change (last (x :: y :: l) d) with (last (y :: l) d).
  rewrite (IH y d), (IH y x). reflexivity.
Qed.

Lemma execute_step (a : Agent) (clk : Clock) (input_data : dict) (st : AgentState) :
  (succeeded (fst (execute a clk input_data st)) = true /\
   total_execution_time (snd (execute a clk input_data st))
     = total_execution_time st + elapsed clk /\
   last_execution_time (snd (execute a clk input_data st)) = Some (elapsed clk))
  \/
  (succeeded (fst (execute a clk input_data st)) = false /\
   total_execution_time (snd (execute a clk input_data st)) = total_execution_time st /\
   last_execution_time (snd (execute a clk input_data st)) = last_execution_time st).
Proof.
  destruct (execute_cases a clk input_data st) as [(d & _ & E) | (e & evs & _ & E & _)];
    rewrite E; cbn [fst snd succeeded].
  - left. unfold is_success. rewrite dict_get_set_same. repeat split.
  - right. repeat split.
Qed.

(** X4: over any run of calls on one agent instance,
    [total_execution_time] grows by the durations of the successful calls,
    added in call order, and [last_execution_time] is the duration of the
    last successful call, or what it was when no call succeeded. *)
Theorem statistics_accumulate (a : Agent) (calls : list (Clock * dict)) (st : AgentState) :
  total_execution_time (snd (execute_all a calls st))
    = fold_left Qplus (successful_durations calls (fst (execute_all a calls st)))
        (total_execution_time st) /\
  last_execution_time (snd (execute_all a calls st))
    = last (map Some (successful_durations calls (fst (execute_all a calls st))))
        (last_execution_time st).
Proof.
  revert st. induction calls as [|[clk input_data] rest IH]; intros st.
  - split; reflexivity.
  - cbn [execute_all].
    pose proof (execute_step a clk input_data st) as Hstep.
    destruct (execute a clk input_data st) as [r st1]. cbn [fst snd] in Hstep.
    specialize (IH st1).
    destruct (execute_all a rest st1) as [rs st2]. cbn [fst snd] in *.
    unfold successful_durations in *. cbn [combine filter snd fst].
    destruct IH as [IHt IHl].
    destruct Hstep as [(Hs & Ht & Hl) | (Hs & Ht & Hl)]; rewrite Hs.
    + cbn [map fold_left fst]. rewrite IHt, IHl, Ht, Hl. split; [ reflexivity | ].
      now rewrite last_after_head.
    + rewrite IHt, IHl, Ht, Hl. split; reflexivity.
Qed.

End AgentContractMore.

(** ** More on the workflow validator *)

Module WorkflowValidationMore.
Import JsonValidator ValidatorSpec PyStrFacts WorkflowValidation.

Lemma ascii_isalnum_without_underscores (v : string) :
  ascii_isalnum (PyStr.remove_char "_" v)
  = PyStr.all_chars id_char v && any_char PyStr.alnum_char v.
Proof.
  assert (A : forall s, PyStr.all_chars PyStr.alnum_char (PyStr.remove_char "_" s)
                        = PyStr.all_chars id_char s).
  { induction s as [|c s IH]; [ reflexivity | ].
    cbn [PyStr.remove_char PyStr.all_chars]. unfold id_char at 1.
    destruct (Ascii.eqb c "_") eqn:E.
    - rewrite orb_true_r. exact IH.
    - cbn [PyStr.all_chars]. rewrite orb_false_r, IH. reflexivity. }
  induction v as [|c v IH]; [ reflexivity | ].
  cbn [PyStr.remove_char PyStr.all_chars any_char]. unfold id_char at 1.
  destruct (Ascii.eqb c "_") eqn:E.
  - apply Ascii.eqb_eq in E. subst c. rewrite IH. reflexivity.
  - rewrite orb_false_r. unfold ascii_isalnum. cbn [PyStr.all_chars].
    rewrite A. destruct (PyStr.alnum_char c); [ | reflexivity ].
    cbn. now rewrite andb_true_r.
Qed.

Lemma ascii_not_continuation (c : ascii) :
  PyStr.is_ascii c = true -> PyStr.is_continuation c = false.
Proof.
  destruct c as [[] [] [] [] [] [] [] []]; cbn; intros H; try discriminate H; reflexivity.
Qed.

(** The characters of an ASCII text are its bytes. *)
Lemma chars_ascii (ua : string -> bool) (t : string) :
  PyStr.all_chars PyStr.is_ascii t = true ->
  forallb (PyStr.char_isalnum ua) (PyStr.chars t) = PyStr.all_chars PyStr.alnum_char t.
Proof.
  induction t as [|c t IH]; [ reflexivity | ].
  cbn [PyStr.all_chars PyStr.chars]. intros H. apply andb_true_iff in H as [Hc Ht].
  specialize (IH Ht).
  assert (E : match PyStr.chars t with
              | ch :: rest =>
                  if match t with
                     | String d _ => PyStr.is_continuation d
                     | EmptyString => false
                     end
                  then String c ch :: rest
                  else String c EmptyString :: ch :: rest
              | [] => [String c EmptyString]
              end = String c EmptyString :: PyStr.chars t).
  { destruct (PyStr.chars t) as [|ch rest]; [ reflexivity | ].
    destruct t as [|d t]; [ reflexivity | ].
    cbn [PyStr.all_chars] in Ht. apply andb_true_iff in Ht as [Hd _].
    now rewrite (ascii_not_continuation d Hd). }
  rewrite E. cbn [forallb]. rewrite IH.
  unfold PyStr.char_isalnum. rewrite Hc. now rewrite andb_true_r.
Qed.

Lemma remove_char_ascii (c0 : ascii) (v : string) :
  PyStr.all_chars PyStr.is_ascii v = true ->
  PyStr.all_chars PyStr.is_ascii (PyStr.remove_char c0 v) = true.
Proof.
  induction v as [|c v IH]; [ reflexivity | ].
  cbn [PyStr.all_chars PyStr.remove_char]. intros H. apply andb_true_iff in H as [Hc Hv].
  destruct (Ascii.eqb c c0); [ now apply IH | ].
  cbn [PyStr.all_chars]. rewrite Hc. now apply IH.
Qed.

(** X5: [validate_id] returns the id unchanged or raises a [ValueError]
    whose message ends with the id.  For an id of ASCII characters it
    accepts exactly the ids made of letters, digits and underscores that
    hold at least one letter or digit; the empty id and an id of
    underscores only are refused.  A character outside ASCII is accepted
    when [str.isalnum] holds of it: with the letter e with an acute accent
    and the superscript two classed as alphanumeric, the ids [etape_1]
    written with that accent and [step] followed by that superscript are
    accepted. *)
Theorem validate_id_accepts (rt : Runtime) :
  (forall v,
     validate_id rt v = Returned v \/
     validate_id rt v
       = Raised (Exn "ValueError" ("Step ID must be alphanumeric with underscores: " ++ v))) /\
  (forall v,
     PyStr.all_chars PyStr.is_ascii v = true ->
     validate_id rt v =
       if PyStr.all_chars id_char v && any_char PyStr.alnum_char v
       then Returned v
       else Raised (Exn "ValueError"
                      ("Step ID must be alphanumeric with underscores: " ++ v))) /\
  validate_id rt "" = Raised (Exn "ValueError" "Step ID must be alphanumeric with underscores: ") /\
  validate_id rt "__"
    = Raised (Exn "ValueError" "Step ID must be alphanumeric with underscores: __") /\
  (unicode_alnum rt Samples.e_acute = true ->
   validate_id rt (Samples.e_acute ++ "tape_1")%string = Returned (Samples.e_acute ++ "tape_1")%string) /\
  (unicode_alnum rt Samples.superscript_two = true ->
   validate_id rt ("step" ++ Samples.superscript_two)%string
     = Returned ("step" ++ Samples.superscript_two)%string) /\
  (unicode_alnum rt Samples.e_acute = false ->
   validate_id rt (Samples.e_acute ++ "tape_1")%string
     = Raised (Exn "ValueError"
                 ("Step ID must be alphanumeric with underscores: "
                    ++ Samples.e_acute ++ "tape_1")%string)).
Proof.
  split; [ intros v; unfold validate_id; destruct (negb _); auto | ].
  split.
  - intros v Ha. unfold validate_id.
    assert (E : PyStr.isalnum (unicode_alnum rt) (PyStr.remove_char "_" v)
                = ascii_isalnum (PyStr.remove_char "_" v)).
    { unfold PyStr.isalnum, ascii_isalnum.
      pose proof (remove_char_ascii "_" v Ha) as Hr.
      destruct (PyStr.remove_char "_" v) eqn:R; [ reflexivity | ].
      now apply chars_ascii. }
    rewrite E, ascii_isalnum_without_underscores.
    destruct (PyStr.all_chars id_char v && any_char PyStr.alnum_char v); reflexivity.
  - split; [ reflexivity | ]. split; [ reflexivity | ].
    unfold validate_id. generalize (unicode_alnum rt). intros ua.
    split; [ | split ]; intros H; vm_compute in H; vm_compute; rewrite H; reflexivity.
Qed.

Lemma validate_id_accepts_witness :
  validate_id Samples.runtime "prospect_search" = Returned "prospect_search" /\
  validate_id Samples.runtime (Samples.e_acute ++ "tape_1")%string
    = Returned (Samples.e_acute ++ "tape_1")%string.
Proof.
  split.
  - apply (proj1 (proj2 (validate_id_accepts Samples.runtime)) "prospect_search").
    reflexivity.
  - apply (proj1 (proj2 (proj2 (proj2 (proj2 (validate_id_accepts Samples.runtime)))))).
    reflexivity.
Defined.

Lemma distinct_NoDup (l : list string) :
  distinct l = List.length l <-> NoDup l.
Proof.
  induction l as [|x l IH]; cbn [distinct List.length].
  - split; [ constructor | reflexivity ].
  - pose proof (distinct_le l) as Hle.
    destruct (mem x l) eqn:Hm.
    + split; [ lia | ]. intros H. inversion H as [|? ? Hn _]; subst.
      apply mem_In in Hm. contradiction.
    + split.
      * intros H. constructor.
        -- intros Hin. apply mem_In in Hin. congruence.
        -- apply IH. lia.
      * intros H. inversion H; subst. f_equal. now apply IH.
Qed.

(** X6: [validate_steps] returns the list it was given, unchanged, exactly
    when the list is not empty and the step ids are pairwise distinct; the
    empty list raises "Workflow must have at least one step". *)
Theorem validate_steps_accepts (v : list WorkflowStep) :
  (validate_steps v = Returned v <-> v <> [] /\ NoDup (map id v)) /\
  (forall v', validate_steps v = Returned v' -> v' = v) /\
  validate_steps [] = Raised (Exn "ValueError" "Workflow must have at least one step").
Proof.
  split; [ | split; [ | reflexivity ] ].
  - unfold validate_steps. destruct v as [|st v]; [ split; [ discriminate | now intros [[] _] ] | ].
    set (ids := map id (st :: v)).
    destruct (Nat.eqb (List.length ids) (distinct ids)) eqn:E; cbn [negb].
    + apply Nat.eqb_eq in E. split; [ intros _ | reflexivity ].
      split; [ discriminate | ]. apply distinct_NoDup. now symmetry.
    + apply Nat.eqb_neq in E. split; [ discriminate | ].
      intros [_ H]. apply distinct_NoDup in H. fold ids in H. congruence.
  - unfold validate_steps. destruct v as [|st v]; [ discriminate | ].
    destruct (negb _); [ discriminate | ]. now intros v' [= <-].
Qed.

Lemma validate_id_outcome (rt : Runtime) (v : string) :
  validate_id rt v = Returned v \/
  validate_id rt v
    = Raised (Exn "ValueError" ("Step ID must be alphanumeric with underscores: " ++ v)).
Proof. unfold validate_id. destruct (negb _); auto. Qed.

Lemma validate_steps_returned (l l' : list WorkflowStep) :
  validate_steps l = Returned l' -> l' = l /\ l <> [] /\ NoDup (map id l).
Proof.
  unfold validate_steps. destruct l as [|st l]; [ discriminate | ].
  set (ids := map id (st :: l)).
  destruct (Nat.eqb (List.length ids) (distinct ids)) eqn:E; cbn [negb]; [ | discriminate ].
  intros [= <-]. split; [ reflexivity | ]. split; [ discriminate | ].
  apply distinct_NoDup. apply Nat.eqb_eq in E. now symmetry.
Qed.

Lemma validate_steps_distinct (l : list WorkflowStep) :
  l <> [] -> NoDup (map id l) -> validate_steps l = Returned l.
Proof.
  intros Hne Hnd. unfold validate_steps. destruct l as [|st l]; [ congruence | ].
  apply distinct_NoDup in Hnd. rewrite Hnd, Nat.eqb_refl. reflexivity.
Qed.

(** *** Documents that have all their fields *)

Lemma tool_items_json (at_ : list loc_item) (ts : list ToolConfig) (i : nat) :
  tool_items at_ i (map json_of_tool ts) = inr ts.
Proof.
  revert i. induction ts as [|t ts IH]; intros i; [ reflexivity | ].
  cbn [map tool_items]. rewrite IH. destruct t. reflexivity.
Qed.

(** The steps of such a document fail on their ids only. *)
Lemma workflow_step_json (rt : Runtime) (at_ : list loc_item) (st : WorkflowStep) :
  fst (workflow_step rt at_ (json_of_step st))
  = match validate_id rt (id st) with
    | Returned _ => inr st
    | Raised e => inl [(at_ ++ [Key "id"], value_error (exn_msg e))]
    end.
Proof.
  unfold json_of_step, workflow_step. rewrite fst_and_then.
  cbn [dict_get String.eqb Ascii.eqb Bool.eqb str_field dict_field tools_field].
  cbn. rewrite tool_items_json.
  destruct (validate_id rt (id st)) as [y|e] eqn:E; cbn.
  - apply validate_id_returns in E as [-> _]. now destruct st.
  - reflexivity.
Qed.

Lemma step_items_json (rt : Runtime) (l : list WorkflowStep) (i : nat) :
  fst (step_items rt i (map json_of_step l))
  = match id_errors rt i l with
    | [] => inr l
    | errors => inl errors
    end.
Proof.
  revert i. induction l as [|st l IH]; intros i; [ reflexivity | ].
  cbn [map step_items id_errors]. rewrite !fst_and_then. cbn [quiet fst].
  rewrite workflow_step_json, IH.
  destruct (validate_id rt (id st)) as [y|e]; cbn [app];
    destruct (id_errors rt (S i) l); reflexivity.
Qed.

Lemma id_errors_none (rt : Runtime) (l : list WorkflowStep) (i : nat) :
  id_errors rt i l = [] <-> Forall (fun st => well_formed_id rt (id st)) l.
Proof.
  revert i. induction l as [|st l IH]; intros i; cbn [id_errors].
  - split; [ constructor | reflexivity ].
  - unfold well_formed_id at 1.
    destruct (validate_id_outcome rt (id st)) as [E|E]; rewrite E; cbn [app].
    + rewrite IH. split; [ now constructor | now inversion 1 ].
    + split; [ discriminate | ]. inversion 1; subst. congruence.
Qed.

(** The verdict on such a document is [Built] exactly when it has a step,
    its ids are well-formed and no two are the same, and then it is the
    document itself. *)
Lemma verdict_json_built_iff (rt : Runtime) (data w : WorkflowDefinition) :
  verdict rt (entries_of data) = Built w <->
  w = data /\ steps data <> [] /\
  Forall (fun st => well_formed_id rt (id st)) (steps data) /\
  NoDup (map id (steps data)).
Proof.
  rewrite (verdict_of_steps rt (entries_of data) (map json_of_step (steps data)) eq_refl).
  rewrite step_items_json.
  cbn [entries_of dict_get String.eqb Ascii.eqb Bool.eqb str_field]. cbn [ap errors_of app].
  destruct (id_errors rt 0 (steps data)) as [|e errors] eqn:E.
  - apply id_errors_none in E.
    destruct (validate_steps (steps data)) as [l|e] eqn:Ev; cbn.
    + apply validate_steps_returned in Ev as (-> & Hne & Hnd).
      split.
      * intros [= <-]. split; [ now destruct data | auto ].
      * intros (-> & _). now destruct data.
    + split; [ discriminate | ]. intros (_ & Hne & _ & Hnd).
      rewrite (validate_steps_distinct _ Hne Hnd) in Ev. discriminate.
  - cbn. split; [ discriminate | ]. intros (_ & _ & Hwf & _).
    apply (id_errors_none rt _ 0) in Hwf. congruence.
Qed.

Lemma verdict_cases (rt : Runtime) (data : dict) :
  (exists w, verdict rt data = Built w) \/ (exists errors, verdict rt data = Rejected errors).
Proof. destruct (verdict rt data); eauto. Qed.

(** A definition that was built passed [validate_steps]. *)
Lemma verdict_built_steps (rt : Runtime) (data : dict) (w : WorkflowDefinition) :
  verdict rt data = Built w -> steps w <> [] /\ NoDup (map id (steps w)).
Proof.
  unfold verdict, construct. rewrite fst_and_then. cbn [quiet fst].
  destruct (ap _ (fst (steps_field rt (dict_get data "steps")))) as [errors|w'] eqn:E;
    [ discriminate | ].
  intros [= ->].
  apply ap_built in E as (g & l & Eg & Hl & ->).
  apply ap_built in Eg as (g' & d & Eg' & _ & ->).
  apply ap_built in Eg' as (g'' & n & [= <-] & _ & ->).
  cbn [steps].
  destruct (dict_get data "steps") as [[ | | | | |items| ]|];
    cbn [steps_field quiet fst] in Hl; try discriminate.
  rewrite fst_and_then in Hl. cbn [quiet fst] in Hl.
  destruct (fst (step_items rt 0 items)) as [errors|l']; [ discriminate | ].
  destruct (validate_steps l') as [l''|e] eqn:Ev; cbn [after_validator] in Hl;
    [ | discriminate ].
  injection Hl as <-.
  now apply validate_steps_returned in Ev as (-> & Hne & Hnd).
Qed.

(** X7: for a workflow file that holds a document with all its fields,
    [validate_workflow_file] returns a definition exactly when the step
    list is not empty, every step id is well-formed and the ids are pairwise
    distinct; what it returns is the document, with all its steps in source
    order.  Agent names and input references play no part in the
    decision. *)
Theorem workflow_file_accepted_iff (rt : Runtime) (disk : string -> file_content)
    (path : string) (data : WorkflowDefinition) :
  disk (Path path) = JsonDoc (json_of data) ->
  ((exists w, fst (validate_workflow_file rt disk path) = Returned w) <->
   steps data <> [] /\
   Forall (fun st => well_formed_id rt (id st)) (steps data) /\
   NoDup (map id (steps data))) /\
  (forall w, fst (validate_workflow_file rt disk path) = Returned w -> w = data).
Proof.
  intros Hd.
  assert (Key : forall w, fst (validate_workflow_file rt disk path) = Returned w ->
                          verdict rt (entries_of data) = Built w).
  { intros w Hw.
    destruct (verdict_cases rt (entries_of data)) as [(w' & Hv) | (errors & Hv)].
    - rewrite (validate_workflow_file_built rt disk path _ w' Hd Hv) in Hw.
      now injection Hw as <-.
    - destruct (validate_rejected rt disk path _ errors Hd Hv) as (v' & Ev & _).
      unfold validate_workflow_file in Hw. unfold bind at 1 in Hw. rewrite Ev in Hw.
      discriminate. }
  split.
  - split.
    + intros (w & Hw). apply Key, verdict_json_built_iff in Hw. tauto.
    + intros (Hne & Hwf & Hnd). exists data.
      apply (validate_workflow_file_built rt disk path (entries_of data) data Hd).
      apply verdict_json_built_iff. auto.
  - intros w Hw. apply Key, verdict_json_built_iff in Hw. tauto.
Qed.

(** The document [Samples.dangling] is accepted although its reference
    dangles. *)
Lemma workflow_file_accepted_iff_witness :
  exists w,
    fst (validate_workflow_file Samples.runtime (Samples.disk_with Samples.dangling)
           "workflow.json")
      = Returned w.
Proof.
  apply (proj2 (proj1 (workflow_file_accepted_iff Samples.runtime
                         (Samples.disk_with Samples.dangling)
                         "workflow.json" Samples.dangling eq_refl))).
  split; [ discriminate | ].
  split; [ repeat constructor | ].
  constructor; [ intros [] | constructor ].
Defined.

(** *** Ill-formed ids *)

Lemma workflow_step_bad_id (rt : Runtime) (at_ : list loc_item) (s : dict) (x : string) :
  dict_get s "id" = Some (VStr x) ->
  ~ well_formed_id rt x ->
  In (at_ ++ [Key "id"],
      value_error ("Step ID must be alphanumeric with underscores: " ++ x))
     (errors_of (fst (workflow_step rt at_ (VDict s)))).
Proof.
  intros Hx Hbad. unfold workflow_step. rewrite fst_and_then. cbn [quiet fst].
  rewrite !errors_ap. rewrite Hx. cbn [str_field errors_of app].
  destruct (validate_id_outcome rt x) as [E|E]; [ contradiction | ].
  rewrite E. cbn [after_validator errors_of exn_msg app]. now left.
Qed.

Lemma step_items_bad_id (rt : Runtime) (items : list value) (i k : nat) (s : dict)
    (x : string) :
  nth_error items k = Some (VDict s) ->
  dict_get s "id" = Some (VStr x) ->
  ~ well_formed_id rt x ->
  In (id_entry (i + k) x) (errors_of (fst (step_items rt i items))).
Proof.
  revert i k. induction items as [|item rest IH]; intros i k Hk Hx Hbad;
    [ destruct k; discriminate | ].
  cbn [step_items]. rewrite !fst_and_then. cbn [quiet fst]. rewrite !errors_ap.
  cbn [errors_of app]. apply in_or_app. destruct k as [|k]; cbn [nth_error] in Hk.
  - injection Hk as ->. left. rewrite Nat.add_0_r.
    exact (workflow_step_bad_id rt [Key "steps"; Index i] s x Hx Hbad).
  - right. replace (i + S k)%nat with (S i + k)%nat by lia. now apply IH.
Qed.

(** X8: every step whose id is ill-formed is reported, not only the first
    one: [validate] raises the [ValidationError] of the schema library, and
    for each such step it logs a line with the step's index and its id. *)
Theorem ill_formed_ids_all_reported (rt : Runtime) (disk : string -> file_content)
    (path : string) (data : dict) (items : list value) (k : nat) (s : dict) (x : string) :
  disk (Path path) = JsonDoc (VDict data) ->
  dict_get data "steps" = Some (VList items) ->
  nth_error items k = Some (VDict s) ->
  dict_get s "id" = Some (VStr x) ->
  ~ well_formed_id rt x ->
  exists v',
    validate rt disk (new_validator path)
      = (Raised (Exn "ValidationError" (validation_error_str rt (VDict data))), v') /\
    In (ERROR, error_line (id_entry k x)) (log v') /\
    error_line (id_entry k x)
      = ("   - ('steps', " ++ nat_text k
           ++ ", 'id'): Value error, Step ID must be alphanumeric with underscores: " ++ x)%string.
Proof.
  intros Hd Hs Hk Hx Hbad.
  pose proof (step_items_bad_id rt items 0 k s x Hk Hx Hbad) as Hin. cbn [Nat.add] in Hin.
  assert (Hv : exists errors, verdict rt data = Rejected errors /\ In (id_entry k x) errors).
  { rewrite (verdict_of_steps rt data items Hs).
    destruct (fst (step_items rt 0 items)) as [item_errors|l]; [ | destruct Hin ].
    rewrite ap_failed. eexists. split; [ reflexivity | ].
    apply in_or_app. now right. }
  destruct Hv as (errors & Hv & He).
  destruct (validate_rejected rt disk path data errors Hd Hv) as (v' & Ev & _ & Hl).
  exists v'. split; [ exact Ev | ]. split.
  - rewrite Hl. unfold rejection_log. apply in_or_app. right. apply in_or_app. right.
    apply in_or_app. right.
    exact (in_map (fun e => (ERROR, error_line e)) _ _ He).
  - unfold error_line, id_entry, value_error, loc_text.
    cbn [fst snd map loc_item_text PyStr.join].
    generalize (nat_text k). intros n.
    change (PyStr.repr "steps") with "'steps'"%string.
    change (PyStr.repr "id") with "'id'"%string.
    cbn. rewrite ?PyStrFacts.append_assoc. cbn. reflexivity.
Qed.

(** Step 2 of [Samples.duplicate_and_malformed] has the id [b!]. *)
Lemma ill_formed_ids_all_reported_witness :
  exists v',
    validate Samples.runtime (Samples.disk_with Samples.duplicate_and_malformed)
        (new_validator "workflow.json")
      = (Raised (Exn "ValidationError"
                   (validation_error_str Samples.runtime
                      (VDict (entries_of Samples.duplicate_and_malformed)))), v') /\
    In (ERROR, error_line (id_entry 2 "b!")) (log v') /\
    error_line (id_entry 2 "b!")
      = ("   - ('steps', " ++ nat_text 2
           ++ ", 'id'): Value error, Step ID must be alphanumeric with underscores: "
           ++ "b!")%string.
Proof.
  apply (ill_formed_ids_all_reported Samples.runtime
           (Samples.disk_with Samples.duplicate_and_malformed) "workflow.json"
           (entries_of Samples.duplicate_and_malformed)
           (map json_of_step (steps Samples.duplicate_and_malformed)) 2
           [ ("id", VStr "b!"); ("agent", VStr "ScoringAgent"); ("inputs", VDict []);
             ("instructions", VStr ""); ("tools", VList []); ("output_schema", VDict []) ]
           "b!");
    [ reflexivity | reflexivity | reflexivity | reflexivity | discriminate ].
Defined.

(** X9: a workflow file that is missing or is not JSON makes
    [validate_workflow_file] raise before anything is validated: a missing
    file gives [FileNotFoundError] naming the path as [Path] prints it and
    logs nothing, a malformed one logs the parser's message and raises it
    again.  The path [./missing.json] is printed as [missing.json]. *)
Theorem unreadable_file_aborts (rt : Runtime) (disk : string -> file_content)
    (path : string) :
  (disk (Path path) = NoFile ->
   validate_workflow_file rt disk path
     = (Raised (Exn "FileNotFoundError" ("Workflow file not found: " ++ Path path)),
        new_validator path)) /\
  (forall msg,
     disk (Path path) = BadJson msg ->
     validate_workflow_file rt disk path
       = (Raised (Exn "JSONDecodeError" msg),
          with_log (new_validator path)
            [(ERROR, (" Invalid JSON in workflow file: " ++ msg)%string)])) /\
  Path "./missing.json" = "missing.json".
Proof.
  split; [ | split; [ | reflexivity ] ]; [ intros H | intros msg H ];
    unfold validate_workflow_file, validate, load_workflow, new_validator, with_log;
    remember (Path path) as p; unfold bind, get, raise; cbn;
    rewrite H; reflexivity.
Qed.

Lemma find_step_declared (l : list WorkflowStep) (st : WorkflowStep) :
  NoDup (map id l) -> In st l -> find_step (id st) l = Some st.
Proof.
  induction l as [|st0 l IH]; intros Hnd Hin; [ destruct Hin | ].
  cbn [find_step]. inversion Hnd as [|? ? Hnotin Hnd']; subst.
  destruct Hin as [->|Hin]; [ now rewrite String.eqb_refl | ].
  destruct (String.eqb (id st0) (id st)) eqn:E.
  - apply String.eqb_eq in E. exfalso. apply Hnotin. rewrite E. now apply in_map.
  - now apply IH.
Qed.

Lemma find_step_unknown (l : list WorkflowStep) (step_id : string) :
  ~ In step_id (map id l) -> find_step step_id l = None.
Proof.
  induction l as [|st0 l IH]; intros Hn; [ reflexivity | ].
  cbn [find_step]. destruct (String.eqb (id st0) step_id) eqn:E.
  - apply String.eqb_eq in E. exfalso. apply Hn. now left.
  - apply IH. intros H. apply Hn. now right.
Qed.

(** X10: on a validated workflow with pairwise distinct step ids, [get_step]
    finds every declared step by its id and leaves the validator as it was;
    for an id that no step has it returns [None] and logs a warning. *)
Theorem get_step_finds_declared (rt : Runtime) (disk : string -> file_content)
    (v : WorkflowValidator) (w : WorkflowDefinition) :
  workflow_definition v = Some w ->
  NoDup (map id (steps w)) ->
  (forall st, In st (steps w) -> get_step rt disk (id st) v = (Returned (Some st), v)) /\
  (forall step_id,
     ~ In step_id (map id (steps w)) ->
     get_step rt disk step_id v
       = (Returned None,
          with_log v [(WARNING, ("  Step " ++ step_id ++ " not found in workflow")%string)])).
Proof.
  intros Hw Hnd. split.
  - intros st Hin. unfold get_step, ensure_definition, bind, get. rewrite Hw. cbn.
    now rewrite (find_step_declared _ _ Hnd Hin).
  - intros step_id Hn. unfold get_step, ensure_definition, bind, get. rewrite Hw. cbn.
    now rewrite (find_step_unknown _ _ Hn).
Qed.

Lemma get_step_finds_declared_witness :
  get_step Samples.runtime (Samples.disk_with Samples.two_steps) "score"
    (Samples.validated Samples.two_steps)
  = (Returned (Some (Samples.step "score" "ScoringAgent"
                       [("enriched_leads", VStr "{{search.output.leads}}")])),
     Samples.validated Samples.two_steps).
Proof.
  refine (proj1 (get_step_finds_declared Samples.runtime
                   (Samples.disk_with Samples.two_steps)
                   (Samples.validated Samples.two_steps) Samples.two_steps eq_refl _)
            (Samples.step "score" "ScoringAgent"
               [("enriched_leads", VStr "{{search.output.leads}}")]) _).
  - constructor; [ intros [H|[]]; discriminate | ].
    constructor; [ intros [] | constructor ].
  - right. now left.
Defined.

(** X11: once a document is loaded, the file is not read again: the
    outcomes of [validate], [validate_dependencies], [get_workflow] and
    [get_step] are the same on any two file systems. *)
Theorem loaded_document_is_cached (rt : Runtime) (disk disk' : string -> file_content)
    (v : WorkflowValidator) (step_id : string) :
  truthy (workflow_data v) = true ->
  validate rt disk v = validate rt disk' v /\
  validate_dependencies rt disk v = validate_dependencies rt disk' v /\
  get_workflow rt disk v = get_workflow rt disk' v /\
  get_step rt disk step_id v = get_step rt disk' step_id v.
Proof.
  intros Hdata.
  assert (Hv : validate rt disk v = validate rt disk' v).
  { unfold validate, bind, get. now rewrite Hdata. }
  assert (He : ensure_definition rt disk v = ensure_definition rt disk' v).
  { unfold ensure_definition, bind, get.
    destruct (workflow_definition v); [ reflexivity | ]. now rewrite Hv. }
  split; [ exact Hv | ].
  unfold validate_dependencies, get_workflow, get_step, bind.
  rewrite He. repeat split.
Qed.

Lemma loaded_document_is_cached_witness :
  validate Samples.runtime (Samples.disk_with Samples.dangling)
    (Samples.validated Samples.two_steps)
  = validate Samples.runtime (fun _ => NoFile) (Samples.validated Samples.two_steps).
Proof.
  exact (proj1 (loaded_document_is_cached Samples.runtime
                  (Samples.disk_with Samples.dangling)
                  (fun _ => NoFile) (Samples.validated Samples.two_steps)
                  "score" eq_refl)).
Defined.

End WorkflowValidationMore.

(** ** More on reference resolution *)

Module ResolutionMore.
Import LangGraphBuilder BuilderSpec PyStrFacts GraphBuilder.
Local Open Scope py_scope.

Lemma lazy_group_plain (p acc post : string) :
  PyStr.all_chars group_char p = true ->
  lazy_group acc (p ++ "}}" ++ post) = Some (PyStr.rev_onto acc p).
Proof.
  revert acc. induction p as [|c p IH]; intros acc H.
  - change ("" ++ "}}" ++ post)%string with (String "}" (String "}" post)).
    cbn [lazy_group]. rewrite prefix_head_same, prefix_head_same, prefix_empty.
    now rewrite rev_onto_append, append_empty_r.
  - cbn [PyStr.all_chars] in H. apply andb_true_iff in H. destruct H as [Hc H].
    unfold group_char in Hc. apply andb_true_iff in Hc. destruct Hc as [Hb Hn].
    apply negb_true_iff in Hb, Hn. apply Ascii.eqb_neq in Hb.
    change (String c p ++ "}}" ++ post)%string with (String c (p ++ "}}" ++ post)).
    cbn [lazy_group]. rewrite prefix_head_differs by congruence. rewrite Hn.
    rewrite (IH (String c acc) H). reflexivity.
Qed.

(** The pattern finds the first reference of a string of the shape
    [pre {{ path }} post]. *)
Lemma re_search_reference (pre path post : string) :
  PyStr.all_chars no_open_brace pre = true ->
  path <> EmptyString ->
  PyStr.all_chars group_char path = true ->
  re_search (pre ++ "{{" ++ path ++ "}}" ++ post) = Some path.
Proof.
  intros Hpre Hne Hpath. induction pre as [|c pre IH].
  - destruct path as [|c path]; [ congruence | ].
    change ("" ++ "{{" ++ String c path ++ "}}" ++ post)%string
      with (String "{" (String "{" (String c (path ++ "}}" ++ post)))).
    cbn [re_search]. rewrite prefix_head_same, prefix_head_same, prefix_empty.
    cbn [group_after_open].
    cbn [PyStr.all_chars] in Hpath. apply andb_true_iff in Hpath.
    destruct Hpath as [Hc Hpath].
    unfold group_char in Hc. apply andb_true_iff in Hc. destruct Hc as [_ Hn].
    apply negb_true_iff in Hn. rewrite Hn.
    rewrite (lazy_group_plain path _ post Hpath). reflexivity.
  - cbn [PyStr.all_chars] in Hpre. apply andb_true_iff in Hpre. destruct Hpre as [Hc Hpre].
    unfold no_open_brace in Hc. apply negb_true_iff in Hc. apply Ascii.eqb_neq in Hc.
    change (String c pre ++ "{{" ++ path ++ "}}" ++ post)%string
      with (String c (pre ++ "{{" ++ path ++ "}}" ++ post)).
    cbn [re_search]. rewrite prefix_head_differs by congruence.
    now apply IH.
Qed.

Lemma has_markers_reference (pre path post : string) :
  has_markers (pre ++ "{{" ++ path ++ "}}" ++ post) = true.
Proof.
  unfold has_markers. apply andb_true_iff. split.
  - apply contains_middle.
  - apply contains_append_r, contains_append_r. apply contains_middle.
Qed.

Lemma resolve_single_reference (cfg : ConfigLoader) (key pre path post : string)
    (w : World) :
  PyStr.all_chars no_open_brace pre = true ->
  path <> EmptyString ->
  PyStr.all_chars group_char path = true ->
  fst (_resolve_input_references cfg
         [(key, VStr (pre ++ "{{" ++ path ++ "}}" ++ post))] w)
  = match fst (_get_nested_value cfg path w) with
    | Returned v => Returned [(key, v)]
    | Raised e => Raised e
    end.
Proof.
  intros Hpre Hne Hpath.
  unfold _resolve_input_references. cbn [resolve_entries resolve_value].
  fold (has_markers (pre ++ "{{" ++ path ++ "}}" ++ post)).
  rewrite has_markers_reference, (re_search_reference pre path post Hpre Hne Hpath).
  unfold bind. destruct (_get_nested_value cfg path w) as [[v|e] w1]; reflexivity.
Qed.

(** X12: a string value that holds a reference is replaced as a whole by
    the referenced object: the text before the opening marker and after the
    closing marker is dropped, and a later reference in the same string is
    ignored.  A fault of the path resolution is the fault of the mapping's
    resolution. *)
Theorem reference_replaces_whole_value (cfg : ConfigLoader) (key pre path post : string)
    (w : World) :
  PyStr.all_chars no_open_brace pre = true ->
  path <> EmptyString ->
  PyStr.all_chars group_char path = true ->
  fst (_resolve_input_references cfg
         [(key, VStr (pre ++ "{{" ++ path ++ "}}" ++ post))] w)
  = match fst (_get_nested_value cfg path w) with
    | Returned v => Returned [(key, v)]
    | Raised e => Raised e
    end.
Proof. apply resolve_single_reference. Qed.

Lemma reference_replaces_whole_value_witness :
  fst (_resolve_input_references Samples.no_yaml
         [("leads", VStr ("top " ++ "{{" ++ "prospect_search.leads" ++ "}}" ++ " of {{x}}"))]
         (Samples.world_of Samples.test_state))
  = match fst (_get_nested_value Samples.no_yaml "prospect_search.leads"
                 (Samples.world_of Samples.test_state)) with
    | Returned v => Returned [("leads", v)]
    | Raised e => Raised e
    end.
Proof.
  apply (reference_replaces_whole_value Samples.no_yaml "leads" "top "
           "prospect_search.leads" " of {{x}}" (Samples.world_of Samples.test_state));
    [ reflexivity | discriminate | reflexivity ].
Defined.

Lemma resolve_items_no_dict (resolve : string -> value -> M World value)
    (l : list value) (w : World) :
  forallb (fun item => negb (is_dict item)) l = true ->
  resolve_items resolve l w = (Returned l, w).
Proof.
  induction l as [|item l IH]; intros H; [ reflexivity | ].
  cbn [forallb] in H. apply andb_true_iff in H. destruct H as [Hi H].
  cbn [resolve_items]. unfold bind.
  destruct item; try discriminate Hi; cbn; rewrite (IH H); reflexivity.
Qed.

(** X13: the items of a list are resolved only when they are dicts: a list
    without dict items, reference strings included, is passed on as it is
    and nothing is logged. *)
Theorem list_items_pass_through (cfg : ConfigLoader) (key : string) (l : list value)
    (w : World) :
  forallb (fun item => negb (is_dict item)) l = true ->
  _resolve_input_references cfg [(key, VList l)] w = (Returned [(key, VList l)], w).
Proof.
  intros H. unfold _resolve_input_references. cbn [resolve_entries resolve_value].
  unfold bind. rewrite (resolve_items_no_dict _ l w H). reflexivity.
Qed.

Lemma list_items_pass_through_witness :
  _resolve_input_references Samples.no_yaml
    [("signals", VList [VStr "{{scoring.output.ranked_leads}}"; VInt 3])]
    (Samples.world_of Samples.test_state)
  = (Returned [("signals", VList [VStr "{{scoring.output.ranked_leads}}"; VInt 3])],
     Samples.world_of Samples.test_state).
Proof.
  apply (list_items_pass_through Samples.no_yaml "signals"
           [VStr "{{scoring.output.ranked_leads}}"; VInt 3]
           (Samples.world_of Samples.test_state)).
  reflexivity.
Defined.

Lemma unique_keys_NoDup (d : dict) : unique_keys d = true <-> NoDup (dict_keys d).
Proof.
  induction d as [|[k v] d IH]; cbn [unique_keys dict_keys map fst].
  - split; [ constructor | reflexivity ].
  - rewrite andb_true_iff, negb_true_iff, IH. split.
    + intros [Hm Hnd]. constructor; [ | exact Hnd ].
      intros Hin. apply WorkflowValidation.mem_In in Hin. unfold dict_keys in Hm. congruence.
    + intros H. inversion H as [|? ? Hn Hnd]; subst. split; [ | exact Hnd ].
      destruct (mem k (dict_keys d)) eqn:E; [ | reflexivity ].
      apply WorkflowValidation.mem_In in E. contradiction.
Qed.

Lemma dict_set_fresh (acc : dict) (k : string) (v : value) :
  ~ In k (dict_keys acc) -> dict_set acc k v = acc ++ [(k, v)].
Proof.
  induction acc as [|[k0 v0] acc IH]; intros Hn; [ reflexivity | ].
  cbn [dict_set app]. destruct (String.eqb k0 k) eqn:E.
  - apply String.eqb_eq in E. exfalso. apply Hn. now left.
  - rewrite IH; [ reflexivity | ]. intros H. apply Hn. now right.
Qed.

Lemma dict_keys_app (a b : dict) : dict_keys (a ++ b) = dict_keys a ++ dict_keys b.
Proof. apply map_app. Qed.

(** The loop over the entries, when every value resolves to itself. *)
Lemma resolve_entries_identity (resolve : string -> value -> M World value)
    (d : dict) :
  Forall (fun kv => forall key w, resolve key (snd kv) w = (Returned (snd kv), w)) d ->
  NoDup (dict_keys d) ->
  forall acc w,
    (forall k, In k (dict_keys d) -> ~ In k (dict_keys acc)) ->
    resolve_entries resolve d acc w = (Returned (acc ++ d), w).
Proof.
  induction 1 as [|[k v] d Hv _ IH]; intros Hnd acc w Hdis.
  - cbn. now rewrite app_nil_r.
  - cbn [resolve_entries]. unfold bind. cbn [snd] in Hv. rewrite Hv.
    inversion Hnd as [|? ? Hk Hnd']; subst.
    rewrite dict_set_fresh by (apply Hdis; now left).
    rewrite IH; [ now rewrite <- app_assoc | exact Hnd' | ].
    intros k' Hin. rewrite dict_keys_app. intros H. apply in_app_or in H.
    destruct H as [H|[<-|[]]]; [ | contradiction ].
    apply (Hdis k'); [ now right | exact H ].
Qed.

Lemma resolve_value_reference_free (cfg : ConfigLoader) (v : value) :
  reference_free v = true ->
  forall key w, resolve_value cfg key v w = (Returned v, w).
Proof.
  induction v as [ | b | z | q | s | l IH | d IH ] using value_nested_ind;
    intros Hfree key w; try reflexivity.
  - cbn [resolve_value]. cbn [reference_free] in Hfree.
    apply negb_true_iff in Hfree. unfold has_markers in Hfree. now rewrite Hfree.
  - cbn [resolve_value]. unfold bind.
    assert (E : resolve_items (resolve_value cfg) l w = (Returned l, w)).
    { cbn [reference_free] in Hfree. clear key. revert Hfree.
      induction IH as [|item l Hitem _ IHl]; intros Hfree; [ reflexivity | ].
      cbn [forallb] in Hfree. apply andb_true_iff in Hfree. destruct Hfree as [Hi Hl].
      cbn [resolve_items]. unfold bind.
      destruct item; try (cbn; rewrite (IHl Hl); reflexivity).
      rewrite (Hitem Hi EmptyString w). cbn. rewrite (IHl Hl). reflexivity. }
    now rewrite E.
  - cbn [resolve_value]. unfold bind.
    cbn [reference_free] in Hfree. apply andb_true_iff in Hfree.
    destruct Hfree as [Hu Hall].
    rewrite (resolve_entries_identity (resolve_value cfg) d).
    + reflexivity.
    + rewrite forallb_forall in Hall. rewrite Forall_forall in *.
      intros kv Hin key' w'. apply IH; [ exact Hin | now apply Hall ].
    + now apply unique_keys_NoDup.
    + intros k _ [].
Qed.

(** X14: an input mapping in which no string value has both markers, at any
    depth the resolver descends to, is resolved to itself: literal inputs
    reach the agent unchanged and nothing is logged. *)
Theorem literal_inputs_unchanged (cfg : ConfigLoader) (inputs : dict) (w : World) :
  reference_free (VDict inputs) = true ->
  _resolve_input_references cfg inputs w = (Returned inputs, w).
Proof.
  intros H. pose proof (resolve_value_reference_free cfg (VDict inputs) H EmptyString w) as E.
  cbn [resolve_value] in E. unfold bind in E. unfold _resolve_input_references.
  destruct (resolve_entries (resolve_value cfg) inputs [] w) as [[r|e] w1];
    unfold ret in E; [ now injection E as -> -> | discriminate E ].
Qed.

Lemma literal_inputs_unchanged_witness :
  _resolve_input_references Samples.no_yaml
    [ ("max_leads", VInt 5);
      ("filters", VDict [("industry", VList [VStr "SaaS"]); ("note", VStr "{{ draft")]) ]
    (Samples.world_of Samples.test_state)
  = (Returned
       [ ("max_leads", VInt 5);
         ("filters", VDict [("industry", VList [VStr "SaaS"]); ("note", VStr "{{ draft")]) ],
     Samples.world_of Samples.test_state).
Proof.
  apply (literal_inputs_unchanged Samples.no_yaml
           [ ("max_leads", VInt 5);
             ("filters", VDict [("industry", VList [VStr "SaaS"]); ("note", VStr "{{ draft")]) ]
           (Samples.world_of Samples.test_state)).
  reflexivity.
Defined.

Lemma resolve_entries_keys (resolve : string -> value -> M World value) (d : dict) :
  NoDup (dict_keys d) ->
  forall acc w r w',
    (forall k, In k (dict_keys d) -> ~ In k (dict_keys acc)) ->
    resolve_entries resolve d acc w = (Returned r, w') ->
    dict_keys r = dict_keys acc ++ dict_keys d.
Proof.
  induction d as [|[k v] d IH]; intros Hnd acc w r w' Hdis E.
  - cbn in E. injection E as <- _. cbn. now rewrite app_nil_r.
  - cbn [resolve_entries] in E. unfold bind in E.
    destruct (resolve k v w) as [[v'|e] w1]; [ | discriminate ].
    inversion Hnd as [|? ? Hk Hnd']; subst.
    rewrite dict_set_fresh in E by (apply Hdis; now left).
    apply IH in E; [ | exact Hnd' | ].
    + rewrite E, dict_keys_app. cbn. now rewrite <- app_assoc.
    + intros k' Hin. rewrite dict_keys_app. intros H. apply in_app_or in H.
      destruct H as [H|[<-|[]]]; [ | contradiction ].
      apply (Hdis k'); [ now right | exact H ].
Qed.

(** X15: whenever the resolution of an input mapping returns, the resolved
    mapping has the keys of the input mapping, in the same order. *)
Theorem resolution_keeps_keys (cfg : ConfigLoader) (inputs r : dict) (w : World) :
  unique_keys inputs = true ->
  fst (_resolve_input_references cfg inputs w) = Returned r ->
  dict_keys r = dict_keys inputs.
Proof.
  intros Hu E. unfold _resolve_input_references in E.
  destruct (resolve_entries (resolve_value cfg) inputs [] w) as [o w'] eqn:Er.
  cbn in E. subst o.
  apply (resolve_entries_keys _ _ (proj1 (unique_keys_NoDup inputs) Hu) [] w r w') in Er;
    [ exact Er | intros k _ [] ].
Qed.

Lemma resolution_keeps_keys_witness :
  dict_keys [ ("leads", VNone); ("criteria", LangGraphBuilder.default_scoring) ]
  = dict_keys [ ("leads", VStr "{{enrichment.output.leads}}");
                ("criteria", VStr "{{config.scoring}}") ].
Proof.
  apply (resolution_keeps_keys Samples.no_yaml
           [ ("leads", VStr "{{enrichment.output.leads}}");
             ("criteria", VStr "{{config.scoring}}") ]
           [ ("leads", VNone); ("criteria", LangGraphBuilder.default_scoring) ]
           (Samples.world_of Samples.test_state));
    reflexivity.
Defined.

(** *** Paths built from segments *)

Lemma split_dot_segment (a t : string) :
  PyStr.all_chars no_dot a = true ->
  PyStr.split "." (a ++ "." ++ t) = a :: PyStr.split "." t.
Proof.
  intros Ha. unfold PyStr.split.
  rewrite (split_go_skip_plain "." "." "" a "" _ eq_refl Ha).
  change ("." ++ t)%string with (String "." t).
  cbn [PyStr.split_go]. rewrite prefix_head_same, prefix_empty.
  cbn [String.length Nat.sub]. rewrite rev_onto_rev_onto. cbn [PyStr.rev_onto].
  now rewrite append_empty_r.
Qed.

Lemma split_dot_last (a : string) :
  PyStr.all_chars no_dot a = true -> PyStr.split "." a = [a].
Proof.
  intros Ha. unfold PyStr.split. rewrite <- (append_empty_r a) at 1.
  rewrite (split_go_skip_plain "." "." "" a "" _ eq_refl Ha).
  cbn [PyStr.split_go]. rewrite rev_onto_rev_onto. cbn [PyStr.rev_onto].
  now rewrite append_empty_r.
Qed.

Lemma get_yaml_config_section (cfg : ConfigLoader) (key : string) (default : value)
    (w : World) :
  PyStr.all_chars no_dot key = true ->
  get_yaml_config cfg key default w = yaml_or_default cfg key default w.
Proof.
  intros Hk. unfold get_yaml_config, yaml_or_default.
  rewrite (split_dot_last key Hk). cbn [subscript_all].
  destruct (subscript (config cfg) key); reflexivity.
Qed.

(** X16: under the reserved root only the second segment is read: the paths
    [config.scoring.<anything>] and [config.icp.<anything>] resolve to the
    whole section, which is the entry of that name in the YAML configuration
    when there is one and the built-in default, with a warning, otherwise. *)
Theorem config_section_ignores_tail (cfg : ConfigLoader) (tail : string) (w : World) :
  _get_nested_value cfg ("config.scoring." ++ tail) w
    = yaml_or_default cfg "scoring" default_scoring w /\
  _get_nested_value cfg "config.scoring" w
    = yaml_or_default cfg "scoring" default_scoring w /\
  _get_nested_value cfg ("config.icp." ++ tail) w
    = yaml_or_default cfg "icp" default_icp w /\
  _get_nested_value cfg "config.icp" w
    = yaml_or_default cfg "icp" default_icp w.
Proof.
  assert (S1 : PyStr.split "." ("config.scoring." ++ tail)
               = "config" :: "scoring" :: PyStr.split "." tail).
  { change ("config.scoring." ++ tail)%string
      with ("config" ++ "." ++ ("scoring" ++ "." ++ tail))%string.
    now rewrite !split_dot_segment. }
  assert (S2 : PyStr.split "." ("config.icp." ++ tail)
               = "config" :: "icp" :: PyStr.split "." tail).
  { change ("config.icp." ++ tail)%string
      with ("config" ++ "." ++ ("icp" ++ "." ++ tail))%string.
    now rewrite !split_dot_segment. }
  repeat split.
  - unfold _get_nested_value. rewrite S1. cbn [hd nth_error String.eqb].
    apply (get_yaml_config_section cfg "scoring"). reflexivity.
  - apply (get_yaml_config_section cfg "scoring"). reflexivity.
  - unfold _get_nested_value. rewrite S2. cbn [hd nth_error].
    apply (get_yaml_config_section cfg "icp"). reflexivity.
  - apply (get_yaml_config_section cfg "icp"). reflexivity.
Qed.

Lemma navigate_stored_field (cfg : ConfigLoader) (w : World)
    (step_id field : string) (output : dict) (v : value) :
  PyStr.all_chars no_dot step_id = true ->
  PyStr.all_chars no_dot field = true ->
  step_id <> "config" -> step_id <> "output" -> field <> "output" ->
  dict_get (state w) step_id = Some (VDict output) ->
  dict_get output field = Some v ->
  v <> VNone ->
  _get_nested_value cfg (step_id ++ ".output." ++ field) w = (Returned v, w) /\
  _get_nested_value cfg (step_id ++ "." ++ field) w = (Returned v, w).
Proof.
  intros Hs Hf Hc Ho Hfo Hget Hfield Hv.
  assert (S1 : PyStr.split "." (step_id ++ ".output." ++ field)
               = [step_id; "output"; field]).
  { change (step_id ++ ".output." ++ field)%string
      with (step_id ++ "." ++ ("output" ++ "." ++ field))%string.
    rewrite !split_dot_segment by (exact Hs || reflexivity).
    now rewrite (split_dot_last field Hf). }
  assert (S2 : PyStr.split "." (step_id ++ "." ++ field) = [step_id; field]).
  { rewrite (split_dot_segment step_id field Hs). now rewrite (split_dot_last field Hf). }
  apply String.eqb_neq in Ho, Hfo.
  split.
  - rewrite get_nested_value_navigates by (rewrite S1; exact Hc).
    rewrite S1. cbn [navigate]. rewrite Ho, Hget. cbn [navigate].
    rewrite String.eqb_refl. cbn [navigate]. rewrite Hfo, Hfield.
    destruct v; try reflexivity. now destruct Hv.
  - rewrite get_nested_value_navigates by (rewrite S2; exact Hc).
    rewrite S2. cbn [navigate]. rewrite Ho, Hget. cbn [navigate]. rewrite Hfo, Hfield.
    destruct v; try reflexivity. now destruct Hv.
Qed.

(** X17: a field stored under a step id is found by the paths
    [step.output.field] and [step.field] alike, and the resolution logs
    nothing, when the step id is neither [config] nor [output], the field name
    is not [output], neither holds a dot, and the field is not [None]. *)
Theorem stored_field_is_found (cfg : ConfigLoader) (w : World)
    (step_id field : string) (output : dict) (v : value) :
  PyStr.all_chars no_dot step_id = true ->
  PyStr.all_chars no_dot field = true ->
  step_id <> "config" -> step_id <> "output" -> field <> "output" ->
  dict_get (state w) step_id = Some (VDict output) ->
  dict_get output field = Some v ->
  v <> VNone ->
  _get_nested_value cfg (step_id ++ ".output." ++ field) w = (Returned v, w) /\
  _get_nested_value cfg (step_id ++ "." ++ field) w = (Returned v, w).
Proof. apply navigate_stored_field. Qed.

Lemma stored_field_is_found_witness :
  _get_nested_value Samples.no_yaml ("scoring" ++ ".output." ++ "ranked_leads")
    (Samples.world_of Samples.test_state)
    = (Returned (VList [ VDict [("score", VFloat (9 # 10))] ]),
       Samples.world_of Samples.test_state) /\
  _get_nested_value Samples.no_yaml ("scoring" ++ "." ++ "ranked_leads")
    (Samples.world_of Samples.test_state)
    = (Returned (VList [ VDict [("score", VFloat (9 # 10))] ]),
       Samples.world_of Samples.test_state).
Proof.
  apply (stored_field_is_found Samples.no_yaml (Samples.world_of Samples.test_state)
           "scoring" "ranked_leads"
           [("ranked_leads", VList [ VDict [("score", VFloat (9 # 10))] ])]
           (VList [ VDict [("score", VFloat (9 # 10))] ]));
    try reflexivity; discriminate.
Defined.

Lemma split_dot_join (k : string) (rest : list string) :
  forallb (PyStr.all_chars no_dot) (k :: rest) = true ->
  PyStr.split "." (PyStr.join "." (k :: rest)) = k :: rest.
Proof.
  revert k. induction rest as [|k2 rest IH]; intros k H;
    cbn [forallb] in H; apply andb_true_iff in H as [Hk H].
  - cbn [PyStr.join]. now apply split_dot_last.
  - change (PyStr.join "." (k :: k2 :: rest))
      with (k ++ "." ++ PyStr.join "." (k2 :: rest))%string.
    rewrite split_dot_segment by exact Hk. f_equal. now apply IH.
Qed.

(** X29: a dotted key addresses a nested entry of the configuration:
    [get_yaml_config] with the key [k1.k2...kn] returns
    [config[k1][k2]...[kn]] when every object on the way is a dict that
    holds the next key, and logs nothing; on any miss, an absent key or an
    object on the way that is not a dict, it returns the default and logs
    one warning.  It never raises and leaves the run state alone. *)
Theorem dotted_key_addresses_nested_entry (cfg : ConfigLoader) (keys : list string)
    (default : value) (w : World) :
  keys <> [] ->
  forallb (PyStr.all_chars no_dot) keys = true ->
  get_yaml_config cfg (PyStr.join "." keys) default w
  = match subscript_all (config cfg) keys with
    | Some v => (Returned v, w)
    | None => (Returned default, add_log w [config_warning (PyStr.join "." keys)])
    end.
Proof.
  intros Hne Hk. destruct keys as [|k rest]; [ congruence | ].
  unfold get_yaml_config. rewrite split_dot_join by exact Hk.
  destruct (subscript_all (config cfg) (k :: rest)); reflexivity.
Qed.

Lemma dotted_key_addresses_nested_entry_witness :
  get_yaml_config
    {| config := VDict [("scoring", VDict [("weights", VInt 3)])] |}
    (PyStr.join "." ["scoring"; "weights"; "industry_match"]) (VFloat (3 # 10))
    (Samples.world_of [])
  = (Returned (VFloat (3 # 10)),
     add_log (Samples.world_of [])
       [config_warning (PyStr.join "." ["scoring"; "weights"; "industry_match"])]).
Proof.
  apply (dotted_key_addresses_nested_entry
           {| config := VDict [("scoring", VDict [("weights", VInt 3)])] |}
           ["scoring"; "weights"; "industry_match"] (VFloat (3 # 10)) (Samples.world_of []));
    [ discriminate | reflexivity ].
Defined.

End ResolutionMore.

(** ** More on node execution *)

Module NodeExecutionMore.
Import LangGraphBuilder BuilderSpec PyStrFacts GraphBuilder ResolutionMore.
Local Open Scope py_scope.

(** X18: when no agent is registered under the step's agent name, the node
    appends one error record "Agent <name> not found" and returns: the input
    mapping is not resolved, and the step's slot, [current_step] and
    [completed_steps] are left as they were. *)
Theorem unknown_agent_is_recorded (cfg : ConfigLoader)
    (agents : list (string * agent_callable)) (step_id agent_name : string)
    (step : JsonValidator.WorkflowStep) (now : string) (w : World) (errs : list value) :
  agents_get agents agent_name = None ->
  errors_are (state w) errs ->
  exists w',
    node_function cfg agents step_id agent_name step now w = (Returned (state w'), w') /\
    state w' = dict_set (state w) "errors"
                 (VList (errs ++ [error_record step_id (not_found_message agent_name) now])) /\
    (forall key, key <> "errors" -> dict_get (state w') key = dict_get (state w) key).
Proof.
  intros Ha He.
  match goal with |- exists w', _ /\ state w' = ?X /\ _ =>
    assert (R : Runs (node_function cfg agents step_id agent_name step now) (state w)
                  (Returned X) X) end.
  { unfold node_function. do 3 (apply Runs_logged; cbn beta). rewrite Ha.
    apply Runs_logged; cbn beta.
    eapply Runs_bind; [ apply Runs_append_error; exact He | apply Runs_read_state ]. }
  destruct (Runs_world _ w _ _ R) as (w' & E & Hs).
  exists w'. rewrite Hs. split; [ exact E | ]. split; [ reflexivity | ].
  intros key Hk. apply dict_get_set_other. congruence.
Qed.

Lemma unknown_agent_is_recorded_witness :
  exists w',
    node_function Samples.no_yaml Samples.registry "send" "OutreachExecutorAgent"
      Samples.plain_step "2025-01-01T00:00:02" (Samples.world_of Samples.initial_run_state)
      = (Returned (state w'), w') /\
    state w' = dict_set Samples.initial_run_state "errors"
                 (VList ([] ++ [error_record "send"
                                  (not_found_message "OutreachExecutorAgent")
                                  "2025-01-01T00:00:02"])) /\
    (forall key, key <> "errors" ->
       dict_get (state w') key = dict_get Samples.initial_run_state key).
Proof.
  apply (unknown_agent_is_recorded Samples.no_yaml Samples.registry "send"
           "OutreachExecutorAgent" Samples.plain_step "2025-01-01T00:00:02"
           (Samples.world_of Samples.initial_run_state) []); reflexivity.
Defined.

(** The node's course when the [try] block faults. *)
Lemma node_fault_recorded (cfg : ConfigLoader)
    (agents : list (string * agent_callable)) (step_id agent_name : string)
    (step : JsonValidator.WorkflowStep) (now : string) (w : World)
    (agent : agent_callable) (agent_input : dict) (errs : list value) (e : exn) :
  agents_get agents agent_name = Some agent ->
  fst (_resolve_input_references cfg (JsonValidator.inputs step) w) = Returned agent_input ->
  errors_are (state w) errs ->
  TryFault agent agent_input e ->
  exists w',
    node_function cfg agents step_id agent_name step now w = (Returned (state w'), w') /\
    state w' = dict_set (state w) "errors"
                 (VList (errs ++ [error_record step_id (exception_message e) now])).
Proof.
  intros Ha Hr He Hf.
  match goal with |- exists w', _ /\ state w' = ?X =>
    assert (R : Runs (node_function cfg agents step_id agent_name step now) (state w)
                  (Returned X) X) end.
  { unfold node_function. do 3 (apply Runs_logged; cbn beta). rewrite Ha.
    eapply Runs_bind; [ apply (Runs_resolve _ _ _ _ Hr) | cbn beta ].
    apply Runs_logged; cbn beta.
    eapply Runs_bind; [ | apply Runs_read_state ].
    eapply Runs_try_caught.
    - destruct Hf as [e Hc | o Hc Ho | d md Hc Hmd Hno].
      + eapply Runs_bind_raised. rewrite Hc. apply Runs_call.
      + eapply Runs_bind; [ rewrite Hc; apply Runs_call | cbn beta ].
        eapply Runs_bind_raised. now apply Runs_py_get_raised.
      + eapply Runs_bind; [ rewrite Hc; apply Runs_call | cbn beta ].
        eapply Runs_bind; [ apply Runs_py_get | cbn beta ]. rewrite Hmd.
        eapply Runs_bind_raised. now apply Runs_py_get_raised.
    - cbn beta. apply Runs_logged; cbn beta. apply Runs_append_error. exact He. }
  destruct (Runs_world _ w _ _ R) as (w' & E & Hs).
  exists w'. rewrite Hs. split; [ exact E | reflexivity ].
Qed.

(** Whatever an agent does with an input, the [try] block either faults or
    reads a success flag off a dict. *)
Lemma agent_outcome_cases (agent : agent_callable) (agent_input : dict) :
  (exists e, TryFault agent agent_input e) \/
  (exists output flag,
      agent agent_input = Returned (VDict output) /\ reported_success output = Some flag).
Proof.
  destruct (agent agent_input) as [o|e] eqn:Hc.
  - destruct o;
      try (left; eexists; eapply output_not_dict; [ exact Hc | intros d; discriminate ]).
    unfold reported_success.
    destruct (dict_get entries "_metadata") as [md|] eqn:Hmd.
    + destruct md;
        try (left; eexists; eapply metadata_not_dict;
             [ exact Hc | exact Hmd | intros m; discriminate ]).
      right. exists entries. rewrite Hmd.
      destruct (dict_get entries0 "success"); eauto.
    + right. exists entries. rewrite Hmd. eauto.
  - left. exists e. now apply agent_raised.
Qed.

Lemma store_output_foreign (st : dict) (step_id key : string) (output : value) :
  key <> step_id -> key <> "current_step" -> key <> "completed_steps" ->
  dict_get (store_output st step_id output) key = dict_get st key.
Proof.
  intros H1 H2 H3. unfold store_output.
  rewrite !dict_get_set_other by congruence. reflexivity.
Qed.

(** X19: a node whose agent is registered and whose input mapping resolves
    never raises, whatever its agent does, provided the run state holds a
    list of errors and the step is not itself called [errors].  The error
    list it returns is the old one with at most one record appended, and no
    key of the run state other than the step's slot, [current_step],
    [completed_steps] and [errors] is changed. *)
Theorem node_isolates_its_agent (cfg : ConfigLoader)
    (agents : list (string * agent_callable)) (step_id agent_name : string)
    (step : JsonValidator.WorkflowStep) (now : string) (w : World)
    (agent : agent_callable) (agent_input : dict) (errs : list value) :
  agents_get agents agent_name = Some agent ->
  fst (_resolve_input_references cfg (JsonValidator.inputs step) w) = Returned agent_input ->
  errors_are (state w) errs ->
  step_id <> "errors" ->
  exists w' added,
    node_function cfg agents step_id agent_name step now w = (Returned (state w'), w') /\
    errors_are (state w') (errs ++ added) /\
    (List.length added <= 1)%nat /\
    (forall key, foreign_key step_id key ->
       dict_get (state w') key = dict_get (state w) key).
Proof.
  intros Ha Hr He Hid.
  destruct (agent_outcome_cases agent agent_input) as [(e & Hf) | (output & flag & Hc & Hflag)].
  - destruct (node_fault_recorded cfg agents step_id agent_name step now w
                agent agent_input errs e Ha Hr He Hf) as (w' & E & Hs).
    exists w', [error_record step_id (exception_message e) now].
    split; [ exact E | ]. rewrite Hs.
    split; [ apply dict_get_set_same | ]. split; [ cbn; lia | ].
    intros key (_ & _ & _ & Hk). apply dict_get_set_other. congruence.
  - destruct (node_function_returned cfg agents step_id agent_name step now w
                agent agent_input output errs flag Ha Hr He Hc Hflag) as (w' & E & Hs).
    destruct (truthy flag).
    + exists w', []. split; [ exact E | ]. rewrite Hs.
      split; [ | split; [ cbn; lia | ] ].
      * unfold errors_are. rewrite store_output_foreign by (congruence || discriminate).
        rewrite app_nil_r. exact He.
      * intros key (K1 & K2 & K3 & _). now apply store_output_foreign.
    + exists w', [error_record step_id (reported_error output) now].
      split; [ exact E | ]. rewrite Hs.
      split; [ | split; [ cbn; lia | ] ].
      * unfold errors_are. rewrite store_output_foreign by (congruence || discriminate).
        apply dict_get_set_same.
      * intros key (K1 & K2 & K3 & K4). rewrite store_output_foreign by assumption.
        apply dict_get_set_other. congruence.
Qed.

Lemma node_isolates_its_agent_witness :
  exists w' added,
    node_function Samples.no_yaml Samples.registry "prospect_search" "ProspectSearchAgent"
      Samples.search_step "2025-01-01T00:00:02" (Samples.world_of Samples.initial_run_state)
      = (Returned (state w'), w') /\
    errors_are (state w') ([] ++ added) /\
    (List.length added <= 1)%nat /\
    (forall key, foreign_key "prospect_search" key ->
       dict_get (state w') key = dict_get Samples.initial_run_state key).
Proof.
  apply (node_isolates_its_agent Samples.no_yaml Samples.registry
           "prospect_search" "ProspectSearchAgent" Samples.search_step
           "2025-01-01T00:00:02" (Samples.world_of Samples.initial_run_state)
           Samples.raising_agent [("max_leads", VInt 5)] []);
    [ reflexivity | reflexivity | reflexivity | discriminate ].
Defined.

Lemma store_output_slot (st : dict) (step_id : string) (output : value) :
  step_id <> "current_step" -> step_id <> "completed_steps" ->
  dict_get (store_output st step_id output) step_id = Some output.
Proof.
  intros H1 H2. unfold store_output.
  rewrite !dict_get_set_other by congruence. apply dict_get_set_same.
Qed.

(** X20: when the agent returns a dict from which a success flag can be
    read, the node stores that dict under the step id, sets [current_step] to
    the step id and [completed_steps] to the one-element list of the step id,
    for a true and for a false flag alike.  A result without [_metadata], or
    whose metadata has no [success] entry, counts as successful; on a false
    flag the record appended to the errors carries the result's [error]
    entry, or "Unknown error" when it has none. *)
Theorem result_is_stored (cfg : ConfigLoader)
    (agents : list (string * agent_callable)) (step_id agent_name : string)
    (step : JsonValidator.WorkflowStep) (now : string) (w : World)
    (agent : agent_callable) (agent_input output : dict) (errs : list value)
    (flag : value) :
  agents_get agents agent_name = Some agent ->
  fst (_resolve_input_references cfg (JsonValidator.inputs step) w) = Returned agent_input ->
  errors_are (state w) errs ->
  agent agent_input = Returned (VDict output) ->
  reported_success output = Some flag ->
  step_id <> "current_step" -> step_id <> "completed_steps" -> step_id <> "errors" ->
  exists w',
    node_function cfg agents step_id agent_name step now w = (Returned (state w'), w') /\
    dict_get (state w') step_id = Some (VDict output) /\
    dict_get (state w') "current_step" = Some (VStr step_id) /\
    dict_get (state w') "completed_steps" = Some (VList [VStr step_id]) /\
    errors_are (state w') (errors_after errs step_id output flag now) /\
    (dict_get output "_metadata" = None -> flag = VBool true) /\
    (forall md, dict_get output "_metadata" = Some (VDict md) ->
                dict_get md "success" = None -> flag = VBool true) /\
    (dict_get output "error" = None -> reported_error output = VStr "Unknown error").
Proof.
  intros Ha Hr He Hc Hflag H1 H2 H3.
  destruct (node_function_returned cfg agents step_id agent_name step now w
              agent agent_input output errs flag Ha Hr He Hc Hflag) as (w' & E & Hs).
  exists w'. split; [ exact E | ]. rewrite Hs.
  split; [ now apply store_output_slot | ].
  split; [ unfold store_output; rewrite dict_get_set_other by discriminate;
           apply dict_get_set_same | ].
  split; [ apply dict_get_set_same | ].
  split.
  { unfold errors_are, errors_after.
    rewrite store_output_foreign by (congruence || discriminate).
    destruct (truthy flag); [ exact He | apply dict_get_set_same ]. }
  unfold reported_success in Hflag. unfold reported_error.
  split; [ intros Hm; rewrite Hm in Hflag; congruence | ].
  split; [ intros md Hm Hsucc; rewrite Hm, Hsucc in Hflag; congruence | ].
  intros Herr. now rewrite Herr.
Qed.

(** An agent that returns the empty dict counts as successful. *)
Lemma result_is_stored_witness :
  exists w',
    node_function Samples.no_yaml [("ScoringAgent", fun _ => Returned (VDict []))]
      "scoring" "ScoringAgent" Samples.plain_step "2025-01-01T00:00:02"
      (Samples.world_of Samples.initial_run_state) = (Returned (state w'), w') /\
    dict_get (state w') "scoring" = Some (VDict []) /\
    dict_get (state w') "current_step" = Some (VStr "scoring") /\
    dict_get (state w') "completed_steps" = Some (VList [VStr "scoring"]) /\
    errors_are (state w') (errors_after [] "scoring" [] (VBool true) "2025-01-01T00:00:02") /\
    (dict_get [] "_metadata" = None -> VBool true = VBool true) /\
    (forall md, dict_get [] "_metadata" = Some (VDict md) ->
                dict_get md "success" = None -> VBool true = VBool true) /\
    (dict_get [] "error" = None -> reported_error [] = VStr "Unknown error").
Proof.
  apply (result_is_stored Samples.no_yaml [("ScoringAgent", fun _ => Returned (VDict []))]
           "scoring" "ScoringAgent" Samples.plain_step "2025-01-01T00:00:02"
           (Samples.world_of Samples.initial_run_state)
           (fun _ => Returned (VDict [])) [("enriched_leads", VNone)] [] [] (VBool true));
    try reflexivity; discriminate.
Defined.

Lemma all_chars_append (p : ascii -> bool) (a b : string) :
  PyStr.all_chars p (a ++ b) = PyStr.all_chars p a && PyStr.all_chars p b.
Proof.
  induction a as [|c a IH]; cbn; [ reflexivity | ]. now rewrite IH, andb_assoc.
Qed.

Lemma segment_chars (s : string) :
  PyStr.all_chars segment_char s = true ->
  PyStr.all_chars no_dot s = true /\ PyStr.all_chars group_char s = true.
Proof.
  intros H. split; revert H; apply all_chars_impl; unfold segment_char;
    intros c Hc; now apply andb_true_iff in Hc.
Qed.

(** X21: what one node stores reaches the next node's input: after the node
    of [step_id] stored the dict its agent returned, an input entry
    [{{step_id.output.field}}] resolves, in the run state that node returned,
    to the value of [field] in that dict. *)
Theorem output_reaches_next_node (cfg : ConfigLoader)
    (agents : list (string * agent_callable)) (step_id agent_name : string)
    (step : JsonValidator.WorkflowStep) (now : string) (w : World)
    (agent : agent_callable) (agent_input output : dict) (errs : list value)
    (flag v : value) (key field : string) :
  agents_get agents agent_name = Some agent ->
  fst (_resolve_input_references cfg (JsonValidator.inputs step) w) = Returned agent_input ->
  errors_are (state w) errs ->
  agent agent_input = Returned (VDict output) ->
  reported_success output = Some flag ->
  PyStr.all_chars segment_char step_id = true ->
  PyStr.all_chars segment_char field = true ->
  step_id <> "config" -> step_id <> "output" ->
  step_id <> "current_step" -> step_id <> "completed_steps" ->
  field <> "output" ->
  dict_get output field = Some v ->
  v <> VNone ->
  exists w',
    node_function cfg agents step_id agent_name step now w = (Returned (state w'), w') /\
    fst (_resolve_input_references cfg
           [(key, VStr ("{{" ++ step_id ++ ".output." ++ field ++ "}}"))] w')
      = Returned [(key, v)].
Proof.
  intros Ha Hr He Hc Hflag Hs Hf N1 N2 N3 N4 N5 Hget Hv.
  destruct (node_function_returned cfg agents step_id agent_name step now w
              agent agent_input output errs flag Ha Hr He Hc Hflag) as (w' & E & Hst).
  exists w'. split; [ exact E | ].
  destruct (segment_chars _ Hs) as [Hs1 Hs2]. destruct (segment_chars _ Hf) as [Hf1 Hf2].
  change ("{{" ++ step_id ++ ".output." ++ field ++ "}}")%string
    with ("" ++ "{{" ++ step_id ++ ".output." ++ field ++ "}}")%string.
  replace (step_id ++ ".output." ++ field ++ "}}")%string
    with ((step_id ++ ".output." ++ field) ++ "}}" ++ "")%string
    by (rewrite !append_assoc; reflexivity).
  rewrite resolve_single_reference.
  - assert (Hslot : dict_get (state w') step_id = Some (VDict output))
      by (rewrite Hst; now apply store_output_slot).
    destruct (navigate_stored_field cfg w' step_id field output v
                Hs1 Hf1 N1 N2 N5 Hslot Hget Hv) as [-> _].
    reflexivity.
  - reflexivity.
  - destruct step_id; discriminate.
  - rewrite !all_chars_append, Hs2, Hf2. reflexivity.
Qed.

Lemma output_reaches_next_node_witness :
  exists w',
    node_function Samples.no_yaml
      [("ProspectSearchAgent", fun _ => Returned (VDict [("leads", VList [VStr "Test Lead 1"])]))]
      "prospect_search" "ProspectSearchAgent" Samples.search_step "2025-01-01T00:00:02"
      (Samples.world_of Samples.initial_run_state) = (Returned (state w'), w') /\
    fst (_resolve_input_references Samples.no_yaml
           [("leads", VStr ("{{" ++ "prospect_search" ++ ".output." ++ "leads" ++ "}}"))] w')
      = Returned [("leads", VList [VStr "Test Lead 1"])].
Proof.
  apply (output_reaches_next_node Samples.no_yaml
           [("ProspectSearchAgent", fun _ => Returned (VDict [("leads", VList [VStr "Test Lead 1"])]))]
           "prospect_search" "ProspectSearchAgent" Samples.search_step "2025-01-01T00:00:02"
           (Samples.world_of Samples.initial_run_state)
           (fun _ => Returned (VDict [("leads", VList [VStr "Test Lead 1"])]))
           [("max_leads", VInt 5)] [("leads", VList [VStr "Test Lead 1"])] []
           (VBool true) (VList [VStr "Test Lead 1"]) "leads" "leads");
    try reflexivity; discriminate.
Defined.

End NodeExecutionMore.

(** * The input checks of the agents *)

Module InputChecksMore.
Import BaseAgent AgentSpec AgentContract Agents ChecksSpec.
Import LangGraphBuilder BuilderSpec GraphBuilder.
Local Open Scope py_scope.

Lemma check_messages_outcome (l : list value) (lg : Log) :
  match fst (OutreachExecutorAgent.check_messages l lg) with
  | Returned None => forallb complete_message l = true
  | Returned (Some r) => r = VBool false /\ forallb complete_message l = false
  | Raised _ => forallb complete_message l = false
  end.
Proof.
  revert lg. induction l as [|msg rest IH]; intros lg; [ reflexivity | ].
  cbn [OutreachExecutorAgent.check_messages forallb].
  destruct msg as [| | | | |items|m]; try reflexivity.
  unfold py_get, bind, ret. cbn [complete_message field_set].
  unfold field_set.
  destruct (dict_get m "lead_email") as [v1|]; cbn;
    [ destruct (truthy v1); cbn | ]; try (split; reflexivity).
  destruct (dict_get m "subject_line") as [v2|]; cbn;
    [ destruct (truthy v2); cbn | ]; try (split; reflexivity).
  destruct (dict_get m "email_body") as [v3|]; cbn;
    [ destruct (truthy v3); cbn | ]; try (split; reflexivity).
  apply IH.
Qed.

(** The check of a class returns a true object exactly on the inputs that
    meet its requirement; on the others it returns a false object or
    raises. *)
Lemma check_outcome (c : agent_class) (input_data : dict) (lg : Log) :
  match fst (validate_input c input_data lg) with
  | Returned v => truthy v = meets c input_data
  | Raised _ => meets c input_data = false
  end.
Proof.
  destruct c; cbn [validate_input]; unfold meets; cbn [required_key admits].
  - unfold ProspectSearchAgent._validate_input. cbn. check.
    destruct (dict_get input_data "icp") as [[]|]; reflexivity.
  - unfold DataEnrichmentAgent._validate_input. check.
    destruct (dict_get input_data "leads") as [[| | | | |[|x l]|]|]; reflexivity.
  - unfold ScoringAgent._validate_input. check.
    destruct (dict_get input_data "enriched_leads") as [[]|]; reflexivity.
  - unfold OutreachContentAgent._validate_input. check.
    destruct (dict_get input_data "ranked_leads") as [[]|]; reflexivity.
  - unfold OutreachExecutorAgent._validate_input. check.
    destruct (dict_get input_data "messages") as [[| | | | |l|]|]; try reflexivity.
    cbn. pose proof (check_messages_outcome l lg) as H.
    destruct (OutreachExecutorAgent.check_messages l lg) as [[[r|]|e] lg'];
      cbn in H |- *.
    + destruct H as [-> H]. now rewrite H.
    + now rewrite H.
    + now rewrite H.
  - unfold ResponseTrackerAgent._validate_input. check.
    destruct (dict_get input_data "campaign_id") as [v|]; reflexivity.
  - unfold FeedbackTrainerAgent._validate_input. check.
    destruct (dict_get input_data "responses") as [v|]; [ | reflexivity ].
    cbn. destruct (dict_get input_data "campaign_metrics") as [m|]; cbn;
      [ | now rewrite andb_false_r ].
    destruct v; cbn; try reflexivity.
    all: match goal with |- context [Z.ltb ?a ?b] => destruct (Z.ltb a b) end;
      reflexivity.
Qed.

(** [_execute] is entered exactly when the check returned a true object. *)
Lemma entered_iff_valid (a : Agent) (clk : Clock) (input_data : dict) (st : AgentState) :
  entered_execute (trace st) (trace (snd (execute a clk input_data st))) <->
  exists v, _validate_input a input_data = Returned v /\ truthy v = true.
Proof.
  split.
  - intros Hen.
    destruct (_validate_input a input_data) as [v|e] eqn:Hv.
    + destruct (truthy v) eqn:Ht; [ now exists v | ].
      exfalso. revert Hen. run. rewrite Hv. cbn. rewrite Ht. cbn.
      repeat rewrite <- app_assoc. apply not_entered.
      cbn. intros d [H|[H|[H|[]]]]; discriminate.
    + exfalso. revert Hen. run. rewrite Hv. cbn.
      repeat rewrite <- app_assoc. apply not_entered.
      cbn. intros d [H|[H|[H|[]]]]; discriminate.
  - intros (v & Hv & Ht).
    exists input_data, [AgentStarted (agent_name a) (dict_keys input_data);
                        EnteredValidate input_data].
    run. rewrite Hv. cbn. rewrite Ht. cbn.
    destruct (_execute a input_data) as [[]|e]; cbn;
      repeat rewrite <- app_assoc; cbn; eexists; reflexivity.
Qed.

(** X22: each of the seven agent classes guards its core logic by its input
    check: during [execute], [_execute] is entered exactly when the input
    holds, under the key of the class, an object the class admits (a dict
    for the prospect search; a list for enrichment, scoring and content; a
    list of complete messages for the executor; anything for the response
    tracker; a sized object, next to a [campaign_metrics] key, for the
    feedback trainer). *)
Theorem core_guarded_by_check (c : agent_class) (agent_id : string)
    (core : dict -> outcome value) (clk : Clock) (input_data : dict) (st : AgentState) :
  entered_execute (trace st)
    (trace (snd (execute (new c agent_id core) clk input_data st)))
  <-> meets c input_data = true.
Proof.
  rewrite entered_iff_valid. cbn [new instance _validate_input].
  pose proof (check_outcome c input_data []) as H.
  destruct (fst (validate_input c input_data [])) as [v|e].
  - split.
    + intros (v' & E & Ht). injection E as <-. congruence.
    + intros Hm. exists v. split; [ reflexivity | congruence ].
  - split.
    + intros (v' & E & _). discriminate.
    + congruence.
Qed.

Lemma check_messages_skips (good tail : list value) (lg : Log) :
  forallb complete_message good = true ->
  OutreachExecutorAgent.check_messages (good ++ tail) lg
  = OutreachExecutorAgent.check_messages tail lg.
Proof.
  induction good as [|msg good IH]; intros H; [ reflexivity | ].
  cbn [forallb] in H. apply andb_true_iff in H as [Hm Hg].
  cbn [app OutreachExecutorAgent.check_messages].
  destruct msg as [| | | | |items|m]; try discriminate.
  cbn [complete_message] in Hm. unfold field_set in Hm.
  unfold py_get, bind, ret.
  destruct (dict_get m "lead_email") as [v1|]; [ | discriminate ].
  destruct (truthy v1); [ | discriminate ].
  destruct (dict_get m "subject_line") as [v2|]; [ | discriminate ].
  destruct (truthy v2); [ | discriminate ].
  destruct (dict_get m "email_body") as [v3|]; [ | discriminate ].
  destruct (truthy v3); [ | discriminate ].
  cbn. now apply IH.
Qed.

(** X23: the executor scans its messages in order and stops at the first
    incomplete one.  A list of complete messages is accepted; a list whose
    first incomplete item is a dict is refused with [False]; when that item
    is not a dict the check raises [AttributeError] instead.  What follows
    the first incomplete item is not looked at. *)
Theorem executor_message_scan (input_data : dict) (l : list value) (lg : Log) :
  dict_get input_data "messages" = Some (VList l) ->
  (forallb complete_message l = true ->
     fst (OutreachExecutorAgent._validate_input input_data lg) = Returned (VBool true)) /\
  (forall good bad rest,
     l = good ++ bad :: rest ->
     forallb complete_message good = true ->
     complete_message bad = false ->
     fst (OutreachExecutorAgent._validate_input input_data lg) =
       if is_dict bad then Returned (VBool false) else Raised (no_get bad)).
Proof.
  intros Hm. unfold OutreachExecutorAgent._validate_input. check. rewrite Hm. cbn.
  split.
  - intros Hall. rewrite <- (app_nil_r l).
    rewrite check_messages_skips by exact Hall. reflexivity.
  - intros good bad rest -> Hgood Hbad.
    rewrite check_messages_skips by exact Hgood.
    cbn [OutreachExecutorAgent.check_messages].
    destruct bad as [| | | | |items|m]; try reflexivity.
    cbn [complete_message] in Hbad. unfold field_set in Hbad.
    unfold py_get, bind, ret. cbn [is_dict].
    destruct (dict_get m "lead_email") as [v1|]; cbn; [ | reflexivity ].
    destruct (truthy v1); cbn; [ | reflexivity ].
    destruct (dict_get m "subject_line") as [v2|]; cbn; [ | reflexivity ].
    destruct (truthy v2); cbn; [ | reflexivity ].
    destruct (dict_get m "email_body") as [v3|]; cbn; [ | reflexivity ].
    destruct (truthy v3); cbn; [ discriminate | reflexivity ].
Qed.

Lemma executor_message_scan_witness :
  fst (OutreachExecutorAgent._validate_input
         [("messages",
           VList [ VDict [("lead_email", VStr "a@example.com");
                          ("subject_line", VStr "Hello");
                          ("email_body", VStr "Hi there")];
                   VStr "not a message";
                   VInt 3 ])] [])
  = Raised (no_get (VStr "not a message")).
Proof.
  refine (proj2 (executor_message_scan _ _ [] _)
            [ VDict [("lead_email", VStr "a@example.com");
                     ("subject_line", VStr "Hello");
                     ("email_body", VStr "Hi there")] ]
            (VStr "not a message") [VInt 3] _ _ _); reflexivity.
Defined.



Lemma none_refused (c : agent_class) (input_data : dict) :
  dict_get input_data (required_key c) = Some VNone ->
  admits c VNone = false ->
  (forall m, c <> FeedbackTrainer m) ->
  fst (validate_input c input_data []) = Returned (VBool false).
Proof.
  intros Hk Ha Hc.
  destruct c; cbn [validate_input required_key] in *; try discriminate.
  - unfold ProspectSearchAgent._validate_input. cbn. check. now rewrite Hk.
  - unfold DataEnrichmentAgent._validate_input. check. now rewrite Hk.
  - unfold ScoringAgent._validate_input. check. now rewrite Hk.
  - unfold OutreachContentAgent._validate_input. check. now rewrite Hk.
  - unfold OutreachExecutorAgent._validate_input. check. now rewrite Hk.
  - now destruct (Hc min_sample_size).
Qed.

Lemma refused_call (a : Agent) (clk : Clock) (input_data : dict) (st : AgentState)
    (v : value) :
  _validate_input a input_data = Returned v ->
  truthy v = false ->
  fst (execute a clk input_data st) = Returned (refused_output a clk).
Proof.
  intros Hv Ht. unfold refused_output, elapsed. run. rewrite Hv. cbn. rewrite Ht.
  reflexivity.
Qed.

(** X25: an input that failed to resolve stops at the agent's check and is
    recorded by the node.  When the resolved input of a step holds [None]
    under the key its agent requires (what a reference that could not be
    followed resolves to), the agent's [execute] returns its refusal, and
    the node stores that refusal under the step id and appends one record
    with the text "Input validation failed for <class name>" to the errors.
    This holds for the classes that do not admit [None], the feedback
    trainer apart. *)
Theorem unresolved_input_is_recorded (cfg : ConfigLoader)
    (agents : list (string * agent_callable)) (step_id : string)
    (step : JsonValidator.WorkflowStep) (now : string) (w : World)
    (c : agent_class) (agent_id : string) (core : dict -> outcome value)
    (clk : Clock) (ast : AgentState) (agent_input : dict) (errs : list value) :
  agents_get agents (class_name c)
    = Some (bound_execute (new c agent_id core) clk ast) ->
  fst (_resolve_input_references cfg (JsonValidator.inputs step) w) = Returned agent_input ->
  errors_are (state w) errs ->
  dict_get agent_input (required_key c) = Some VNone ->
  admits c VNone = false ->
  (forall m, c <> FeedbackTrainer m) ->
  step_id <> "current_step" -> step_id <> "completed_steps" -> step_id <> "errors" ->
  exists w',
    node_function cfg agents step_id (class_name c) step now w = (Returned (state w'), w') /\
    dict_get (state w') step_id = Some (VDict (refused_output (new c agent_id core) clk)) /\
    errors_are (state w')
      (errs ++ [error_record step_id
                  (VStr ("Input validation failed for " ++ class_name c)) now]).
Proof.
  intros Ha Hr He Hk Hadm Hc H1 H2 H3.
  pose proof (none_refused c agent_input Hk Hadm Hc) as Hv.
  assert (Hcall : bound_execute (new c agent_id core) clk ast agent_input
                  = Returned (VDict (refused_output (new c agent_id core) clk))).
  { unfold bound_execute.
    rewrite (refused_call (new c agent_id core) clk agent_input ast (VBool false));
      [ reflexivity | exact Hv | reflexivity ]. }
  destruct (node_function_returned cfg agents step_id (class_name c) step now w
              _ agent_input _ errs (VBool false) Ha Hr He Hcall eq_refl)
    as (w' & E & Hs).
  exists w'. split; [ exact E | ]. rewrite Hs. cbn [truthy].
  split.
  - unfold store_output. rewrite !dict_get_set_other by congruence.
    apply dict_get_set_same.
  - unfold errors_are, store_output.
    rewrite !dict_get_set_other by (congruence || discriminate).
    apply dict_get_set_same.
Qed.

Lemma unresolved_input_is_recorded_witness :
  exists w',
    node_function Samples.no_yaml
      [("ScoringAgent",
        bound_execute (new Scoring "graph_scoring" (fun _ => Returned (VDict [])))
          Samples.clock initial_state)]
      "scoring" (class_name Scoring) Samples.plain_step "2025-01-01T00:00:02"
      (Samples.world_of Samples.initial_run_state) = (Returned (state w'), w') /\
    dict_get (state w') "scoring"
      = Some (VDict (refused_output
                       (new Scoring "graph_scoring" (fun _ => Returned (VDict [])))
                       Samples.clock)) /\
    errors_are (state w')
      ([] ++ [error_record "scoring"
                (VStr ("Input validation failed for " ++ class_name Scoring))
                "2025-01-01T00:00:02"]).
Proof.
  apply (unresolved_input_is_recorded Samples.no_yaml
           [("ScoringAgent",
             bound_execute (new Scoring "graph_scoring" (fun _ => Returned (VDict [])))
               Samples.clock initial_state)]
           "scoring" Samples.plain_step "2025-01-01T00:00:02"
           (Samples.world_of Samples.initial_run_state)
           Scoring "graph_scoring" (fun _ => Returned (VDict []))
           Samples.clock initial_state [("enriched_leads", VNone)] []);
    try reflexivity; discriminate.
Defined.

End InputChecksMore.

(** * The construction of the graph *)

Module GraphConstructionMore.
Import LangGraphBuilder BuilderSpec PyStrFacts.
Local Open Scope py_scope.

Lemma bind_ret {S A B : Type} (a : A) (k : A -> M S B) (s : S) :
  bind (ret a) k s = k a s.
Proof. reflexivity. Qed.

Lemma node_map_get_set_same (m : list (string * string)) (k v : string) :
  node_map_get (node_map_set m k v) k = Some v.
Proof.
  induction m as [|[k' v'] m IH]; cbn.
  - now rewrite String.eqb_refl.
  - destruct (String.eqb k' k) eqn:E; cbn; rewrite E; [ reflexivity | exact IH ].
Qed.

Lemma node_map_get_set_other (m : list (string * string)) (k k0 v : string) :
  k0 <> k -> node_map_get (node_map_set m k v) k0 = node_map_get m k0.
Proof.
  intros H. induction m as [|[k' v'] m IH]; cbn.
  - destruct (String.eqb k k0) eqn:E; [ | reflexivity ].
    apply String.eqb_eq in E. congruence.
  - destruct (String.eqb k' k) eqn:E; cbn.
    + apply String.eqb_eq in E. subst k'.
      destruct (String.eqb k k0) eqn:E0; [ | reflexivity ].
      apply String.eqb_eq in E0. congruence.
    + destruct (String.eqb k' k0); [ reflexivity | exact IH ].
Qed.

Lemma node_map_after_get (l : list JsonValidator.WorkflowStep) (m : list (string * string))
    (k : string) :
  In k (map JsonValidator.id l) \/ node_map_get m k = Some (node_name k) ->
  node_map_get (node_map_after l m) k = Some (node_name k).
Proof.
  revert m. induction l as [|s l IH]; intros m H.
  - destruct H as [[]|H]. exact H.
  - cbn [node_map_after fold_left]. apply IH.
    destruct (string_dec k (JsonValidator.id s)) as [->|Hne].
    + right. apply node_map_get_set_same.
    + destruct H as [[H|H]|H].
      * congruence.
      * now left.
      * right. now rewrite node_map_get_set_other.
Qed.

Lemma mem_absent (x : string) (l : list string) : ~ In x l -> mem x l = false.
Proof.
  intros H. unfold mem. destruct (existsb (String.eqb x) l) eqn:E; [ | reflexivity ].
  apply existsb_exists in E as (y & Hy & Exy). apply String.eqb_eq in Exy. now subst y.
Qed.

(** The loop that adds the nodes runs to its end when no name comes
    twice. *)
Lemma add_nodes_run (cfg : ConfigLoader) (agents : list (string * agent_callable))
    (l : list JsonValidator.WorkflowStep) (m : list (string * string))
    (ns : list (string * (string -> M World dict))) (e : option string)
    (es : list (string * target)) (lg : list log_record) :
  NoDup (map fst ns ++ map node_name (map JsonValidator.id l)) ->
  exists lg',
    add_nodes cfg agents l m {| workflow := graph_of ns e es; build_log := lg |}
    = (Returned (node_map_after l m),
       {| workflow := graph_of (ns ++ map (node_entry cfg agents) l) e es;
          build_log := lg' |}).
Proof.
  revert m ns lg. induction l as [|s l IH]; intros m ns lg Hnd.
  - exists lg. cbn. now rewrite app_nil_r.
  - cbn [add_nodes]. unfold bind at 1. unfold build_logger at 1. unfold modify at 1.
    cbn [workflow build_log]. unfold bind at 1. unfold add_node at 1.
    unfold bind at 1. unfold get at 1. cbn [workflow build_log nodes graph_of].
    cbn [map] in Hnd.
    rewrite mem_absent.
    2:{ apply NoDup_remove_2 in Hnd. intros Hin. apply Hnd.
        apply in_or_app. now left. }
    unfold on_workflow, modify. cbn [workflow build_log nodes entry_point edges graph_of].
    destruct (IH (node_map_set m (JsonValidator.id s) (JsonValidator.id s ++ "_node"))
                 (ns ++ [node_entry cfg agents s])
                 (lg ++ [(INFO, ("   Adding node: " ++ (JsonValidator.id s ++ "_node") ++ " ("
                                   ++ JsonValidator.agent s ++ ")")%string)]))
      as (lg' & E).
    { rewrite map_app. cbn [map node_entry fst]. rewrite <- app_assoc. exact Hnd. }
    exists lg'. unfold graph_of, node_entry, node_name in E |- *.
    rewrite E. cbn [map node_map_after fold_left]. rewrite <- app_assoc. reflexivity.
Qed.

(** A name that is already there stops the loop. *)
Lemma add_nodes_repeated (cfg : ConfigLoader) (agents : list (string * agent_callable))
    (l : list JsonValidator.WorkflowStep) (s : JsonValidator.WorkflowStep)
    (rest : list JsonValidator.WorkflowStep) (m : list (string * string))
    (ns : list (string * (string -> M World dict))) (e : option string)
    (es : list (string * target)) (lg : list log_record) :
  NoDup (map fst ns ++ map node_name (map JsonValidator.id l)) ->
  In (node_name (JsonValidator.id s)) (map fst ns ++ map node_name (map JsonValidator.id l)) ->
  fst (add_nodes cfg agents (l ++ s :: rest) m
         {| workflow := graph_of ns e es; build_log := lg |})
  = Raised (Exn "ValueError" ("Node `" ++ node_name (JsonValidator.id s) ++ "` already present.")).
Proof.
  revert m ns lg. induction l as [|s0 l IH]; intros m ns lg Hnd Hin.
  - cbn [app add_nodes]. unfold bind at 1. unfold build_logger at 1. unfold modify at 1.
    cbn [workflow build_log]. unfold bind at 1. unfold add_node at 1.
    unfold bind at 1. unfold get at 1. cbn [workflow build_log nodes graph_of].
    cbn [map] in Hin. rewrite app_nil_r in Hin.
    assert (Hm : mem (node_name (JsonValidator.id s)) (map fst ns) = true).
    { unfold mem. apply existsb_exists. eexists. split; [ exact Hin | apply String.eqb_refl ]. }
    unfold node_name in Hm |- *. rewrite Hm. reflexivity.
  - cbn [app add_nodes]. unfold bind at 1. unfold build_logger at 1. unfold modify at 1.
    cbn [workflow build_log]. unfold bind at 1. unfold add_node at 1.
    unfold bind at 1. unfold get at 1. cbn [workflow build_log nodes graph_of].
    cbn [map] in Hnd, Hin.
    rewrite mem_absent.
    2:{ apply NoDup_remove_2 in Hnd. intros Hi. apply Hnd. apply in_or_app. now left. }
    unfold on_workflow, modify. cbn [workflow build_log nodes entry_point edges graph_of].
    fold (node_entry cfg agents s0).
    fold (graph_of (ns ++ [node_entry cfg agents s0]) e es).
    apply IH.
    + rewrite map_app. cbn [map node_entry fst]. rewrite <- app_assoc. exact Hnd.
    + rewrite map_app. cbn [map node_entry fst]. rewrite <- app_assoc. exact Hin.
Qed.

Lemma last_default (l : list string) (c a b : string) :
  last (c :: l) a = last (c :: l) b.
Proof.
  revert c. induction l as [|d l IH]; intros c; [ reflexivity | ].
  change (last (c :: d :: l) a) with (last (d :: l) a).
  change (last (c :: d :: l) b) with (last (d :: l) b). apply IH.
Qed.

Lemma last_cons (l : list string) (c a : string) :
  last (c :: l) a = last l c.
Proof.
  destruct l as [|d l]; [ reflexivity | ].
  change (last (c :: d :: l) a) with (last (d :: l) a). apply last_default.
Qed.

Lemma chain_links (a : string) (rest : list string) :
  chain (a :: rest) = links (a :: rest) ++ [(last rest a, END)].
Proof.
  revert a. induction rest as [|b rest IH]; intros a; [ reflexivity | ].
  change (chain (a :: b :: rest)) with ((a, Node b) :: chain (b :: rest)).
  rewrite IH. rewrite (last_cons rest b a). reflexivity.
Qed.

Lemma add_edges_run (pre : list string) (a : string) (rest : list string)
    (m : list (string * string))
    (ns : list (string * (string -> M World dict))) (e : option string)
    (es : list (string * target)) (lg : list log_record) :
  (forall k, In k (a :: rest) -> node_map_get m k = Some (node_name k)) ->
  add_edges (pre ++ a :: rest) m (List.length pre) (List.length rest)
    {| workflow := graph_of ns e es; build_log := lg |}
  = (Returned tt,
     {| workflow := graph_of ns e (es ++ links (map node_name (a :: rest)));
        build_log := lg |}).
Proof.
  revert pre a es. induction rest as [|b rest IH]; intros pre a es Hm.
  - cbn. now rewrite app_nil_r.
  - cbn [List.length add_edges].
    unfold steps_item.
    rewrite nth_error_app2 by lia. rewrite Nat.sub_diag. cbn [nth_error].
    replace (pre ++ a :: b :: rest) with ((pre ++ [a]) ++ b :: rest)
      by (rewrite <- app_assoc; reflexivity).
    rewrite (nth_error_app2 (pre ++ [a])) by (rewrite length_app; cbn; lia).
    replace (List.length pre + 1 - List.length (pre ++ [a]))%nat with O
      by (rewrite length_app; cbn; lia).
    cbn [nth_error].
    unfold node_map_item.
    rewrite bind_ret. rewrite (Hm a) by (now left).
    rewrite bind_ret. rewrite bind_ret. rewrite (Hm b) by (right; now left).
    rewrite bind_ret.
    unfold bind at 1. unfold add_edge at 1. unfold on_workflow, modify.
    cbn [workflow build_log nodes entry_point edges graph_of].
    replace (S (List.length pre)) with (List.length (pre ++ [a]))
      by (rewrite length_app; cbn; lia).
    fold (graph_of ns e (es ++ [(node_name a, Node (node_name b))])).
    rewrite IH by (intros k Hk; apply Hm; now right).
    cbn [map links]. rewrite <- app_assoc. reflexivity.
Qed.

Lemma last_map_node_name (rest : list string) (a : string) :
  last (map node_name rest) (node_name a) = node_name (last rest a).
Proof.
  revert a. induction rest as [|b rest IH]; intros a; [ reflexivity | ].
  cbn [map]. rewrite !last_cons. apply IH.
Qed.

Lemma last_in (rest : list string) (a : string) : In (last rest a) (a :: rest).
Proof.
  revert a. induction rest as [|b rest IH]; intros a; [ now left | ].
  right. rewrite last_cons. apply IH.
Qed.

Lemma length_append (s t : string) :
  String.length (s ++ t) = (String.length s + String.length t)%nat.
Proof. induction s as [|c s IH]; cbn; [ reflexivity | now rewrite IH ]. Qed.

Lemma node_name_injective (a b : string) : node_name a = node_name b -> a = b.
Proof.
  unfold node_name. revert b. induction a as [|c a IH]; intros [|d b] H.
  - reflexivity.
  - apply (f_equal String.length) in H. cbn in H. rewrite length_append in H. cbn in H. lia.
  - apply (f_equal String.length) in H. cbn in H. rewrite length_append in H. cbn in H. lia.
  - cbn in H. injection H as -> H. f_equal. now apply IH.
Qed.

Lemma node_names_distinct (l : list string) : NoDup l -> NoDup (map node_name l).
Proof.
  induction 1 as [|a l Hin _ IH]; cbn; constructor; [ | exact IH ].
  intros H. apply in_map_iff in H as (b & E & Hb).
  apply node_name_injective in E. now subst b.
Qed.

(** The graph [build_graph] returns for a workflow with at least one
    step. *)
Lemma build_graph_structure (cfg : ConfigLoader) (agents : list (string * agent_callable))
    (name description : string) (first : JsonValidator.WorkflowStep)
    (rest : list JsonValidator.WorkflowStep) (b : Build) :
  NoDup (map JsonValidator.id (first :: rest)) ->
  fst (build_graph cfg agents
         {| JsonValidator.workflow_name := name;
            JsonValidator.description := description;
            JsonValidator.steps := first :: rest |} b)
  = Returned
      (graph_of (map (node_entry cfg agents) (first :: rest))
         (Some (node_name (JsonValidator.id first)))
         (chain (map node_name (map JsonValidator.id (first :: rest))))).
Proof.
  intros Hnd.
  unfold build_graph. cbn [JsonValidator.steps].
  unfold bind at 1. unfold build_logger at 1. unfold modify at 1.
  unfold bind at 1. unfold new_graph at 1. unfold on_workflow at 1. unfold modify at 1.
  cbn [workflow build_log].
  fold (graph_of [] None []).
  unfold bind at 1.
  destruct (add_nodes_run cfg agents (first :: rest) [] [] None []
              (build_log b ++ [(INFO, "  Building LangGraph from workflow definition...")]))
    as (lg1 & E1).
  { cbn [map app]. now apply node_names_distinct in Hnd. }
  rewrite E1. cbn [app].
  assert (Hm : forall k, In k (map JsonValidator.id (first :: rest)) ->
                 node_map_get (node_map_after (first :: rest) []) k = Some (node_name k)).
  { intros k Hk. apply node_map_after_get. now left. }
  cbn [map] in Hm |- *.
  unfold steps_item at 1. cbn [nth_error].
  unfold bind at 1. unfold ret at 1.
  unfold node_map_item at 1. rewrite (Hm (JsonValidator.id first)) by (now left).
  unfold bind at 1. unfold ret at 1.
  unfold bind at 1. unfold set_entry_point at 1. unfold on_workflow at 1. unfold modify at 1.
  cbn [workflow build_log nodes entry_point edges graph_of].
  fold (graph_of (node_entry cfg agents first :: map (node_entry cfg agents) rest)
          (Some (node_name (JsonValidator.id first))) []).
  unfold bind at 1.
  cbn [List.length]. rewrite Nat.sub_succ, Nat.sub_0_r.
  pose proof (add_edges_run [] (JsonValidator.id first) (map JsonValidator.id rest)
                (node_map_after (first :: rest) [])
                (node_entry cfg agents first :: map (node_entry cfg agents) rest)
                (Some (node_name (JsonValidator.id first))) [] lg1 Hm) as E2.
  cbn [app List.length] in E2. rewrite E2.
  unfold steps_last at 1.
  unfold bind at 1. unfold ret at 1.
  unfold node_map_item at 1.
  rewrite (Hm (last (map JsonValidator.id rest) (JsonValidator.id first)))
    by apply last_in.
  unfold bind at 1. unfold ret at 1.
  unfold bind at 1. unfold add_edge at 1. unfold on_workflow at 1. unfold modify at 1.
  cbn [workflow build_log nodes entry_point edges graph_of].
  unfold bind at 1. unfold build_logger at 1. unfold modify at 1.
  cbn [workflow build_log].
  unfold bind, get, ret. cbn [fst workflow].
  unfold graph_of. f_equal. f_equal.
  rewrite (chain_links (node_name (JsonValidator.id first))).
  cbn [map]. rewrite last_map_node_name. reflexivity.
Qed.

(** X26: [build_graph] lays steps with pairwise distinct ids out as one
    chain in the order of their declaration: it adds one node per step,
    named by the step id with the suffix [_node] and running the node
    function of that step; the entry point is the node of the first step;
    each node has an edge to the node of the next step and the last one an
    edge to [END].  For a workflow without steps it raises [IndexError],
    and at the first step whose id came before it raises the [ValueError]
    of the graph library for a node name that is already present. *)
Theorem graph_follows_declaration (cfg : ConfigLoader)
    (agents : list (string * agent_callable)) (workflow_def : JsonValidator.WorkflowDefinition)
    (b : Build) :
  (JsonValidator.steps workflow_def = [] ->
   fst (build_graph cfg agents workflow_def b)
   = Raised (Exn "IndexError" "list index out of range")) /\
  (forall first rest,
     JsonValidator.steps workflow_def = first :: rest ->
     NoDup (map JsonValidator.id (JsonValidator.steps workflow_def)) ->
     exists g,
       fst (build_graph cfg agents workflow_def b) = Returned g /\
       nodes g = map (fun s => (node_name (JsonValidator.id s),
                                node_function cfg agents (JsonValidator.id s)
                                  (JsonValidator.agent s) s))
                     (JsonValidator.steps workflow_def) /\
       entry_point g = Some (node_name (JsonValidator.id first)) /\
       edges g = chain (map (fun s => node_name (JsonValidator.id s))
                            (JsonValidator.steps workflow_def))) /\
  (forall l s rest,
     JsonValidator.steps workflow_def = l ++ s :: rest ->
     NoDup (map JsonValidator.id l) ->
     In (JsonValidator.id s) (map JsonValidator.id l) ->
     fst (build_graph cfg agents workflow_def b)
     = Raised (Exn "ValueError"
                 ("Node `" ++ node_name (JsonValidator.id s) ++ "` already present."))).
Proof.
  destruct workflow_def as [name description sts]; cbn [JsonValidator.steps].
  split; [ | split ].
  - intros ->. reflexivity.
  - intros first rest -> Hnd.
    eexists. split; [ now apply build_graph_structure | ].
    cbn [nodes entry_point edges graph_of].
    split; [ reflexivity | ]. split; [ reflexivity | ].
    now rewrite map_map.
  - intros l s rest -> Hnd Hin.
    unfold build_graph. cbn [JsonValidator.steps].
    unfold bind at 1. unfold build_logger at 1. unfold modify at 1.
    unfold bind at 1. unfold new_graph at 1. unfold on_workflow at 1. unfold modify at 1.
    cbn [workflow build_log].
    fold (graph_of [] None []).
    unfold bind at 1.
    pose proof (add_nodes_repeated cfg agents l s rest [] [] None []
                  (build_log b ++ [(INFO, "  Building LangGraph from workflow definition...")]))
      as E.
    cbn [map app] in E.
    specialize (E (node_names_distinct _ Hnd) (in_map node_name _ _ Hin)).
    destruct (add_nodes cfg agents (l ++ s :: rest) [] _) as [o b'].
    cbn [fst] in E. rewrite E. reflexivity.
Qed.

Lemma graph_follows_declaration_witness :
  exists g,
    fst (build_graph Samples.no_yaml Samples.registry Samples.two_steps
           {| workflow := {| nodes := []; entry_point := None; edges := [] |};
              build_log := [] |}) = Returned g /\
    map fst (nodes g) = ["search_node"; "score_node"] /\
    entry_point g = Some "search_node" /\
    edges g = [("search_node", Node "score_node"); ("score_node", END)].
Proof.
  destruct (proj1 (proj2 (graph_follows_declaration Samples.no_yaml Samples.registry
                            Samples.two_steps
                            {| workflow := {| nodes := []; entry_point := None; edges := [] |};
                               build_log := [] |}))
              _ _ eq_refl) as (g & E & Hn & He & Hedges).
  - repeat constructor; cbn; intuition discriminate.
  - exists g. rewrite Hn, He, Hedges. repeat split. exact E.
Defined.

Lemma successor_skip (es es' : list (string * target)) (n : string) :
  (forall e, In e es -> fst e <> n) ->
  successor (es ++ es') n = successor es' n.
Proof.
  induction es as [|[a t] es IH]; intros H; [ reflexivity | ].
  cbn. destruct (String.eqb a n) eqn:E.
  - apply String.eqb_eq in E. now destruct (H (a, t) (or_introl eq_refl)).
  - apply IH. intros e He. apply H. now right.
Qed.

Lemma route_chain (rest : list string) (a : string) (pre : list (string * target)) :
  NoDup (a :: rest) ->
  (forall e, In e pre -> ~ In (fst e) (a :: rest)) ->
  route (pre ++ chain (a :: rest)) (List.length (a :: rest)) a = (a :: rest, true).
Proof.
  revert a pre. induction rest as [|b rest IH]; intros a pre Hnd Hpre.
  - cbn [List.length route]. rewrite successor_skip.
    + cbn. now rewrite String.eqb_refl.
    + intros e He E. apply (Hpre e He). now left.
  - change (List.length (a :: b :: rest)) with (S (List.length (b :: rest))).
    cbn [route]. rewrite successor_skip
      by (intros e He E; apply (Hpre e He); now left).
    change (chain (a :: b :: rest)) with ((a, Node b) :: chain (b :: rest)).
    cbn [successor]. rewrite String.eqb_refl.
    replace (pre ++ (a, Node b) :: chain (b :: rest))
      with ((pre ++ [(a, Node b)]) ++ chain (b :: rest))
      by (rewrite <- app_assoc; reflexivity).
    inversion Hnd as [|? ? Ha Hnd']; subst.
    rewrite IH; [ reflexivity | exact Hnd' | ].
    intros e He. apply in_app_or in He as [He|[<-|[]]].
    + intros Hin. apply (Hpre e He). now right.
    + exact Ha.
Qed.

(** X27: when the step ids are distinct, following the edges of the graph
    from its entry point visits the node of every step once, in the order
    of declaration, and then reaches [END]. *)
Theorem route_visits_steps_in_order (cfg : ConfigLoader)
    (agents : list (string * agent_callable)) (workflow_def : JsonValidator.WorkflowDefinition)
    (b : Build) :
  JsonValidator.steps workflow_def <> [] ->
  NoDup (map JsonValidator.id (JsonValidator.steps workflow_def)) ->
  exists g entry,
    fst (build_graph cfg agents workflow_def b) = Returned g /\
    entry_point g = Some entry /\
    route (edges g) (List.length (nodes g)) entry
    = (map node_name (map JsonValidator.id (JsonValidator.steps workflow_def)), true).
Proof.
  destruct workflow_def as [name description [|first rest]]; cbn [JsonValidator.steps];
    intros Hne Hnd; [ congruence | ].
  eexists. eexists. split; [ now apply build_graph_structure | ].
  cbn [nodes entry_point edges graph_of]. split; [ reflexivity | ].
  apply node_names_distinct in Hnd. cbn [map] in Hnd |- *.
  rewrite <- (route_chain _ _ [] Hnd) by (intros e []).
  cbn [app List.length]. now rewrite !length_map.
Qed.

Lemma route_visits_steps_in_order_witness :
  exists g entry,
    fst (build_graph Samples.no_yaml Samples.registry Samples.two_steps
           {| workflow := {| nodes := []; entry_point := None; edges := [] |};
              build_log := [] |}) = Returned g /\
    entry_point g = Some entry /\
    route (edges g) (List.length (nodes g)) entry = (["search_node"; "score_node"], true).
Proof.
  apply (route_visits_steps_in_order Samples.no_yaml Samples.registry Samples.two_steps).
  - discriminate.
  - repeat constructor; cbn; intuition discriminate.
Defined.

Lemma accepted_is_well_formed (rt : JsonValidator.Runtime)
    (disk : string -> JsonValidator.file_content) (path : string)
    (w : JsonValidator.WorkflowDefinition) :
  fst (JsonValidator.validate_workflow_file rt disk path) = Returned w ->
  (exists data, disk (JsonValidator.Path path) = JsonValidator.JsonDoc (VDict data) /\
                ValidatorSpec.verdict rt data = JsonValidator.Built w) /\
  JsonValidator.steps w <> [] /\
  NoDup (map JsonValidator.id (JsonValidator.steps w)).
Proof.
  intros Hw.
  assert (Hv : exists data, disk (JsonValidator.Path path) = JsonValidator.JsonDoc (VDict data) /\
                            ValidatorSpec.verdict rt data = JsonValidator.Built w).
  { destruct (disk (JsonValidator.Path path)) as [|msg|doc] eqn:Hd.
    - exfalso. revert Hw.
      unfold JsonValidator.validate_workflow_file, JsonValidator.validate,
        JsonValidator.load_workflow, JsonValidator.new_validator.
      remember (JsonValidator.Path path) as p. unfold bind, get, raise; cbn.
      rewrite Hd. discriminate.
    - exfalso. revert Hw.
      unfold JsonValidator.validate_workflow_file, JsonValidator.validate,
        JsonValidator.load_workflow, JsonValidator.new_validator.
      remember (JsonValidator.Path path) as p. unfold bind, get, raise; cbn.
      rewrite Hd. discriminate.
    - destruct doc as [ | | | | | |data];
        try (exfalso; revert Hw;
             unfold JsonValidator.validate_workflow_file, JsonValidator.validate,
               JsonValidator.load_workflow, JsonValidator.new_validator;
             remember (JsonValidator.Path path) as p; unfold bind, get, raise; cbn;
             rewrite Hd; cbn; discriminate).
      exists data. split; [ reflexivity | ].
      destruct (WorkflowValidationMore.verdict_cases rt data) as [(w' & Hv) | (errors & Hv)].
      + rewrite (WorkflowValidation.validate_workflow_file_built rt disk path data w' Hd Hv)
          in Hw.
        now injection Hw as <-.
      + destruct (WorkflowValidation.validate_rejected rt disk path data errors Hd Hv)
          as (v' & Ev & _).
        unfold JsonValidator.validate_workflow_file in Hw. unfold bind at 1 in Hw.
        rewrite Ev in Hw. discriminate. }
  split; [ exact Hv | ].
  destruct Hv as (data & _ & Hv).
  exact (WorkflowValidationMore.verdict_built_steps rt data w Hv).
Qed.

(** X28: every workflow file that [validate_workflow_file] accepts can be
    built: the file holds a JSON object from which the returned definition
    was constructed, and for that definition [build_graph] returns a graph
    (the lookups of its first and last step cannot fail, and no node is
    added twice); the route from the entry point of that graph visits the
    node of every step of the file once, in the order of the file, and ends
    at [END]. *)
Theorem accepted_workflow_builds (rt : JsonValidator.Runtime)
    (disk : string -> JsonValidator.file_content)
    (path : string) (w : JsonValidator.WorkflowDefinition) (cfg : ConfigLoader)
    (agents : list (string * agent_callable)) (b : Build) :
  fst (JsonValidator.validate_workflow_file rt disk path) = Returned w ->
  exists g entry,
    (exists data, disk (JsonValidator.Path path) = JsonValidator.JsonDoc (VDict data) /\
                  ValidatorSpec.verdict rt data = JsonValidator.Built w) /\
    fst (build_graph cfg agents w b) = Returned g /\
    entry_point g = Some entry /\
    route (edges g) (List.length (nodes g)) entry
    = (map node_name (map JsonValidator.id (JsonValidator.steps w)), true).
Proof.
  intros Hw. apply accepted_is_well_formed in Hw as (Hd & Hne & Hnd).
  destruct w as [name description [|first rest]]; cbn [JsonValidator.steps] in *;
    [ congruence | ].
  eexists. eexists. split; [ exact Hd | ].
  split; [ now apply build_graph_structure | ].
  cbn [nodes entry_point edges graph_of]. split; [ reflexivity | ].
  apply node_names_distinct in Hnd. cbn [map] in Hnd |- *.
  rewrite <- (route_chain _ _ [] Hnd) by (intros e []).
  cbn [app List.length]. now rewrite !length_map.
Qed.

Lemma accepted_workflow_builds_witness :
  exists g entry,
    (exists data,
       Samples.disk_with Samples.two_steps (JsonValidator.Path "workflow.json")
         = JsonValidator.JsonDoc (VDict data) /\
       ValidatorSpec.verdict Samples.runtime data = JsonValidator.Built Samples.two_steps) /\
    fst (build_graph Samples.no_yaml Samples.registry Samples.two_steps
           {| workflow := {| nodes := []; entry_point := None; edges := [] |};
              build_log := [] |}) = Returned g /\
    entry_point g = Some entry /\
    route (edges g) (List.length (nodes g)) entry = (["search_node"; "score_node"], true).
Proof.
  apply (accepted_workflow_builds Samples.runtime (Samples.disk_with Samples.two_steps)
           "workflow.json" Samples.two_steps Samples.no_yaml Samples.registry).
  vm_compute. reflexivity.
Defined.

End GraphConstructionMore.
